(** * STK500v2 bootloader (stk500boot.c): frame parser, command dispatcher
      and reply encoder, embedded as functions on an explicit machine state.

    Integers are [Z] with the C wrap-around written out ([u8], [u16],
    [address_t]); memories are total maps from offsets to bytes. *)

From Stdlib Require Import ZArith List Bool Lia.
Import ListNotations.
Local Open Scope Z_scope.

(** ** Machine integers *)

Definition u8 (x : Z) : Z := x mod 256.
Definition u16 (x : Z) : Z := x mod 65536.

Definition is_byte (x : Z) : Prop := 0 <= x < 256.

(** A memory: offset -> byte.  [upd m k v] is the store [m[k] = v]. *)
Definition upd (m : Z -> Z) (k v : Z) : Z -> Z :=
  fun j => if j =? k then v else m j.

(** ** Protocol constants *)

(** Modelled from the spec: command.h is not among the sources.  The spec
    fixes the start marker 0x1B, the token 0x0E, sign-on 0x01 and status-OK
    0x00 (scenario 1) and says that the command and status codes follow the
    STK500v2 numeric assignments (Atmel application note AVR068), which are
    the values below. *)
Definition MESSAGE_START : Z := 0x1B.
Definition TOKEN : Z := 0x0E.

Definition CMD_SIGN_ON : Z := 0x01.
Definition CMD_SET_PARAMETER : Z := 0x02.
Definition CMD_GET_PARAMETER : Z := 0x03.
Definition CMD_LOAD_ADDRESS : Z := 0x06.
Definition CMD_ENTER_PROGMODE_ISP : Z := 0x10.
Definition CMD_LEAVE_PROGMODE_ISP : Z := 0x11.
Definition CMD_CHIP_ERASE_ISP : Z := 0x12.
Definition CMD_PROGRAM_FLASH_ISP : Z := 0x13.
Definition CMD_READ_FLASH_ISP : Z := 0x14.
Definition CMD_PROGRAM_EEPROM_ISP : Z := 0x15.
Definition CMD_READ_EEPROM_ISP : Z := 0x16.
Definition CMD_READ_FUSE_ISP : Z := 0x18.
Definition CMD_READ_LOCK_ISP : Z := 0x1A.
Definition CMD_READ_SIGNATURE_ISP : Z := 0x1B.
Definition CMD_SPI_MULTI : Z := 0x1D.

Definition STATUS_CMD_OK : Z := 0x00.
Definition STATUS_CMD_FAILED : Z := 0xC0.

Definition PARAM_BUILD_NUMBER_LOW : Z := 0x80.
Definition PARAM_BUILD_NUMBER_HIGH : Z := 0x81.
Definition PARAM_HW_VER : Z := 0x90.
Definition PARAM_SW_MAJOR : Z := 0x91.
Definition PARAM_SW_MINOR : Z := 0x92.

(** Constants defined in stk500boot.c itself. *)
Definition CMD_PROGRAMMER_TIMEOUT : Z := 0x2F.

Definition CONFIG_PARAM_BUILD_NUMBER_LOW : Z := 0.
Definition CONFIG_PARAM_BUILD_NUMBER_HIGH : Z := 0.
Definition CONFIG_PARAM_HW_VER : Z := 0x0F.
Definition CONFIG_PARAM_SW_MAJOR : Z := 2.
Definition CONFIG_PARAM_SW_MINOR : Z := 0x0A.

(** Selectors of boot_lock_fuse_bits_get (avr/boot.h). *)
Definition GET_LOW_FUSE_BITS : Z := 0x0000.
Definition GET_LOCK_BITS : Z := 0x0001.
Definition GET_EXTENDED_FUSE_BITS : Z := 0x0002.
Definition GET_HIGH_FUSE_BITS : Z := 0x0003.

(** Size of [msgBuffer]: offsets 0..284 are the array. *)
Definition MSG_BUFFER_SIZE : Z := 285.

(** ** The target device

    What the build takes from the Makefile and from the device header:
    whether RAMPZ exists (32-bit [address_t]), BOOTLOADER_ADDRESS, the flash
    page size in bytes and the three signature bytes. *)
Record device : Type := mkDevice {
  RAMPZ : bool;
  BOOTLOADER_ADDRESS : Z;
  SPM_PAGESIZE : Z;
  SIGNATURE_BYTES : Z
}.

Definition address_bits (d : device) : Z := if RAMPZ d then 32 else 16.
Definition address_t (d : device) (x : Z) : Z := x mod 2 ^ address_bits d.
Definition APP_END (d : device) : Z := BOOTLOADER_ADDRESS d - 1.

(** A sane build: pages of an even number of bytes, at most 256; the boot
    section starts on a page boundary inside the address range. *)
Definition device_ok (d : device) : bool :=
  (2 <=? SPM_PAGESIZE d) && (SPM_PAGESIZE d <=? 256) &&
  Z.even (SPM_PAGESIZE d) &&
  (0 <? BOOTLOADER_ADDRESS d) &&
  (BOOTLOADER_ADDRESS d mod SPM_PAGESIZE d =? 0) &&
  (BOOTLOADER_ADDRESS d <=? 2 ^ address_bits d).

(** ATmega644 with a 1024-word boot section, as an example build. *)
Definition atmega644 : device := mkDevice false 0xF800 256 0x1E9609.

(** ATmega1280 (RAMPZ present) with a 4096-word boot section. *)
Definition atmega1280 : device := mkDevice true 0x1E000 256 0x1E9703.

(** ** Machine state *)

Inductive parseState_t : Type :=
| ST_START
| ST_GET_SEQ_NUM
| ST_MSG_SIZE_1
| ST_MSG_SIZE_2
| ST_GET_TOKEN
| ST_GET_DATA
| ST_GET_CHECK
| ST_PROCESS.

(** The locals of [main] and the non-volatile memories they act on.
    [msgBuffer] maps an offset from the start of the array to the byte
    there: offsets below [MSG_BUFFER_SIZE] are the array, larger offsets
    are the data memory behind it, which the code reaches when an index
    or pointer runs past the end (there is no bounds check anywhere).
    The source does not say what lies there - the array is one of the
    locals of [main] - so that the model says nothing reliable on the
    other variables once a byte has been stored at such an offset:
    statements on them are made for stores inside the array ([in_bounds],
    [read_fits] and bounds on the payload).
    [page_buffer] is the temporary page buffer of the SPM hardware. *)
Record state : Type := mkState {
  address : Z;
  msgParseState : parseState_t;
  i : Z;
  checksum : Z;
  seqNum : Z;
  msgLength : Z;
  msgBuffer : Z -> Z;
  isLeave : Z;
  flash : Z -> Z;
  page_buffer : Z -> Z;
  eeprom : Z -> Z;
  lock_fuse : Z -> Z
}.

Definition set_address (v : Z) (s : state) : state :=
  mkState v (msgParseState s) (i s) (checksum s) (seqNum s) (msgLength s)
          (msgBuffer s) (isLeave s) (flash s) (page_buffer s) (eeprom s)
          (lock_fuse s).
Definition set_msgParseState (v : parseState_t) (s : state) : state :=
  mkState (address s) v (i s) (checksum s) (seqNum s) (msgLength s)
          (msgBuffer s) (isLeave s) (flash s) (page_buffer s) (eeprom s)
          (lock_fuse s).
Definition set_i (v : Z) (s : state) : state :=
  mkState (address s) (msgParseState s) v (checksum s) (seqNum s)
          (msgLength s) (msgBuffer s) (isLeave s) (flash s) (page_buffer s)
          (eeprom s) (lock_fuse s).
Definition set_checksum (v : Z) (s : state) : state :=
  mkState (address s) (msgParseState s) (i s) v (seqNum s) (msgLength s)
          (msgBuffer s) (isLeave s) (flash s) (page_buffer s) (eeprom s)
          (lock_fuse s).
Definition set_seqNum (v : Z) (s : state) : state :=
  mkState (address s) (msgParseState s) (i s) (checksum s) v (msgLength s)
          (msgBuffer s) (isLeave s) (flash s) (page_buffer s) (eeprom s)
          (lock_fuse s).
Definition set_msgLength (v : Z) (s : state) : state :=
  mkState (address s) (msgParseState s) (i s) (checksum s) (seqNum s) v
          (msgBuffer s) (isLeave s) (flash s) (page_buffer s) (eeprom s)
          (lock_fuse s).
Definition set_msgBuffer (v : Z -> Z) (s : state) : state :=
  mkState (address s) (msgParseState s) (i s) (checksum s) (seqNum s)
          (msgLength s) v (isLeave s) (flash s) (page_buffer s) (eeprom s)
          (lock_fuse s).
Definition set_isLeave (v : Z) (s : state) : state :=
  mkState (address s) (msgParseState s) (i s) (checksum s) (seqNum s)
          (msgLength s) (msgBuffer s) v (flash s) (page_buffer s) (eeprom s)
          (lock_fuse s).
Definition set_flash (v : Z -> Z) (s : state) : state :=
  mkState (address s) (msgParseState s) (i s) (checksum s) (seqNum s)
          (msgLength s) (msgBuffer s) (isLeave s) v (page_buffer s)
          (eeprom s) (lock_fuse s).
Definition set_page_buffer (v : Z -> Z) (s : state) : state :=
  mkState (address s) (msgParseState s) (i s) (checksum s) (seqNum s)
          (msgLength s) (msgBuffer s) (isLeave s) (flash s) v (eeprom s)
          (lock_fuse s).
Definition set_eeprom (v : Z -> Z) (s : state) : state :=
  mkState (address s) (msgParseState s) (i s) (checksum s) (seqNum s)
          (msgLength s) (msgBuffer s) (isLeave s) (flash s) (page_buffer s)
          v (lock_fuse s).

(** [msgBuffer[k] = v] *)
Definition poke (k v : Z) (s : state) : state :=
  set_msgBuffer (upd (msgBuffer s) k v) s.

(** The state [main] starts from: the scalar locals as initialised in their
    declarations, the buffer and the memories as found. *)
Definition initial_state (buf fl pb ee lf : Z -> Z) : state :=
  mkState 0 ST_START 0 0 0 0 buf 0 fl pb ee lf.

(** ** The UART

    [recchar] returns the byte received, or [CMD_PROGRAMMER_TIMEOUT] when
    the wait expires (ALWAYS_WAIT_FOR_PROGRAMMER is defined). *)
Inductive uart_event : Type :=
| Received (c : Z)
| TimedOut.

Definition recchar (e : uart_event) : Z :=
  match e with
  | Received c => c
  | TimedOut => CMD_PROGRAMMER_TIMEOUT
  end.

(** ** Frame parser: one pass of the switch in the receive loop *)

Definition parse_step (s : state) (c : Z) : state :=
  match msgParseState s with
  | ST_START =>
      if c =? MESSAGE_START then
        set_checksum (Z.lxor MESSAGE_START 0)
          (set_msgParseState ST_GET_SEQ_NUM s)
      else if c =? CMD_PROGRAMMER_TIMEOUT then
        set_msgParseState ST_PROCESS (poke 0 CMD_PROGRAMMER_TIMEOUT s)
      else s
  | ST_GET_SEQ_NUM =>
      if (c =? 1) || (c =? seqNum s) then
        set_checksum (u8 (Z.lxor (checksum s) c))
          (set_msgParseState ST_MSG_SIZE_1 (set_seqNum c s))
      else set_msgParseState ST_START s
  | ST_MSG_SIZE_1 =>
      set_checksum (u8 (Z.lxor (checksum s) c))
        (set_msgParseState ST_MSG_SIZE_2
           (set_msgLength (u16 (Z.shiftl c 8)) s))
  | ST_MSG_SIZE_2 =>
      set_checksum (u8 (Z.lxor (checksum s) c))
        (set_msgParseState ST_GET_TOKEN
           (set_msgLength (Z.lor (msgLength s) c) s))
  | ST_GET_TOKEN =>
      if c =? TOKEN then
        set_i 0
          (set_checksum (u8 (Z.lxor (checksum s) c))
             (set_msgParseState ST_GET_DATA s))
      else set_msgParseState ST_START s
  | ST_GET_DATA =>
      let s1 := set_i (u16 (i s + 1)) (poke (i s) c s) in
      let s2 := set_checksum (u8 (Z.lxor (checksum s1) c)) s1 in
      if i s2 =? msgLength s2 then set_msgParseState ST_GET_CHECK s2
      else s2
  | ST_GET_CHECK =>
      if c =? checksum s then set_msgParseState ST_PROCESS s
      else set_msgParseState ST_START s
  | ST_PROCESS => s
  end.

(** The receive loop fed with the values [recchar] returns. *)
Definition parse (s : state) (cs : list Z) : state :=
  fold_left parse_step cs s.

(** ** Loops that may not terminate

    [do_while fuel body cond a] runs [do body while (cond)] for at most
    [fuel] passes: [Returns] carries the variables on leaving the loop,
    [Spins] the variables reached when the loop is still running after
    [fuel] passes. *)
Inductive outcome (A : Type) : Type :=
| Returns (a : A)
| Spins (a : A).
Arguments Returns {A} a.
Arguments Spins {A} a.

Definition result {A : Type} (o : outcome A) : A :=
  match o with
  | Returns a => a
  | Spins a => a
  end.

Fixpoint do_while {A : Type} (fuel : nat) (body : A -> A) (cond : A -> bool)
    (a : A) : outcome A :=
  match fuel with
  | O => Spins a
  | S n =>
      let a' := body a in
      if cond a' then do_while n body cond a' else Returns a'
  end.

(** The variables of the transfer loops: the machine, the pointer [p] into
    [msgBuffer] (as an offset) and the 16-bit counter [size]. *)
Record transfer : Type := mkTransfer {
  machine : state;
  p : Z;
  size : Z
}.

Definition size_left (t : transfer) : bool := negb (size t =? 0).

(** ** Self-programming primitives (avr/boot.h, avr/pgmspace.h)

    These are avr-libc macros around the SPM and LPM instructions; they are
    modelled after their documentation.  [boot_page_erase] erases the flash
    page that contains the address, [boot_page_fill] loads one word into the
    temporary page buffer at the address's offset within a page,
    [boot_page_write] programs the page that contains the address from the
    buffer (programming can only clear bits) and the buffer is emptied
    after it. *)
Definition page_base (d : device) (a : Z) : Z := a - a mod SPM_PAGESIZE d.

Definition in_page (d : device) (a x : Z) : bool :=
  (page_base d a <=? x) && (x <? page_base d a + SPM_PAGESIZE d).

Definition boot_page_erase (d : device) (a : Z) (s : state) : state :=
  set_flash (fun x => if in_page d a x then 0xFF else flash s x) s.

Definition boot_page_fill (d : device) (a data : Z) (s : state) : state :=
  let o := 2 * ((a mod SPM_PAGESIZE d) / 2) in
  set_page_buffer
    (upd (upd (page_buffer s) o (u8 data)) (o + 1) (u8 (Z.shiftr data 8))) s.

Definition boot_page_write (d : device) (a : Z) (s : state) : state :=
  set_page_buffer (fun _ => 0xFF)
    (set_flash
       (fun x => if in_page d a x
                 then Z.land (flash s x) (page_buffer s (x - page_base d a))
                 else flash s x) s).

Definition boot_rww_enable (s : state) : state :=
  set_page_buffer (fun _ => 0xFF) s.

(** pgm_read_word_near / pgm_read_word_far: the little-endian word at a
    byte address. *)
Definition pgm_read_word (fl : Z -> Z) (a : Z) : Z :=
  Z.lor (Z.shiftl (u8 (fl (a + 1))) 8) (u8 (fl a)).

(** The EEPROM cell selected by EEARL = address, EEARH = address >> 8. *)
Definition EEAR (a : Z) : Z := Z.lor (Z.shiftl (u8 (Z.shiftr a 8)) 8) (u8 a).

(** ** Bodies of the four transfer loops *)

Definition write_flash_body (d : device) (t : transfer) : transfer :=
  let s := machine t in
  let lowByte := msgBuffer s (p t) in
  let highByte := msgBuffer s (p t + 1) in
  let data := Z.lor (Z.shiftl highByte 8) lowByte in
  let s := boot_page_fill d (address s) data s in
  let s := set_address (address_t d (address s + 2)) s in
  mkTransfer s (p t + 2) (u16 (size t - 2)).

Definition write_eeprom_body (d : device) (t : transfer) : transfer :=
  let s := machine t in
  let cell := EEAR (address s) in
  let s := set_address (address_t d (address s + 1)) s in
  let s := set_eeprom (upd (eeprom s) cell (msgBuffer s (p t))) s in
  mkTransfer s (p t + 1) (u16 (size t - 1)).

Definition read_flash_body (d : device) (t : transfer) : transfer :=
  let s := machine t in
  let data := pgm_read_word (flash s) (address s) in
  let s := poke (p t) (u8 data) s in
  let s := poke (p t + 1) (u8 (Z.shiftr data 8)) s in
  let s := set_address (address_t d (address s + 2)) s in
  mkTransfer s (p t + 2) (u16 (size t - 2)).

Definition read_eeprom_body (d : device) (t : transfer) : transfer :=
  let s := machine t in
  let cell := EEAR (address s) in
  let s := set_address (address_t d (address s + 1)) s in
  let s := poke (p t) (u8 (eeprom s cell)) s in
  mkTransfer s (p t + 1) (u16 (size t - 1)).

(** ** Command dispatcher: the switch on [msgBuffer[0]]

    The build is the one the source configures: ENABLE_LEAVE_BOOTLADER and
    ALWAYS_WAIT_FOR_PROGRAMMER are defined, REMOVE_CMD_SPI_MULTI is not,
    and REMOVE_PROGRAM_LOCK_BIT_SUPPORT is, so that the program-lock
    command falls to the default case. *)

Definition signature_byte (d : device) (signatureIndex : Z) : Z :=
  if signatureIndex =? 0 then
    Z.land (Z.shiftr (SIGNATURE_BYTES d) 16) 0xFF
  else if signatureIndex =? 1 then
    Z.land (Z.shiftr (SIGNATURE_BYTES d) 8) 0xFF
  else Z.land (SIGNATURE_BYTES d) 0xFF.

Definition get_parameter (param : Z) : Z :=
  if param =? PARAM_BUILD_NUMBER_LOW then CONFIG_PARAM_BUILD_NUMBER_LOW
  else if param =? PARAM_BUILD_NUMBER_HIGH then CONFIG_PARAM_BUILD_NUMBER_HIGH
  else if param =? PARAM_HW_VER then CONFIG_PARAM_HW_VER
  else if param =? PARAM_SW_MAJOR then CONFIG_PARAM_SW_MAJOR
  else if param =? PARAM_SW_MINOR then CONFIG_PARAM_SW_MINOR
  else 0.

Definition cmd_spi_multi (d : device) (s : state) : state :=
  let answerByte :=
    if msgBuffer s 4 =? 0x30 then signature_byte d (msgBuffer s 6) else 0 in
  let s := set_msgLength 7 s in
  let s := poke 1 STATUS_CMD_OK s in
  let s := poke 2 0 s in
  let s := poke 3 (msgBuffer s 4) s in
  let s := poke 4 (msgBuffer s 5) s in
  let s := poke 5 answerByte s in
  poke 6 STATUS_CMD_OK s.

Definition cmd_sign_on (s : state) : state :=
  let s := set_msgLength 11 s in
  let s := poke 1 STATUS_CMD_OK s in
  let s := poke 2 8 s in
  let s := poke 3 65 s in   (* 'A' *)
  let s := poke 4 86 s in   (* 'V' *)
  let s := poke 5 82 s in   (* 'R' *)
  let s := poke 6 73 s in   (* 'I' *)
  let s := poke 7 83 s in   (* 'S' *)
  let s := poke 8 80 s in   (* 'P' *)
  let s := poke 9 95 s in   (* '_' *)
  poke 10 50 s.             (* '2' *)

Definition cmd_get_parameter (s : state) : state :=
  let value := get_parameter (msgBuffer s 1) in
  let s := set_msgLength 3 s in
  let s := poke 1 STATUS_CMD_OK s in
  poke 2 value s.

Definition cmd_status_ok (s : state) : state :=
  poke 1 STATUS_CMD_OK (set_msgLength 2 s).

Definition cmd_read_signature (d : device) (s : state) : state :=
  let signature := signature_byte d (msgBuffer s 4) in
  let s := set_msgLength 4 s in
  let s := poke 1 STATUS_CMD_OK s in
  let s := poke 2 signature s in
  poke 3 STATUS_CMD_OK s.

Definition cmd_read_lock (s : state) : state :=
  let s := set_msgLength 4 s in
  let s := poke 1 STATUS_CMD_OK s in
  let s := poke 2 (lock_fuse s GET_LOCK_BITS) s in
  poke 3 STATUS_CMD_OK s.

Definition cmd_read_fuse (s : state) : state :=
  let fuseBits :=
    if msgBuffer s 2 =? 0x50 then
      if msgBuffer s 3 =? 0x08 then lock_fuse s GET_EXTENDED_FUSE_BITS
      else lock_fuse s GET_LOW_FUSE_BITS
    else lock_fuse s GET_HIGH_FUSE_BITS in
  let s := set_msgLength 4 s in
  let s := poke 1 STATUS_CMD_OK s in
  let s := poke 2 fuseBits s in
  poke 3 STATUS_CMD_OK s.

Definition cmd_load_address (d : device) (s : state) : state :=
  let word :=
    if RAMPZ d then
      Z.lor (Z.lor (Z.lor (Z.shiftl (msgBuffer s 1) 24)
                          (Z.shiftl (msgBuffer s 2) 16))
                   (Z.shiftl (msgBuffer s 3) 8))
            (msgBuffer s 4)
    else Z.lor (Z.shiftl (msgBuffer s 3) 8) (msgBuffer s 4) in
  let s := set_address (address_t d (Z.shiftl word 1)) s in
  cmd_status_ok s.

(** The 16-bit size operand of the program and read commands. *)
Definition transfer_size (s : state) : Z :=
  Z.lor (u16 (Z.shiftl (msgBuffer s 1) 8)) (msgBuffer s 2).

Definition cmd_program (d : device) (fuel : nat) (s : state)
    : outcome state :=
  let size := transfer_size s in
  let p := 10 in
  let tempaddress := address s in
  let written :=
    if msgBuffer s 0 =? CMD_PROGRAM_FLASH_ISP then
      if address s <? APP_END d then
        let s := boot_page_erase d (address s) s in
        match do_while fuel (write_flash_body d) size_left
                (mkTransfer s p size) with
        | Returns t =>
            Returns (boot_rww_enable (boot_page_write d tempaddress
                                        (machine t)))
        | Spins t => Spins (machine t)
        end
      else Returns s
    else
      match do_while fuel (write_eeprom_body d) size_left
              (mkTransfer s p size) with
      | Returns t => Returns (machine t)
      | Spins t => Spins (machine t)
      end in
  match written with
  | Returns s => Returns (cmd_status_ok s)
  | Spins s => Spins s
  end.

Definition cmd_read (d : device) (fuel : nat) (s : state) : outcome state :=
  let size := transfer_size s in
  let s := set_msgLength (u16 (size + 3)) s in
  let s := poke 1 STATUS_CMD_OK s in      (* *p++ = STATUS_CMD_OK: p is 2 *)
  let body :=
    if msgBuffer s 0 =? CMD_READ_FLASH_ISP then read_flash_body d
    else read_eeprom_body d in
  match do_while fuel body size_left (mkTransfer s 2 size) with
  | Returns t => Returns (poke (p t) STATUS_CMD_OK (machine t))
  | Spins t => Spins (machine t)
  end.

Definition dispatch (d : device) (fuel : nat) (s : state) : outcome state :=
  let cmd := msgBuffer s 0 in
  if cmd =? CMD_SPI_MULTI then Returns (cmd_spi_multi d s)
  else if cmd =? CMD_SIGN_ON then Returns (cmd_sign_on s)
  else if cmd =? CMD_GET_PARAMETER then Returns (cmd_get_parameter s)
  else if cmd =? CMD_LEAVE_PROGMODE_ISP then
    Returns (cmd_status_ok (set_isLeave 1 s))
  else if (cmd =? CMD_ENTER_PROGMODE_ISP) || (cmd =? CMD_SET_PARAMETER) then
    Returns (cmd_status_ok s)
  else if cmd =? CMD_READ_SIGNATURE_ISP then Returns (cmd_read_signature d s)
  else if cmd =? CMD_READ_LOCK_ISP then Returns (cmd_read_lock s)
  else if cmd =? CMD_READ_FUSE_ISP then Returns (cmd_read_fuse s)
  else if cmd =? CMD_CHIP_ERASE_ISP then Returns (cmd_status_ok s)
  else if cmd =? CMD_LOAD_ADDRESS then Returns (cmd_load_address d s)
  else if (cmd =? CMD_PROGRAM_FLASH_ISP) || (cmd =? CMD_PROGRAM_EEPROM_ISP)
  then cmd_program d fuel s
  else if (cmd =? CMD_READ_FLASH_ISP) || (cmd =? CMD_READ_EEPROM_ISP)
  then cmd_read d fuel s
  else if cmd =? CMD_PROGRAMMER_TIMEOUT then Returns (set_isLeave 2 s)
  else Returns (poke 1 STATUS_CMD_FAILED (set_msgLength 2 s)).

(** ** Reply encoder *)

(** [while (msgLength) { c = *p++; sendchar(c); checksum ^= c; msgLength--; }]
    with [n] the value of [msgLength] on entry: the bytes sent and the
    checksum after the loop. *)
Fixpoint send_message (n : nat) (buf : Z -> Z) (p chk : Z) : list Z * Z :=
  match n with
  | O => ([], chk)
  | S n' =>
      let c := buf p in
      let (rest, chk') := send_message n' buf (p + 1) (u8 (Z.lxor chk c)) in
      (c :: rest, chk')
  end.

(** The bytes handed to [sendchar] and the machine afterwards. *)
Definition send_answer (s : state) : state * list Z :=
  if isLeave s <? 2 then
    let chk := Z.lxor MESSAGE_START 0 in
    let chk := u8 (Z.lxor chk (seqNum s)) in
    let hi := Z.land (Z.shiftr (msgLength s) 8) 0xFF in
    let chk := u8 (Z.lxor chk hi) in
    let lo := Z.land (msgLength s) 0x00FF in
    let chk := u8 (Z.lxor chk lo) in
    let chk := u8 (Z.lxor chk TOKEN) in
    let (body, chk) :=
      send_message (Z.to_nat (msgLength s)) (msgBuffer s) 0 chk in
    (set_seqNum (u8 (seqNum s + 1)) (set_checksum chk (set_msgLength 0 s)),
     [MESSAGE_START; seqNum s; hi; lo; TOKEN] ++ body ++ [chk])
  else (s, []).

(** ** Main loop *)

(** Where a run over a finite input stands: still in the loop and waiting
    for the next byte, gone from the loop ([isLeave] set), or inside a
    command handler whose loop has not ended. *)
Inductive phase : Type :=
| Receiving
| Exited
| Stuck.

(** Processing of a complete message: dispatch, then the answer. *)
Definition serve (d : device) (fuel : nat) (s : state)
    : state * list Z * phase :=
  match dispatch d fuel s with
  | Spins s' => (s', [], Stuck)
  | Returns s' =>
      let (s'', out) := send_answer s' in
      (s'', out, if isLeave s'' =? 0 then Receiving else Exited)
  end.

Definition prepend (out : list Z) (r : state * list Z * phase)
    : state * list Z * phase :=
  match r with
  | (s, out', ph) => (s, out ++ out', ph)
  end.

(** [main_loop d fuel s cs]: the main loop started in [s] (at the top of
    the receive loop) and fed the values [cs] that [recchar] returns; the
    state reached, the bytes sent and the phase. *)
Fixpoint main_loop (d : device) (fuel : nat) (s : state) (cs : list Z)
    : state * list Z * phase :=
  match cs with
  | [] => (s, [], Receiving)
  | c :: rest =>
      let s1 := parse_step s c in
      match msgParseState s1 with
      | ST_PROCESS =>
          match serve d fuel s1 with
          | (s2, out, Receiving) =>
              prepend out
                (main_loop d fuel (set_msgParseState ST_START s2) rest)
          | r => r
          end
      | _ => main_loop d fuel s1 rest
      end
  end.

(** ** Frames on the wire *)

Definition xor_all (l : list Z) : Z := fold_left Z.lxor l 0.

Definition frame_header (seq : Z) (len : Z) : list Z :=
  [MESSAGE_START; seq; Z.shiftr len 8; Z.land len 0xFF; TOKEN].

(** A well-formed frame carrying [payload] with sequence number [seq]. *)
Definition frame (seq : Z) (payload : list Z) : list Z :=
  let body := frame_header seq (Z.of_nat (length payload)) ++ payload in
  body ++ [xor_all body].

(** [msgBuffer] after the bytes [l] were stored from offset [k] on. *)
Fixpoint store (buf : Z -> Z) (k : Z) (l : list Z) : Z -> Z :=
  match l with
  | [] => buf
  | c :: l' => store (upd buf k c) (k + 1) l'
  end.

(** The machine when the receive loop has taken the frame [frame seq payload]
    in: the payload lies at the start of the buffer and the parser is in
    [ST_PROCESS]. *)
Definition received (s : state) (seq : Z) (payload : list Z) : state :=
  mkState (address s) ST_PROCESS (Z.of_nat (length payload))
          (xor_all (frame_header seq (Z.of_nat (length payload)) ++ payload))
          seq (Z.of_nat (length payload)) (store (msgBuffer s) 0 payload)
          (isLeave s) (flash s) (page_buffer s) (eeprom s) (lock_fuse s).

(** What [main_loop] does once a complete message is in the buffer. *)
Definition serve_and_go_on (d : device) (fuel : nat) (s : state)
    (rest : list Z) : state * list Z * phase :=
  match serve d fuel s with
  | (s2, out, Receiving) =>
      prepend out (main_loop d fuel (set_msgParseState ST_START s2) rest)
  | r => r
  end.

(** The message in the buffer: [msgLength] bytes from offset 0. *)
Definition message (s : state) : list Z :=
  map (fun k => msgBuffer s (Z.of_nat k)) (seq 0 (Z.to_nat (msgLength s))).

(** [n] bytes of a memory from address [a] on. *)
Definition bytes_at (m : Z -> Z) (a : Z) (n : nat) : list Z :=
  map (fun k => u8 (m (a + Z.of_nat k))) (seq 0 n).

(** ** Definitions used in the statements *)

(** Number of steps a 16-bit counter takes to meet [n] when it is compared
    after the step, as the index [i] of the receive loop (compared with
    the declared length after the increment) and the counter [size] of the
    transfer loops (compared with 0 after the decrement): [n] steps, and
    65536 when [n] is zero, once the counter has wrapped. *)
Definition wrap_count (L : Z) : Z := if L =? 0 then 65536 else L.



(** An example machine at entry of [main]: all memories read zero. *)
Definition zeroes : Z -> Z := fun _ => 0.
Definition power_on : state :=
  initial_state zeroes zeroes zeroes zeroes zeroes.


(** The machine after two sign-on frames, numbered 1 and 2, were answered. *)
Definition after_two_frames : state :=
  fst (fst (main_loop atmega644 0 power_on
              (frame 1 [CMD_SIGN_ON] ++ frame 2 [CMD_SIGN_ON]))).

(** The machine after one sign-on frame, numbered 1, was answered. *)
Definition after_one_frame : state :=
  fst (fst (main_loop atmega644 0 power_on (frame 1 [CMD_SIGN_ON]))).

(** The input of scenario 1 as the spec writes it: declared length 2, one
    payload byte, then the XOR of the six bytes. *)
Definition scenario_1_input : list Z :=
  [0x1B; 0x01; 0x00; 0x02; 0x0E; 0x01; 0x17].

(** The loop makes exactly [n] passes and leaves. *)
Definition runs_exactly {A : Type} (body : A -> A) (cond : A -> bool)
    (a : A) (n : nat) : Prop :=
  (forall fuel, (fuel < n)%nat ->
     do_while fuel body cond a = Spins (Nat.iter fuel body a)) /\
  (forall fuel, (n <= fuel)%nat ->
     do_while fuel body cond a = Returns (Nat.iter n body a)).

(** The loop is still running after any number of passes. *)
Definition never_returns {A : Type} (body : A -> A) (cond : A -> bool)
    (a : A) : Prop :=
  forall fuel, do_while fuel body cond a = Spins (Nat.iter fuel body a).

(** A transfer loop body that moves [k] bytes per pass. *)
Definition moves (k : Z) (body : transfer -> transfer) : Prop :=
  forall t, size (body t) = u16 (size t - k) /\ p (body t) = p t + k.

Definition counter_ok (t : transfer) : Prop := 0 <= size t < 65536.

(** Fields a transfer loop leaves alone. *)
Definition same_session (s0 s : state) : Prop :=
  isLeave s = isLeave s0 /\ seqNum s = seqNum s0 /\
  msgLength s = msgLength s0 /\ lock_fuse s = lock_fuse s0.

(** Payloads of the commands, as the STK500v2 host sends them. *)
Definition load_address_payload (w : Z) : list Z :=
  [CMD_LOAD_ADDRESS; u8 (Z.shiftr w 24); u8 (Z.shiftr w 16);
   u8 (Z.shiftr w 8); u8 w].

Definition read_flash_payload (sz cmd1 : Z) : list Z :=
  [CMD_READ_FLASH_ISP; u8 (Z.shiftr sz 8); u8 sz; cmd1].

Definition program_flash_payload (sz : Z) (params data : list Z) : list Z :=
  [CMD_PROGRAM_FLASH_ISP; u8 (Z.shiftr sz 8); u8 sz] ++ params ++ data.

(** The machine after the answer to a message has been sent, back at the
    top of the main loop. *)
Definition answered (s : state) : state :=
  set_msgParseState ST_START
    (set_seqNum (u8 (seqNum s + 1))
       (set_checksum
          (xor_all (frame_header (seqNum s) (msgLength s) ++ message s))
          (set_msgLength 0 s))).

(** A frame with a wrong trailing byte: header and payload of a well-formed
    frame, then [bad] in place of the checksum. *)
Definition corrupted_frame (seq : Z) (payload : list Z) (bad : Z) : list Z :=
  frame_header seq (Z.of_nat (length payload)) ++ payload ++ [bad].

(** The machine after such a frame: as after a well-formed one, but the
    parser has fallen back to [ST_START]. *)
Definition dropped (s : state) (seq : Z) (payload : list Z) : state :=
  set_msgParseState ST_START (received s seq payload).

(** What no transfer loop touches: the sequence number, the leave flag and
    the flash contents. *)
Definition untouched (s0 : state) (t : transfer) : Prop :=
  seqNum (machine t) = seqNum s0 /\ isLeave (machine t) = isLeave s0 /\
  flash (machine t) = flash s0.

(** ** Definitions used in the further properties *)

(** Bytes the idle receive loop (state [ST_START]) passes over. *)
Definition skipped (c : Z) : bool :=
  negb (c =? MESSAGE_START) && negb (c =? CMD_PROGRAMMER_TIMEOUT).

(** The case labels of the dispatcher's switch. *)
Definition known_command (c : Z) : bool :=
  existsb (Z.eqb c)
    [CMD_SPI_MULTI; CMD_SIGN_ON; CMD_GET_PARAMETER; CMD_LEAVE_PROGMODE_ISP;
     CMD_ENTER_PROGMODE_ISP; CMD_SET_PARAMETER; CMD_READ_SIGNATURE_ISP;
     CMD_READ_LOCK_ISP; CMD_READ_FUSE_ISP; CMD_CHIP_ERASE_ISP;
     CMD_LOAD_ADDRESS; CMD_PROGRAM_FLASH_ISP; CMD_PROGRAM_EEPROM_ISP;
     CMD_READ_FLASH_ISP; CMD_READ_EEPROM_ISP; CMD_PROGRAMMER_TIMEOUT].

(** States of the receive loop inside a frame, before its checksum byte. *)
Definition mid_frame (st : parseState_t) : bool :=
  match st with
  | ST_GET_SEQ_NUM | ST_MSG_SIZE_1 | ST_MSG_SIZE_2 | ST_GET_TOKEN
  | ST_GET_DATA => true
  | _ => false
  end.

(** What the receive loop and the reply encoder leave alone. *)
Definition same_memories (s0 s : state) : Prop :=
  address s = address s0 /\ isLeave s = isLeave s0 /\
  flash s = flash s0 /\ page_buffer s = page_buffer s0 /\
  eeprom s = eeprom s0 /\ lock_fuse s = lock_fuse s0.

(** Payloads of the EEPROM commands. *)
Definition program_eeprom_payload (sz : Z) (params data : list Z) : list Z :=
  [CMD_PROGRAM_EEPROM_ISP; u8 (Z.shiftr sz 8); u8 sz] ++ params ++ data.

Definition read_eeprom_payload (sz cmd1 : Z) : list Z :=
  [CMD_READ_EEPROM_ISP; u8 (Z.shiftr sz 8); u8 sz; cmd1].

(** [recchar] as the loop it is.  [polls] are the successive readings of
    the receive-complete flag, with the data register where the flag is
    set; [timeout] is the 32-bit countdown, decremented before it is
    compared with 0.  [None]: the readings have run out and the loop is
    still waiting. *)
Fixpoint recchar_loop (timeout : Z) (polls : list (option Z))
    : option uart_event :=
  match polls with
  | [] => None
  | Some c :: _ => Some (Received c)
  | None :: rest =>
      let timeout := (timeout - 1) mod 2 ^ 32 in
      if timeout =? 0 then Some TimedOut else recchar_loop timeout rest
  end.

(** Number of empty polls a countdown started at [T] allows: [T], and 2^32
    when [T] is zero. *)
Definition patience (T : Z) : Z := if T =? 0 then 2 ^ 32 else T.

(** A read command whose reply fits the message buffer. *)
Definition read_fits (s : state) : Prop :=
  msgBuffer s 0 = CMD_READ_FLASH_ISP \/ msgBuffer s 0 = CMD_READ_EEPROM_ISP ->
  1 <= transfer_size s /\ transfer_size s + 3 <= MSG_BUFFER_SIZE.

(** The command byte of the frame being collected is not [k]: once the
    first payload byte is stored, [msgBuffer[0]] differs from [k]. *)
Definition head_is_not (k : Z) (s : state) : Prop :=
  match msgParseState s with
  | ST_GET_CHECK | ST_PROCESS => msgBuffer s 0 <> k
  | ST_GET_DATA => i s <> 0 -> msgBuffer s 0 <> k
  | _ => True
  end.






(** * Properties *)

(** ** Auxiliary facts on bytes and bit operations *)

Lemma u8_small x : is_byte x -> u8 x = x.
Proof. unfold is_byte, u8. intros. apply Z.mod_small. lia. Qed.

Lemma u8_is_byte x : is_byte (u8 x).
Proof. unfold is_byte, u8. apply Z.mod_pos_bound. lia. Qed.

Lemma testbit_above (x n k : Z) :
  0 <= x < 2 ^ n -> 0 <= n <= k -> Z.testbit x k = false.
Proof.
  intros Hx Hk.
  destruct (Z.eq_dec x 0) as [->|Hne]; [apply Z.bits_0|].
  apply Z.bits_above_log2; [lia|].
  assert (Z.log2 x < n) by (apply Z.log2_lt_pow2; lia). lia.
Qed.

Lemma lxor_bound (n a b : Z) :
  0 <= n -> 0 <= a < 2 ^ n -> 0 <= b < 2 ^ n -> 0 <= Z.lxor a b < 2 ^ n.
Proof.
  intros Hn Ha Hb.
  assert (H0 : 0 <= Z.lxor a b) by (apply Z.lxor_nonneg; lia).
  split; [exact H0|].
  destruct (Z.eq_dec (Z.lxor a b) 0) as [->|Hne];
    [apply Z.pow_pos_nonneg; lia|].
  apply Z.log2_lt_pow2; [lia|].
  destruct (Z.lt_ge_cases (Z.log2 (Z.lxor a b)) n) as [|Hge]; [assumption|].
  exfalso.
  assert (Hb1 : Z.testbit (Z.lxor a b) (Z.log2 (Z.lxor a b)) = true)
    by (apply Z.bit_log2; lia).
  rewrite Z.lxor_spec in Hb1.
  rewrite (testbit_above a n), (testbit_above b n) in Hb1 by lia.
  discriminate.
Qed.

Lemma lxor_is_byte a b : is_byte a -> is_byte b -> is_byte (Z.lxor a b).
Proof. unfold is_byte. intros. apply (lxor_bound 8); lia. Qed.

Lemma u8_lxor a b : is_byte a -> is_byte b -> u8 (Z.lxor a b) = Z.lxor a b.
Proof. intros. apply u8_small, lxor_is_byte; assumption. Qed.

Lemma lor_disjoint (hi lo n : Z) :
  0 <= n -> 0 <= lo < 2 ^ n -> Z.lor (Z.shiftl hi n) lo = hi * 2 ^ n + lo.
Proof.
  intros Hn Hlo.
  rewrite <- Z.shiftl_mul_pow2 by lia.
  assert (Hd : Z.land (Z.shiftl hi n) lo = 0).
  { apply Z.bits_inj'. intros k Hk. rewrite Z.land_spec, Z.bits_0.
    destruct (Z.lt_ge_cases k n).
    - rewrite Z.shiftl_spec_low by lia. reflexivity.
    - rewrite (testbit_above lo n k) by lia. apply andb_false_r. }
  rewrite <- Z.lxor_lor by exact Hd.
  symmetry. apply Z.add_nocarry_lxor. exact Hd.
Qed.

Lemma land_255 x : Z.land x 255 = x mod 256.
Proof. change 255 with (Z.ones 8). rewrite Z.land_ones by lia. reflexivity. Qed.

Lemma shiftr_8 x : Z.shiftr x 8 = x / 256.
Proof. rewrite Z.shiftr_div_pow2 by lia. reflexivity. Qed.

Lemma shiftl_8 x : Z.shiftl x 8 = x * 256.
Proof. rewrite Z.shiftl_mul_pow2 by lia. reflexivity. Qed.

Lemma lor_bytes hi lo : is_byte lo -> Z.lor (Z.shiftl hi 8) lo = hi * 256 + lo.
Proof.
  intros H. rewrite (lor_disjoint hi lo 8) by (unfold is_byte in H; lia).
  reflexivity.
Qed.

(** The two length bytes of a header give the length back. *)
Lemma length_bytes_join (L : Z) :
  0 <= L < 65536 ->
  Z.lor (u16 (Z.shiftl (Z.shiftr L 8) 8)) (Z.land L 0xFF) = L.
Proof.
  intros HL. rewrite shiftr_8, land_255.
  assert (Hq : 0 <= L / 256 < 256)
    by (split; [apply Z.div_pos; lia | apply Z.div_lt_upper_bound; lia]).
  assert (Hr : 0 <= L mod 256 < 256) by (apply Z.mod_pos_bound; lia).
  rewrite shiftl_8. unfold u16. rewrite Z.mod_small by lia.
  rewrite <- shiftl_8, lor_bytes by exact Hr.
  pose proof (Z.div_mod L 256). lia.
Qed.

(** ** The main loop on a well-formed frame *)

Lemma main_loop_cons d fuel s c rest :
  main_loop d fuel s (c :: rest) =
  match msgParseState (parse_step s c) with
  | ST_PROCESS => serve_and_go_on d fuel (parse_step s c) rest
  | _ => main_loop d fuel (parse_step s c) rest
  end.
Proof. reflexivity. Qed.

Ltac fields :=
  cbn [address msgParseState i checksum seqNum msgLength msgBuffer isLeave
       flash page_buffer eeprom lock_fuse
       set_address set_msgParseState set_i set_checksum set_seqNum
       set_msgLength set_msgBuffer set_isLeave set_flash set_page_buffer
       set_eeprom poke machine p size] in *.


Lemma main_loop_payload d fuel rest l :
  forall a k chk sq L buf lv fl pb ee lf,
  Forall is_byte l -> is_byte chk ->
  0 <= k < L -> k + Z.of_nat (length l) <= L -> L < 65536 ->
  main_loop d fuel (mkState a ST_GET_DATA k chk sq L buf lv fl pb ee lf)
            (l ++ rest) =
  main_loop d fuel
    (mkState a (if k + Z.of_nat (length l) =? L then ST_GET_CHECK
                else ST_GET_DATA)
             (k + Z.of_nat (length l)) (fold_left Z.lxor l chk) sq L
             (store buf k l) lv fl pb ee lf) rest.
Proof.
  induction l as [|c l IH]; intros a k chk sq L buf lv fl pb ee lf Hl Hchk Hk Hlen HL.
  - cbn [app length Z.of_nat fold_left store]. rewrite Z.add_0_r.
    replace (k =? L) with false by (symmetry; apply Z.eqb_neq; lia).
    reflexivity.
  - inversion Hl as [|? ? Hc Hl']; subst.
    cbn [app]. rewrite main_loop_cons. unfold parse_step. fields.
    assert (Hu : u16 (k + 1) = k + 1) by (unfold u16; apply Z.mod_small; cbn [length] in Hlen; lia).
    rewrite Hu, (u8_lxor chk c) by assumption.
    cbn [length] in Hlen |- *. rewrite Nat2Z.inj_succ in Hlen |- *.
    replace (k + Z.succ (Z.of_nat (length l))) with (k + 1 + Z.of_nat (length l)) by lia.
    cbn [fold_left store].
    destruct (k + 1 =? L) eqn:E.
    + apply Z.eqb_eq in E. destruct l as [|c' l]; [|cbn [length] in Hlen; lia].
      fields. cbn [length Z.of_nat fold_left store app]. rewrite Z.add_0_r.
      replace (k + 1 =? L) with true by (symmetry; apply Z.eqb_eq; lia).
      reflexivity.
    + apply Z.eqb_neq in E. fields.
      apply IH; try assumption; try lia. apply lxor_is_byte; assumption.
Qed.

Lemma step_start a k chk sn ml buf lv fl pb ee lf :
  parse_step (mkState a ST_START k chk sn ml buf lv fl pb ee lf) MESSAGE_START
  = mkState a ST_GET_SEQ_NUM k MESSAGE_START sn ml buf lv fl pb ee lf.
Proof. reflexivity. Qed.

Lemma step_seq a k chk sn ml buf lv fl pb ee lf c :
  c = 1 \/ c = sn ->
  parse_step (mkState a ST_GET_SEQ_NUM k chk sn ml buf lv fl pb ee lf) c
  = mkState a ST_MSG_SIZE_1 k (u8 (Z.lxor chk c)) c ml buf lv fl pb ee lf.
Proof.
  intros H. unfold parse_step. fields.
  replace ((c =? 1) || (c =? sn)) with true
    by (symmetry; apply orb_true_iff; rewrite !Z.eqb_eq; exact H).
  reflexivity.
Qed.

Lemma step_size_1 a k chk sn ml buf lv fl pb ee lf c :
  parse_step (mkState a ST_MSG_SIZE_1 k chk sn ml buf lv fl pb ee lf) c
  = mkState a ST_MSG_SIZE_2 k (u8 (Z.lxor chk c)) sn (u16 (Z.shiftl c 8)) buf
            lv fl pb ee lf.
Proof. reflexivity. Qed.

Lemma step_size_2 a k chk sn ml buf lv fl pb ee lf c :
  parse_step (mkState a ST_MSG_SIZE_2 k chk sn ml buf lv fl pb ee lf) c
  = mkState a ST_GET_TOKEN k (u8 (Z.lxor chk c)) sn (Z.lor ml c) buf
            lv fl pb ee lf.
Proof. reflexivity. Qed.

Lemma step_token a k chk sn ml buf lv fl pb ee lf :
  parse_step (mkState a ST_GET_TOKEN k chk sn ml buf lv fl pb ee lf) TOKEN
  = mkState a ST_GET_DATA 0 (u8 (Z.lxor chk TOKEN)) sn ml buf lv fl pb ee lf.
Proof. reflexivity. Qed.

Lemma step_check a k chk sn ml buf lv fl pb ee lf c :
  parse_step (mkState a ST_GET_CHECK k chk sn ml buf lv fl pb ee lf) c
  = mkState a (if c =? chk then ST_PROCESS else ST_START) k chk sn ml buf
            lv fl pb ee lf.
Proof. unfold parse_step. fields. destruct (c =? chk); reflexivity. Qed.

Lemma byte_hi L : 0 <= L < 65536 -> is_byte (Z.shiftr L 8).
Proof.
  intros. rewrite shiftr_8. unfold is_byte.
  split; [apply Z.div_pos; lia | apply Z.div_lt_upper_bound; lia].
Qed.

Lemma byte_lo L : is_byte (Z.land L 0xFF).
Proof. rewrite land_255. apply u8_is_byte. Qed.

(** Header and payload of a frame bring the parser to [ST_GET_CHECK]. *)
Lemma main_loop_frame_body d fuel s sq payload rest :
  msgParseState s = ST_START ->
  sq = 1 \/ sq = seqNum s ->
  is_byte sq -> Forall is_byte payload ->
  1 <= Z.of_nat (length payload) <= 65535 ->
  main_loop d fuel s
    (frame_header sq (Z.of_nat (length payload)) ++ payload ++ rest) =
  main_loop d fuel (set_msgParseState ST_GET_CHECK (received s sq payload))
    rest.
Proof.
  intros Hst Hsq Hb Hp Hlen.
  destruct s as [a ps k chk sn ml buf lv fl pb ee lf]. cbn in Hst, Hsq. subst ps.
  set (L := Z.of_nat (length payload)).
  assert (HL : 1 <= L < 65536) by (unfold L; lia).
  pose proof (byte_hi L ltac:(lia)) as Hhi. pose proof (byte_lo L) as Hlo.
  assert (Hs : is_byte MESSAGE_START) by (unfold is_byte, MESSAGE_START; lia).
  assert (Ht : is_byte TOKEN) by (unfold is_byte, TOKEN; lia).
  unfold received. fold L. unfold frame_header. cbn [app].
  rewrite main_loop_cons, step_start. cbn [msgParseState].
  rewrite main_loop_cons, step_seq by exact Hsq. cbn [msgParseState].
  rewrite main_loop_cons, step_size_1. cbn [msgParseState].
  rewrite main_loop_cons, step_size_2. cbn [msgParseState].
  rewrite main_loop_cons, step_token. cbn [msgParseState].
  rewrite length_bytes_join by lia.
  rewrite !u8_lxor by (repeat (assumption || apply lxor_is_byte || apply u8_is_byte)).
  rewrite main_loop_payload;
    [|assumption|repeat (assumption || apply lxor_is_byte)|lia|fold L; lia|lia].
  fold L. cbn [Z.add]. rewrite Z.eqb_refl.
  unfold xor_all. cbn [fold_left]. rewrite Z.lxor_0_l. fields.
  reflexivity.
Qed.

Lemma main_loop_frame d fuel s sq payload rest :
  msgParseState s = ST_START ->
  sq = 1 \/ sq = seqNum s ->
  is_byte sq -> Forall is_byte payload ->
  1 <= Z.of_nat (length payload) <= 65535 ->
  main_loop d fuel s (frame sq payload ++ rest) =
  serve_and_go_on d fuel (received s sq payload) rest.
Proof.
  intros Hst Hsq Hb Hp Hlen. unfold frame.
  rewrite <- !app_assoc. rewrite main_loop_frame_body by assumption.
  cbn [app]. rewrite main_loop_cons. unfold received, set_msgParseState.
  fields. rewrite step_check, Z.eqb_refl. reflexivity.
Qed.

(** ** Invariant of the receive loop *)

Lemma wrap_count_cases L :
  (L = 0 /\ wrap_count L = 65536) \/ (L <> 0 /\ wrap_count L = L).
Proof.
  unfold wrap_count. destruct (L =? 0) eqn:E;
    [apply Z.eqb_eq in E | apply Z.eqb_neq in E]; auto.
Qed.







(** ** Parser properties *)









(** C10.  In [ST_START] the value 0x2F ends the session, whether [recchar]
    made it up on a timeout or received it from the wire: the dispatcher
    sets [isLeave] to 2, nothing is sent, and the main loop is left (the
    bytes [rest] that follow are not taken). *)
Theorem timeout_byte_ends_session d fuel s e rest :
  msgParseState s = ST_START ->
  e = TimedOut \/ e = Received CMD_PROGRAMMER_TIMEOUT ->
  exists s',
    main_loop d fuel s (map recchar (e :: rest)) = (s', [], Exited) /\
    isLeave s' = 2.
Proof.
  intros Hs He.
  assert (Hc : recchar e = CMD_PROGRAMMER_TIMEOUT)
    by (destruct He; subst; reflexivity).
  cbn [map]. rewrite Hc, main_loop_cons.
  destruct s as [a ps k chk sn ml buf lv fl pb ee lf]. cbn in Hs. subst ps.
  eexists. split; reflexivity.
Qed.

(** The theorem for a byte 0x2F from the wire, followed by a start marker. *)
Lemma timeout_byte_ends_session_witness :
  msgParseState power_on = ST_START /\
  (Received 0x2F = TimedOut \/
   Received 0x2F = Received CMD_PROGRAMMER_TIMEOUT) /\
  exists s',
    main_loop atmega644 0 power_on (map recchar [Received 0x2F; Received 0x1B])
      = (s', [], Exited) /\
    isLeave s' = 2.
Proof.
  split; [reflexivity|]. split; [right; reflexivity|].
  apply (timeout_byte_ends_session atmega644 0%nat power_on (Received 0x2F)
           [Received 0x1B]); [reflexivity | right; reflexivity].
Defined.

(** ** Transfer loops: number of passes *)

Section DoWhile.
Context {A : Type} (body : A -> A) (cond : A -> bool).

Lemma do_while_invariant (P : A -> Prop) :
  (forall a, P a -> P (body a)) ->
  forall fuel a, P a -> P (result (do_while fuel body cond a)).
Proof.
  intros Hbody. induction fuel as [|fuel IH]; intros a Ha; cbn.
  - exact Ha.
  - destruct (cond (body a)); [apply IH|cbn]; apply Hbody, Ha.
Qed.

Lemma iter_shift n a : Nat.iter n body (body a) = body (Nat.iter n body a).
Proof. rewrite <- Nat.iter_succ_r. apply Nat.iter_succ. Qed.

Lemma iter_one a : Nat.iter 1 body a = body a.
Proof. reflexivity. Qed.

Lemma do_while_spins fuel : forall a,
  (forall j, (1 <= j <= fuel)%nat -> cond (Nat.iter j body a) = true) ->
  do_while fuel body cond a = Spins (Nat.iter fuel body a).
Proof.
  induction fuel as [|fuel IH]; intros a Hc; [reflexivity|].
  cbn [do_while]. rewrite <- (iter_one a) at 1. rewrite (Hc 1%nat) by lia.
  rewrite IH.
  - rewrite iter_shift. reflexivity.
  - intros j Hj. rewrite iter_shift. apply (Hc (S j)). lia.
Qed.

Lemma do_while_returns n : forall fuel a,
  (forall j, (1 <= j <= n)%nat -> cond (Nat.iter j body a) = true) ->
  cond (Nat.iter (S n) body a) = false ->
  (S n <= fuel)%nat ->
  do_while fuel body cond a = Returns (Nat.iter (S n) body a).
Proof.
  induction n as [|n IH]; intros fuel a Hc Hend Hfuel;
    (destruct fuel as [|fuel]; [lia|]); cbn [do_while].
  - rewrite iter_one in Hend. rewrite Hend. reflexivity.
  - rewrite <- (iter_one a) at 1. rewrite (Hc 1%nat) by lia.
    rewrite (IH fuel (body a)); try lia.
    + rewrite iter_shift. reflexivity.
    + intros j Hj. rewrite iter_shift. apply (Hc (S j)). lia.
    + rewrite iter_shift. exact Hend.
Qed.

Lemma runs_exactly_intro n a :
  (forall j, (1 <= j <= n)%nat -> cond (Nat.iter j body a) = true) ->
  cond (Nat.iter (S n) body a) = false ->
  runs_exactly body cond a (S n).
Proof.
  intros Hc Hend. split; intros fuel Hfuel.
  - apply do_while_spins. intros j Hj. apply Hc. lia.
  - apply do_while_returns; assumption.
Qed.

Lemma never_returns_intro a :
  (forall j, (1 <= j)%nat -> cond (Nat.iter j body a) = true) ->
  never_returns body cond a.
Proof. intros Hc fuel. apply do_while_spins. intros j Hj. apply Hc. lia. Qed.
End DoWhile.

Lemma moves_write_flash d : moves 2 (write_flash_body d).
Proof. intros t. split; reflexivity. Qed.
Lemma moves_read_flash d : moves 2 (read_flash_body d).
Proof. intros t. split; reflexivity. Qed.
Lemma moves_write_eeprom d : moves 1 (write_eeprom_body d).
Proof. intros t. split; reflexivity. Qed.
Lemma moves_read_eeprom d : moves 1 (read_eeprom_body d).
Proof. intros t. split; reflexivity. Qed.

Lemma iter_moves k body t n :
  moves k body -> counter_ok t ->
  size (Nat.iter n body t) = u16 (size t - k * Z.of_nat n) /\
  p (Nat.iter n body t) = p t + k * Z.of_nat n.
Proof.
  intros Hm Hc. induction n as [|n [IHs IHp]].
  - cbn [Nat.iter Z.of_nat nat_rect]. rewrite Z.mul_0_r, Z.sub_0_r, Z.add_0_r.
    split; [|reflexivity]. unfold u16. rewrite Z.mod_small; [reflexivity|exact Hc].
  - rewrite Nat.iter_succ. destruct (Hm (Nat.iter n body t)) as [Hs Hp].
    rewrite Hs, Hp, IHs, IHp. unfold u16. rewrite Zminus_mod_idemp_l.
    split; [f_equal|]; lia.
Qed.

Lemma size_left_iter k body t j :
  moves k body -> counter_ok t ->
  size_left (Nat.iter j body t) =
  negb ((size t - k * Z.of_nat j) mod 65536 =? 0).
Proof.
  intros Hm Hc. unfold size_left.
  destruct (iter_moves k body t j Hm Hc) as [-> _]. reflexivity.
Qed.

(** Number of passes of a transfer loop that moves [k] bytes per pass. *)
Lemma transfer_loop_runs k body t (n : Z) :
  moves k body -> counter_ok t -> 1 <= n ->
  (forall j, 1 <= j < n -> (size t - k * j) mod 65536 <> 0) ->
  (size t - k * n) mod 65536 = 0 ->
  runs_exactly body size_left t (Z.to_nat n).
Proof.
  intros Hm Hc Hn Hrun Hend.
  replace (Z.to_nat n) with (S (Z.to_nat (n - 1))) by lia.
  apply runs_exactly_intro.
  - intros j Hj. rewrite (size_left_iter k) by assumption.
    apply negb_true_iff, Z.eqb_neq, Hrun. lia.
  - rewrite (size_left_iter k) by assumption.
    apply negb_false_iff, Z.eqb_eq.
    replace (Z.of_nat (S (Z.to_nat (n - 1)))) with n by lia. exact Hend.
Qed.

Lemma transfer_loop_never_returns k body t :
  moves k body -> counter_ok t ->
  (forall j, 1 <= j -> (size t - k * j) mod 65536 <> 0) ->
  never_returns body size_left t.
Proof.
  intros Hm Hc Hrun. apply never_returns_intro. intros j Hj.
  rewrite (size_left_iter k) by assumption.
  apply negb_true_iff, Z.eqb_neq, Hrun. lia.
Qed.

Lemma mod_65536_zero x : x mod 65536 = 0 -> exists q, x = 65536 * q.
Proof.
  intros H. apply Z.mod_divide in H; [|lia]. destruct H as [q Hq].
  exists q. lia.
Qed.

(** Byte-wise loops: [size] passes, 65536 when [size] is zero. *)
Lemma byte_loop_runs body t :
  moves 1 body -> counter_ok t ->
  runs_exactly body size_left t (Z.to_nat (wrap_count (size t))).
Proof.
  intros Hm Hc. unfold counter_ok in Hc.
  destruct (wrap_count_cases (size t)) as [[E0 El]|[E0 El]]; rewrite El.
  - apply (transfer_loop_runs 1); try assumption; try lia.
    + intros j Hj H. apply mod_65536_zero in H. destruct H as [q Hq]. lia.
    + rewrite E0. reflexivity.
  - apply (transfer_loop_runs 1); try assumption; try lia.
    + intros j Hj H. apply mod_65536_zero in H. destruct H as [q Hq]. lia.
    + replace (size t - 1 * size t) with 0 by lia. reflexivity.
Qed.

(** Word-wise loops on an even [size]: [size / 2] passes, 32768 when [size]
    is zero. *)
Lemma word_loop_runs body t :
  moves 2 body -> counter_ok t -> Z.even (size t) = true ->
  runs_exactly body size_left t (Z.to_nat (wrap_count (size t) / 2)).
Proof.
  intros Hm Hc Hev. unfold counter_ok in Hc.
  apply Z.even_spec in Hev. destruct Hev as [m Hm2].
  destruct (wrap_count_cases (size t)) as [[E0 El]|[E0 El]]; rewrite El.
  - change (65536 / 2) with 32768.
    apply (transfer_loop_runs 2); try assumption; try lia.
    + intros j Hj H. apply mod_65536_zero in H. destruct H as [q Hq]. lia.
    + rewrite E0. reflexivity.
  - rewrite Hm2. replace (2 * m / 2) with m by (apply Z.div_unique_exact; lia).
    apply (transfer_loop_runs 2); try assumption; try lia.
    + intros j Hj H. apply mod_65536_zero in H. destruct H as [q Hq]. lia.
    + replace (size t - 2 * m) with 0 by lia. reflexivity.
Qed.

(** Word-wise loops on an odd [size]: the counter stays odd. *)
Lemma word_loop_never_returns body t :
  moves 2 body -> counter_ok t -> Z.odd (size t) = true ->
  never_returns body size_left t.
Proof.
  intros Hm Hc Hodd. apply Z.odd_spec in Hodd. destruct Hodd as [m Hm2].
  apply (transfer_loop_never_returns 2); try assumption.
  intros j Hj H. apply mod_65536_zero in H. destruct H as [q Hq]. lia.
Qed.

(** ** Effect of the flash read loop *)

Lemma word_split hi lo :
  is_byte hi -> is_byte lo ->
  u8 (Z.lor (Z.shiftl hi 8) lo) = lo /\
  u8 (Z.shiftr (Z.lor (Z.shiftl hi 8) lo) 8) = hi.
Proof.
  intros Hhi Hlo. rewrite lor_bytes by exact Hlo. rewrite shiftr_8.
  unfold u8, is_byte in *. split.
  - rewrite Z.add_comm, Z.mod_add by lia. apply Z.mod_small. lia.
  - rewrite Z.div_add_l by lia. rewrite (Z.div_small lo) by lia.
    rewrite Z.add_0_r. apply Z.mod_small. lia.
Qed.

Lemma pgm_read_word_lo fl a : u8 (pgm_read_word fl a) = u8 (fl a).
Proof. unfold pgm_read_word. apply word_split; apply u8_is_byte. Qed.

Lemma pgm_read_word_hi fl a :
  u8 (Z.shiftr (pgm_read_word fl a) 8) = u8 (fl (a + 1)).
Proof. unfold pgm_read_word. apply word_split; apply u8_is_byte. Qed.

Lemma address_t_small d x : 0 <= x < 2 ^ address_bits d -> address_t d x = x.
Proof. intros. unfold address_t. apply Z.mod_small. assumption. Qed.

Lemma address_t_add d x y :
  address_t d (address_t d x + y) = address_t d (x + y).
Proof. unfold address_t. apply Zplus_mod_idemp_l. Qed.

Lemma address_bits_pos d : 0 < 2 ^ address_bits d.
Proof. unfold address_bits. destruct (RAMPZ d); reflexivity. Qed.

(** [n] passes of the flash read loop. *)
Lemma read_flash_iter d t n :
  0 <= address (machine t) < 2 ^ address_bits d ->
  address (machine t) + 2 * Z.of_nat n <= 2 ^ address_bits d ->
  let t' := Nat.iter n (read_flash_body d) t in
  address (machine t') = address_t d (address (machine t) + 2 * Z.of_nat n) /\
  p t' = p t + 2 * Z.of_nat n /\
  flash (machine t') = flash (machine t) /\
  page_buffer (machine t') = page_buffer (machine t) /\
  eeprom (machine t') = eeprom (machine t) /\
  same_session (machine t) (machine t') /\
  forall k, msgBuffer (machine t') k =
            if (p t <=? k) && (k <? p t + 2 * Z.of_nat n)
            then u8 (flash (machine t) (address (machine t) + (k - p t)))
            else msgBuffer (machine t) k.
Proof.
  intros Ha. induction n as [|n IH]; intros Hfit t'.
  - subst t'. cbn [Nat.iter nat_rect Z.of_nat].
    rewrite Z.mul_0_r, !Z.add_0_r.
    rewrite address_t_small by lia.
    unfold same_session. repeat split; try reflexivity.
    intros k. replace ((p t <=? k) && (k <? p t)) with false; [reflexivity|].
    symmetry. apply andb_false_iff. rewrite Z.leb_gt, Z.ltb_ge. lia.
  - subst t'. rewrite Nat.iter_succ.
    destruct IH as (IHa & IHp & IHf & IHpb & IHe & IHs & IHb); [lia|].
    set (tn := Nat.iter n (read_flash_body d) t) in *.
    assert (Han : address (machine tn) = address (machine t) + 2 * Z.of_nat n)
      by (rewrite IHa; apply address_t_small; lia).
    destruct IHs as (IHs1 & IHs2 & IHs3 & IHs4).
    unfold read_flash_body, same_session. cbn [machine p size]. fields.
    rewrite IHf, IHp, IHpb, IHe, pgm_read_word_lo, pgm_read_word_hi.
    repeat split; try reflexivity; try assumption.
    + rewrite IHa, address_t_add. f_equal. lia.
    + lia.
    + intros k. unfold upd. rewrite IHb, Han.
      destruct (k =? p t + 2 * Z.of_nat n + 1) eqn:E1;
        [apply Z.eqb_eq in E1|apply Z.eqb_neq in E1].
      { replace ((p t <=? k) && (k <? p t + 2 * Z.of_nat (S n))) with true
          by (symmetry; apply andb_true_iff; rewrite Z.leb_le, Z.ltb_lt; lia).
        f_equal. f_equal. lia. }
      destruct (k =? p t + 2 * Z.of_nat n) eqn:E2;
        [apply Z.eqb_eq in E2|apply Z.eqb_neq in E2].
      { replace ((p t <=? k) && (k <? p t + 2 * Z.of_nat (S n))) with true
          by (symmetry; apply andb_true_iff; rewrite Z.leb_le, Z.ltb_lt; lia).
        f_equal. f_equal. lia. }
      destruct ((p t <=? k) && (k <? p t + 2 * Z.of_nat n)) eqn:E3.
      * apply andb_true_iff in E3. rewrite Z.leb_le, Z.ltb_lt in E3.
        replace ((p t <=? k) && (k <? p t + 2 * Z.of_nat (S n))) with true
          by (symmetry; apply andb_true_iff; rewrite Z.leb_le, Z.ltb_lt; lia).
        reflexivity.
      * apply andb_false_iff in E3. rewrite Z.leb_gt, Z.ltb_ge in E3.
        replace ((p t <=? k) && (k <? p t + 2 * Z.of_nat (S n))) with false
          by (symmetry; apply andb_false_iff; rewrite Z.leb_gt, Z.ltb_ge; lia).
        reflexivity.
Qed.

(** ** Load address *)

Lemma shiftr_16 x : Z.shiftr x 16 = x / 256 / 256.
Proof.
  rewrite Z.shiftr_div_pow2 by lia. rewrite Z.div_div by lia. reflexivity.
Qed.

Lemma shiftr_24 x : Z.shiftr x 24 = x / 256 / 256 / 256.
Proof.
  rewrite Z.shiftr_div_pow2 by lia. rewrite !Z.div_div by lia. reflexivity.
Qed.

Lemma join_16 w :
  Z.lor (Z.shiftl (u8 (Z.shiftr w 8)) 8) (u8 w) = w mod 65536.
Proof.
  rewrite lor_bytes by apply u8_is_byte. rewrite shiftr_8. unfold u8.
  pose proof (Z.div_mod w 256 ltac:(lia)).
  pose proof (Z.div_mod (w / 256) 256 ltac:(lia)).
  pose proof (Z.mod_pos_bound w 256 ltac:(lia)).
  pose proof (Z.mod_pos_bound (w / 256) 256 ltac:(lia)).
  apply (Z.mod_unique _ _ (w / 256 / 256)); lia.
Qed.

Lemma join_32 w :
  0 <= w < 2 ^ 32 ->
  Z.lor (Z.lor (Z.lor (Z.shiftl (u8 (Z.shiftr w 24)) 24)
                      (Z.shiftl (u8 (Z.shiftr w 16)) 16))
               (Z.shiftl (u8 (Z.shiftr w 8)) 8))
        (u8 w) = w.
Proof.
  intros Hw.
  set (b1 := u8 (Z.shiftr w 24)). set (b2 := u8 (Z.shiftr w 16)).
  set (b3 := u8 (Z.shiftr w 8)). set (b4 := u8 w).
  assert (H1 : Z.lor (Z.shiftl b1 24) (Z.shiftl b2 16)
               = Z.shiftl (Z.lor (Z.shiftl b1 8) b2) 16).
  { rewrite Z.shiftl_lor, Z.shiftl_shiftl by lia. reflexivity. }
  rewrite H1.
  assert (H2 : Z.lor (Z.shiftl (Z.lor (Z.shiftl b1 8) b2) 16) (Z.shiftl b3 8)
               = Z.shiftl (Z.lor (Z.shiftl (Z.lor (Z.shiftl b1 8) b2) 8) b3) 8).
  { rewrite (Z.shiftl_lor _ b3), Z.shiftl_shiftl by lia. reflexivity. }
  rewrite H2.
  rewrite !lor_bytes by apply u8_is_byte.
  subst b1 b2 b3 b4. rewrite shiftr_8, shiftr_16, shiftr_24. unfold u8.
  pose proof (Z.div_mod w 256 ltac:(lia)).
  pose proof (Z.div_mod (w / 256) 256 ltac:(lia)).
  pose proof (Z.div_mod (w / 256 / 256) 256 ltac:(lia)).
  assert (0 <= w / 256 / 256 / 256 < 256).
  { split.
    - repeat apply Z.div_pos; lia.
    - repeat (apply Z.div_lt_upper_bound; [lia|]). change (2 ^ 32) with 4294967296 in Hw. lia. }
  rewrite (Z.mod_small (w / 256 / 256 / 256)) by lia. lia.
Qed.

(** Load address: the byte address is twice the word address, cut to the
    width of [address_t]. *)
Lemma dispatch_load_address d fuel s sq w :
  0 <= w < 2 ^ 32 ->
  exists s1,
    dispatch d fuel (received s sq (load_address_payload w)) = Returns s1 /\
    address s1 = address_t d (2 * w) /\
    msgLength s1 = 2 /\
    msgBuffer s1 0 = CMD_LOAD_ADDRESS /\
    msgBuffer s1 1 = STATUS_CMD_OK /\
    isLeave s1 = isLeave s /\ seqNum s1 = sq /\
    flash s1 = flash s /\ page_buffer s1 = page_buffer s /\
    eeprom s1 = eeprom s /\ lock_fuse s1 = lock_fuse s.
Proof.
  intros Hw. eexists. split; [reflexivity|].
  repeat split.
  unfold cmd_load_address, cmd_status_ok. fields.
  change (msgBuffer (received s sq (load_address_payload w)) 1)
    with (u8 (Z.shiftr w 24)).
  change (msgBuffer (received s sq (load_address_payload w)) 2)
    with (u8 (Z.shiftr w 16)).
  change (msgBuffer (received s sq (load_address_payload w)) 3)
    with (u8 (Z.shiftr w 8)).
  change (msgBuffer (received s sq (load_address_payload w)) 4) with (u8 w).
  rewrite Z.shiftl_mul_pow2 by lia. change (2 ^ 1) with 2.
  destruct (RAMPZ d) eqn:ER.
  - rewrite join_32 by exact Hw. f_equal. lia.
  - rewrite join_16. unfold address_t, address_bits. rewrite ER.
    change (2 ^ 16) with 65536.
    rewrite Z.mul_comm, <- Zmult_mod_idemp_r. 
    rewrite Z.mod_mod by lia. rewrite Zmult_mod_idemp_r. reflexivity.
Qed.

(** ** Read flash *)

Lemma size_bytes_join sz :
  0 <= sz < 65536 ->
  Z.lor (u16 (Z.shiftl (u8 (Z.shiftr sz 8)) 8)) (u8 sz) = sz.
Proof.
  intros H.
  assert (Hu : u16 (Z.shiftl (u8 (Z.shiftr sz 8)) 8)
               = Z.shiftl (u8 (Z.shiftr sz 8)) 8).
  { rewrite shiftl_8. pose proof (u8_is_byte (Z.shiftr sz 8)) as Hb.
    unfold is_byte in Hb. unfold u16. apply Z.mod_small. lia. }
  rewrite Hu, join_16. apply Z.mod_small. exact H.
Qed.

Lemma nth_map_seq (f : nat -> Z) n j :
  (j < n)%nat -> nth j (map f (seq 0 n)) 0 = f j.
Proof.
  intros Hj. rewrite (nth_indep _ 0 (f 0%nat)) by (rewrite length_map, length_seq; exact Hj).
  rewrite map_nth, seq_nth by exact Hj. reflexivity.
Qed.

Lemma nth_bytes_at m a n j :
  (j < n)%nat -> nth j (bytes_at m a n) 0 = u8 (m (a + Z.of_nat j)).
Proof.
  intros Hj. unfold bytes_at.
  exact (nth_map_seq (fun k => u8 (m (a + Z.of_nat k))) n j Hj).
Qed.

Lemma length_bytes_at m a n : length (bytes_at m a n) = n.
Proof. unfold bytes_at. rewrite length_map, length_seq. reflexivity. Qed.

Lemma message_eq s l :
  msgLength s = Z.of_nat (length l) ->
  (forall k, (k < length l)%nat -> msgBuffer s (Z.of_nat k) = nth k l 0) ->
  message s = l.
Proof.
  intros Hlen Hnth. unfold message. rewrite Hlen, Nat2Z.id.
  apply (nth_ext _ _ 0 0).
  - rewrite length_map, length_seq. reflexivity.
  - intros k Hk. rewrite length_map, length_seq in Hk.
    rewrite nth_map_seq by exact Hk. apply Hnth, Hk.
Qed.

(** Read flash with an even size that fits: the reply carries the flash
    bytes from the current address on, and the address moves past them. *)
Lemma dispatch_read_flash d fuel s sq sz cmd1 :
  Z.even sz = true -> 2 <= sz <= 65532 ->
  0 <= address s < 2 ^ address_bits d ->
  address s + sz <= 2 ^ address_bits d ->
  (Z.to_nat (sz / 2) <= fuel)%nat ->
  exists s2,
    dispatch d fuel (received s sq (read_flash_payload sz cmd1)) = Returns s2 /\
    address s2 = address_t d (address s + sz) /\
    msgLength s2 = sz + 3 /\
    message s2 = [CMD_READ_FLASH_ISP; STATUS_CMD_OK] ++
                 bytes_at (flash s) (address s) (Z.to_nat sz) ++
                 [STATUS_CMD_OK] /\
    isLeave s2 = isLeave s /\ seqNum s2 = sq /\
    flash s2 = flash s /\ page_buffer s2 = page_buffer s /\
    eeprom s2 = eeprom s /\ lock_fuse s2 = lock_fuse s.
Proof.
  intros Hev Hsz Ha Hfit Hfuel.
  set (s' := received s sq (read_flash_payload sz cmd1)).
  assert (Hd : dispatch d fuel s' = cmd_read d fuel s') by reflexivity.
  rewrite Hd. unfold cmd_read.
  assert (Hts : transfer_size s' = sz) by (apply size_bytes_join; lia).
  rewrite Hts.
  set (s0 := poke 1 STATUS_CMD_OK (set_msgLength (u16 (sz + 3)) s')).
  change (msgBuffer s0 0 =? CMD_READ_FLASH_ISP) with true. cbv iota.
  set (t0 := mkTransfer s0 2 sz).
  destruct (word_loop_runs (read_flash_body d) t0 (moves_read_flash d))
    as [_ Hret]; [unfold counter_ok; cbn; lia | exact Hev |].
  cbn [size t0] in Hret.
  assert (Hlim : wrap_count sz = sz)
    by (unfold wrap_count; destruct (sz =? 0) eqn:E;
        [apply Z.eqb_eq in E; lia | reflexivity]).
  rewrite Hlim in Hret. rewrite (Hret fuel Hfuel).
  apply Z.even_spec in Hev. destruct Hev as [m Hm].
  assert (Hn : 2 * Z.of_nat (Z.to_nat (sz / 2)) = sz).
  { rewrite Hm. replace (2 * m / 2) with m by (apply Z.div_unique_exact; lia). lia. }
  destruct (read_flash_iter d t0 (Z.to_nat (sz / 2)))
    as (Ra & Rp & Rf & Rpb & Re & (Rs1 & Rs2 & Rs3 & Rs4) & Rb).
  { exact Ha. } { cbn [machine t0]. rewrite Hn. exact Hfit. }
  set (t' := Nat.iter (Z.to_nat (sz / 2)) (read_flash_body d) t0) in *.
  cbn [machine t0 p] in *. rewrite Hn in *.
  eexists. split; [reflexivity|]. fields.
  assert (Hlen : msgLength (machine t') = sz + 3).
  { rewrite Rs3. subst s0. fields. unfold u16. apply Z.mod_small. lia. }
  split; [exact Ra|]. split; [exact Hlen|].
  split.
  - apply message_eq.
    + fields. rewrite Hlen, !length_app, length_bytes_at. cbn [length]. lia.
    + rewrite !length_app, length_bytes_at. cbn [length]. intros k Hk.
      fields. unfold upd. rewrite Rp, Rb.
      change ([CMD_READ_FLASH_ISP; STATUS_CMD_OK] ++
              bytes_at (flash s) (address s) (Z.to_nat sz) ++ [STATUS_CMD_OK])
        with (CMD_READ_FLASH_ISP :: STATUS_CMD_OK ::
              (bytes_at (flash s) (address s) (Z.to_nat sz) ++ [STATUS_CMD_OK])).
      destruct k as [|[|j]]; cbn [nth].
      { replace (Z.of_nat 0 =? 2 + sz) with false
          by (symmetry; apply Z.eqb_neq; lia).
        replace ((2 <=? Z.of_nat 0) && (Z.of_nat 0 <? 2 + sz)) with false
          by reflexivity.
        reflexivity. }
      { replace (Z.of_nat 1 =? 2 + sz) with false
          by (symmetry; apply Z.eqb_neq; lia).
        replace ((2 <=? Z.of_nat 1) && (Z.of_nat 1 <? 2 + sz)) with false
          by reflexivity.
        reflexivity. }
      destruct (Nat.eq_dec j (Z.to_nat sz)) as [->|Hj].
      * replace (Z.of_nat (S (S (Z.to_nat sz))) =? 2 + sz) with true
          by (symmetry; apply Z.eqb_eq; lia).
        rewrite app_nth2 by (rewrite length_bytes_at; lia).
        rewrite length_bytes_at, Nat.sub_diag. reflexivity.
      * replace (Z.of_nat (S (S j)) =? 2 + sz) with false
          by (symmetry; apply Z.eqb_neq; lia).
        replace ((2 <=? Z.of_nat (S (S j))) && (Z.of_nat (S (S j)) <? 2 + sz))
          with true
          by (symmetry; apply andb_true_iff; rewrite Z.leb_le, Z.ltb_lt; lia).
        rewrite app_nth1 by (rewrite length_bytes_at; lia).
        rewrite nth_bytes_at by lia.
        change (flash s0) with (flash s). change (address s0) with (address s).
        f_equal. f_equal. lia.
  - repeat split; assumption.
Qed.

(** ** The answer on the wire *)

Lemma send_message_spec n : forall buf q chk,
  is_byte chk ->
  Forall is_byte (map (fun k => buf (q + Z.of_nat k)) (seq 0 n)) ->
  send_message n buf q chk =
  (map (fun k => buf (q + Z.of_nat k)) (seq 0 n),
   fold_left Z.lxor (map (fun k => buf (q + Z.of_nat k)) (seq 0 n)) chk).
Proof.
  induction n as [|n IH]; intros buf q chk Hchk Hb; [reflexivity|].
  cbn [send_message seq] in Hb |- *. rewrite <- seq_shift in Hb |- *.
  cbn [map] in Hb |- *. rewrite map_map in Hb |- *.
  change (Z.of_nat 0) with 0 in Hb |- *.
  rewrite Z.add_0_r in *.
  assert (He : map (fun k => buf (q + Z.of_nat (S k))) (seq 0 n)
               = map (fun k => buf (q + 1 + Z.of_nat k)) (seq 0 n))
    by (apply map_ext; intros k; f_equal; lia).
  rewrite He in *.
  pose proof (Forall_inv Hb) as Hb0. pose proof (Forall_inv_tail Hb) as Hb'.
  rewrite u8_lxor by assumption.
  rewrite IH; [|apply lxor_is_byte; assumption|assumption].
  cbn [fold_left]. reflexivity.
Qed.

Lemma send_answer_frame s :
  isLeave s < 2 -> is_byte (seqNum s) -> 0 <= msgLength s < 65536 ->
  Forall is_byte (message s) ->
  send_answer s =
  (set_seqNum (u8 (seqNum s + 1))
     (set_checksum
        (xor_all (frame_header (seqNum s) (msgLength s) ++ message s))
        (set_msgLength 0 s)),
   frame (seqNum s) (message s)).
Proof.
  intros Hl Hsq HL Hm. unfold send_answer.
  replace (isLeave s <? 2) with true by (symmetry; apply Z.ltb_lt; exact Hl).
  assert (Hhi : Z.land (Z.shiftr (msgLength s) 8) 0xFF = Z.shiftr (msgLength s) 8).
  { rewrite land_255. apply (u8_small _ (byte_hi _ HL)). }
  rewrite Hhi.
  pose proof (byte_hi _ HL) as Bhi. pose proof (byte_lo (msgLength s)) as Blo.
  assert (Bs : is_byte MESSAGE_START) by (unfold is_byte, MESSAGE_START; lia).
  assert (Bt : is_byte TOKEN) by (unfold is_byte, TOKEN; lia).
  rewrite Z.lxor_0_r.
  rewrite !u8_lxor by (repeat (assumption || apply lxor_is_byte || apply u8_is_byte)).
  assert (Hmsg : message s =
            map (fun k => msgBuffer s (0 + Z.of_nat k))
                (seq 0 (Z.to_nat (msgLength s)))) by reflexivity.
  rewrite send_message_spec;
    [|repeat (assumption || apply lxor_is_byte)|rewrite <- Hmsg; exact Hm].
  rewrite <- Hmsg.
  assert (Hlen : Z.of_nat (length (message s)) = msgLength s)
    by (unfold message; rewrite length_map, length_seq; lia).
  unfold frame. rewrite Hlen. unfold frame_header, xor_all.
  cbn [app fold_left]. rewrite Z.lxor_0_l. reflexivity.
Qed.

(** A well-formed frame whose command returns and does not leave is
    answered by a well-formed frame with the same sequence number, and the
    loop goes on with the next byte. *)
Lemma main_loop_command_then d fuel s sq payload s' rest :
  msgParseState s = ST_START ->
  sq = 1 \/ sq = seqNum s ->
  is_byte sq -> Forall is_byte payload ->
  1 <= Z.of_nat (length payload) <= 65535 ->
  dispatch d fuel (received s sq payload) = Returns s' ->
  isLeave s' = 0 -> seqNum s' = sq ->
  0 <= msgLength s' < 65536 -> Forall is_byte (message s') ->
  main_loop d fuel s (frame sq payload ++ rest) =
  prepend (frame sq (message s')) (main_loop d fuel (answered s') rest).
Proof.
  intros Hs Hsq Bsq Bp Hlen Hd Hl Hsn HL Bm.
  rewrite main_loop_frame by assumption.
  unfold serve_and_go_on, serve. rewrite Hd.
  rewrite send_answer_frame; try assumption; try lia; [|rewrite Hsn; exact Bsq].
  fields. rewrite Hl. cbn [Z.eqb]. unfold answered. rewrite Hsn. reflexivity.
Qed.

Lemma main_loop_command d fuel s sq payload s' :
  msgParseState s = ST_START ->
  sq = 1 \/ sq = seqNum s ->
  is_byte sq -> Forall is_byte payload ->
  1 <= Z.of_nat (length payload) <= 65535 ->
  dispatch d fuel (received s sq payload) = Returns s' ->
  isLeave s' = 0 -> seqNum s' = sq ->
  0 <= msgLength s' < 65536 -> Forall is_byte (message s') ->
  main_loop d fuel s (frame sq payload) =
  (answered s', frame sq (message s'), Receiving).
Proof.
  intros. rewrite <- (app_nil_r (frame sq payload)).
  rewrite (main_loop_command_then d fuel s sq payload s') by assumption.
  cbn [main_loop prepend]. rewrite app_nil_r. reflexivity.
Qed.

(** ** Load address, then read flash *)

Lemma Forall_bytes_at m a n : Forall is_byte (bytes_at m a n).
Proof.
  unfold bytes_at. apply Forall_forall. intros x Hx.
  apply in_map_iff in Hx. destruct Hx as (k & <- & _). apply u8_is_byte.
Qed.

Lemma is_byte_const x : (0 <=? x) && (x <? 256) = true -> is_byte x.
Proof.
  intros H. apply andb_true_iff in H. rewrite Z.leb_le, Z.ltb_lt in H. exact H.
Qed.

Ltac bytes :=
  repeat (apply Forall_app; split);
  repeat (apply Forall_cons || apply Forall_nil);
  try apply Forall_bytes_at; try apply u8_is_byte; try assumption;
  try (apply is_byte_const; reflexivity).

Lemma address_bits_le d : 2 ^ address_bits d <= 2 ^ 32.
Proof. unfold address_bits. destruct (RAMPZ d); cbn; lia. Qed.

(** C7, as amended.  A load-address frame with word address [w] sets
    [address] to [2 * w]; a read-flash frame of size [sz] that follows is
    answered with the [sz] flash bytes from byte address [2 * w] on and
    leaves [address] at [2 * w + sz] - provided [sz] is even, at least 2,
    the answer fits the buffer ([sz + 3 <= 285]) and [2 * w + sz] is
    within the range of [address_t].  ([fuel] bounds the passes of the
    read loop; [sz / 2] are enough.) *)
Theorem load_address_then_read_flash d fuel s sq sq' w sz cmd1 :
  msgParseState s = ST_START -> isLeave s = 0 ->
  sq = 1 \/ sq = seqNum s -> is_byte sq ->
  sq' = 1 \/ sq' = u8 (sq + 1) -> is_byte sq' -> is_byte cmd1 ->
  0 <= w -> Z.even sz = true -> 2 <= sz -> sz + 3 <= MSG_BUFFER_SIZE ->
  2 * w + sz < 2 ^ address_bits d ->
  (Z.to_nat (sz / 2) <= fuel)%nat ->
  exists s1 s2,
    main_loop d fuel s (frame sq (load_address_payload w)) =
      (s1, frame sq [CMD_LOAD_ADDRESS; STATUS_CMD_OK], Receiving) /\
    address s1 = 2 * w /\
    main_loop d fuel s1 (frame sq' (read_flash_payload sz cmd1)) =
      (s2,
       frame sq' ([CMD_READ_FLASH_ISP; STATUS_CMD_OK] ++
                  bytes_at (flash s) (2 * w) (Z.to_nat sz) ++
                  [STATUS_CMD_OK]),
       Receiving) /\
    address s2 = 2 * w + sz.
Proof.
  intros Hs Hl Hsq Bsq Hsq' Bsq' Bc Hw Hev Hsz Hfit Hrange Hfuel.
  unfold MSG_BUFFER_SIZE in Hfit.
  pose proof (address_bits_le d) as Hbits.
  destruct (dispatch_load_address d fuel s sq w ltac:(lia))
    as (s1 & D1 & A1 & L1 & B10 & B11 & I1 & Q1 & F1 & P1 & E1 & K1).
  assert (M1 : message s1 = [CMD_LOAD_ADDRESS; STATUS_CMD_OK]).
  { apply message_eq; [exact L1|]. intros k Hk. cbn [length] in Hk.
    destruct k as [|[|k]]; [exact B10|exact B11|lia]. }
  assert (A1' : address s1 = 2 * w)
    by (rewrite A1; apply address_t_small; lia).
  destruct (dispatch_read_flash d fuel (answered s1) sq' sz cmd1)
    as (s2 & D2 & A2 & L2 & M2 & I2 & Q2 & F2 & P2 & E2 & K2);
    try assumption; try lia.
  { cbn [answered address set_msgParseState set_seqNum set_checksum
         set_msgLength]. lia. }
  { cbn [answered address set_msgParseState set_seqNum set_checksum
         set_msgLength]. lia. }
  exists (answered s1), (answered s2).
  split; [|split; [exact A1'|split]].
  - rewrite <- M1. apply main_loop_command; try assumption.
    + unfold load_address_payload. bytes.
    + cbn. lia.
    + rewrite I1. exact Hl.
    + lia.
    + rewrite M1. bytes.
  - replace (flash s) with (flash (answered s1))
      by (unfold answered; fields; exact F1).
    replace (2 * w) with (address (answered s1))
      by (unfold answered; fields; exact A1').
    rewrite <- M2. apply main_loop_command; try assumption.
    + reflexivity.
    + unfold answered; fields. rewrite Q1. exact Hsq'.
    + unfold read_flash_payload. bytes.
    + cbn. lia.
    + rewrite I2. unfold answered; fields. rewrite I1. exact Hl.
    + lia.
    + rewrite M2. bytes.
  - cbn [answered address set_msgParseState set_seqNum set_checksum
         set_msgLength] in *.
    rewrite A2, A1'. apply address_t_small. lia.
Qed.

(** Scenario 3: word address 0x0010 gives byte address 0x0020; reading 4
    bytes returns those at 0x0020..0x0023 and leaves 0x0024. *)
Lemma load_address_then_read_flash_witness :
  exists s1 s2,
    main_loop atmega644 2 power_on (frame 1 (load_address_payload 0x0010)) =
      (s1, frame 1 [CMD_LOAD_ADDRESS; STATUS_CMD_OK], Receiving) /\
    address s1 = 0x0020 /\
    main_loop atmega644 2 s1 (frame 2 (read_flash_payload 4 0x20)) =
      (s2,
       frame 2 ([CMD_READ_FLASH_ISP; STATUS_CMD_OK] ++
                bytes_at (flash power_on) 0x0020 4 ++ [STATUS_CMD_OK]),
       Receiving) /\
    address s2 = 0x0024.
Proof.
  apply (load_address_then_read_flash atmega644 2%nat power_on 1 2 0x0010 4
           0x20);
    try reflexivity; try (unfold is_byte; lia); try (left; reflexivity);
    try (right; reflexivity); try (cbn; lia);
    unfold MSG_BUFFER_SIZE; lia.
Defined.

(** C7 as stated fails for an odd size: after load-address 0x0010, a
    read-flash of size 3 is never answered; the 16-bit counter steps from 1
    to 65535 and stays odd, so the read loop never ends. *)
Lemma read_flash_odd_size_never_returns :
  ~ exists fuel s2 out,
      main_loop atmega644 fuel power_on
        (frame 1 (load_address_payload 0x0010) ++
         frame 2 (read_flash_payload 3 0x20)) = (s2, out, Receiving).
Proof.
  intros (fuel & s2 & out & H).
  destruct (dispatch_load_address atmega644 fuel power_on 1 0x0010 ltac:(lia))
    as (s1 & D1 & A1 & L1 & B10 & B11 & I1 & Q1 & F1 & P1 & E1 & K1).
  assert (M1 : message s1 = [CMD_LOAD_ADDRESS; STATUS_CMD_OK]).
  { apply message_eq; [exact L1|]. intros k Hk. cbn [length] in Hk.
    destruct k as [|[|k]]; [exact B10|exact B11|lia]. }
  rewrite (main_loop_command_then atmega644 fuel power_on 1 _ s1) in H;
    try assumption; try reflexivity; try (left; reflexivity);
    try (cbn; lia); try (rewrite ?M1; unfold load_address_payload; bytes);
    try lia.
  rewrite <- (app_nil_r (frame 2 _)) in H.
  rewrite main_loop_frame in H;
    try reflexivity; try (unfold read_flash_payload; bytes); try (cbn; lia);
    [|right; unfold answered; fields; rewrite Q1; reflexivity].
  unfold serve_and_go_on, serve in H.
  set (s' := received (answered s1) 2 (read_flash_payload 3 0x20)) in H.
  change (dispatch atmega644 fuel s') with (cmd_read atmega644 fuel s') in H.
  unfold cmd_read in H.
  change (transfer_size s') with 3 in H.
  set (s0 := poke 1 STATUS_CMD_OK (set_msgLength (u16 (3 + 3)) s')) in H.
  change (msgBuffer s0 0 =? CMD_READ_FLASH_ISP) with true in H. cbv iota in H.
  rewrite (word_loop_never_returns (read_flash_body atmega644)
             (mkTransfer s0 2 3) (moves_read_flash atmega644)) in H;
    [|unfold counter_ok; cbn; lia | reflexivity].
  cbn [prepend] in H. discriminate.
Qed.

(** ** Corrupted frames; sign-on *)

Lemma main_loop_corrupted d fuel s sq payload bad rest :
  msgParseState s = ST_START ->
  sq = 1 \/ sq = seqNum s ->
  is_byte sq -> Forall is_byte payload ->
  1 <= Z.of_nat (length payload) <= 65535 ->
  bad <> xor_all (frame_header sq (Z.of_nat (length payload)) ++ payload) ->
  main_loop d fuel s (corrupted_frame sq payload bad ++ rest) =
  main_loop d fuel (dropped s sq payload) rest.
Proof.
  intros Hst Hsq Hb Hp Hlen Hbad. unfold corrupted_frame.
  rewrite <- !app_assoc. rewrite main_loop_frame_body by assumption.
  cbn [app]. rewrite main_loop_cons. unfold received, dropped, set_msgParseState. fields.
  rewrite step_check.
  replace (bad =? _) with false by (symmetry; apply Z.eqb_neq; exact Hbad).
  reflexivity.
Qed.

(** C4, as amended.  A frame of 1 to 285 payload bytes whose start marker,
    sequence byte [sq] and token are accepted and whose last byte is not
    the XOR checksum: no
    byte is sent, the parser is back in [ST_START], the stored sequence
    number is [sq] (the byte of the corrupted frame, stored when it was
    accepted), address, leave flag, flash and EEPROM are as before; and a
    well-formed frame numbered [sq] that follows is taken in and served as
    any frame is. *)
Theorem corrupted_frame_is_dropped d fuel s sq payload bad payload' rest :
  msgParseState s = ST_START ->
  sq = 1 \/ sq = seqNum s ->
  is_byte sq -> Forall is_byte payload ->
  1 <= Z.of_nat (length payload) <= MSG_BUFFER_SIZE ->
  bad <> xor_all (frame_header sq (Z.of_nat (length payload)) ++ payload) ->
  Forall is_byte payload' ->
  1 <= Z.of_nat (length payload') <= MSG_BUFFER_SIZE ->
  main_loop d fuel s (corrupted_frame sq payload bad) =
    (dropped s sq payload, [], Receiving) /\
  msgParseState (dropped s sq payload) = ST_START /\
  seqNum (dropped s sq payload) = sq /\
  address (dropped s sq payload) = address s /\
  isLeave (dropped s sq payload) = isLeave s /\
  flash (dropped s sq payload) = flash s /\
  eeprom (dropped s sq payload) = eeprom s /\
  main_loop d fuel s (corrupted_frame sq payload bad ++
                      frame sq payload' ++ rest) =
    serve_and_go_on d fuel (received (dropped s sq payload) sq payload') rest.
Proof.
  intros Hst Hsq Hb Hp Hlen Hbad Hp' Hlen'.
  unfold MSG_BUFFER_SIZE in Hlen, Hlen'.
  assert (Hl : 1 <= Z.of_nat (length payload) <= 65535) by lia.
  assert (Hl' : 1 <= Z.of_nat (length payload') <= 65535) by lia.
  split; [|repeat split].
  - rewrite <- (app_nil_r (corrupted_frame sq payload bad)).
    rewrite main_loop_corrupted by assumption. reflexivity.
  - rewrite main_loop_corrupted by assumption.
    apply main_loop_frame; try assumption; [reflexivity | right; reflexivity].
Qed.

(** The theorem at a sign-on frame with the checksum 0x15 in place of 0x14. *)
Lemma corrupted_frame_is_dropped_witness :
  main_loop atmega644 0 power_on (corrupted_frame 1 [CMD_SIGN_ON] 0x15) =
    (dropped power_on 1 [CMD_SIGN_ON], [], Receiving) /\
  msgParseState (dropped power_on 1 [CMD_SIGN_ON]) = ST_START /\
  seqNum (dropped power_on 1 [CMD_SIGN_ON]) = 1 /\
  address (dropped power_on 1 [CMD_SIGN_ON]) = address power_on /\
  isLeave (dropped power_on 1 [CMD_SIGN_ON]) = isLeave power_on /\
  flash (dropped power_on 1 [CMD_SIGN_ON]) = flash power_on /\
  eeprom (dropped power_on 1 [CMD_SIGN_ON]) = eeprom power_on /\
  main_loop atmega644 0 power_on
    (corrupted_frame 1 [CMD_SIGN_ON] 0x15 ++ frame 1 [CMD_SIGN_ON] ++ []) =
    serve_and_go_on atmega644 0
      (received (dropped power_on 1 [CMD_SIGN_ON]) 1 [CMD_SIGN_ON]) [].
Proof.
  apply (corrupted_frame_is_dropped atmega644 0%nat power_on 1 [CMD_SIGN_ON]
           0x15 [CMD_SIGN_ON] []).
  - reflexivity.
  - left. reflexivity.
  - apply is_byte_const. reflexivity.
  - bytes.
  - unfold MSG_BUFFER_SIZE. cbn. lia.
  - intros H. vm_compute in H. discriminate H.
  - bytes.
  - unfold MSG_BUFFER_SIZE. cbn. lia.
Defined.

(** C4 as stated fails: after one answered frame the stored number is 2; a
    corrupted frame numbered 1 is taken in up to its checksum, nothing is
    sent, and the stored number is 1 afterwards. *)
Lemma corrupted_frame_changes_seqNum :
  seqNum after_one_frame = 2 /\
  snd (fst (main_loop atmega644 0 after_one_frame
              (corrupted_frame 1 [CMD_SIGN_ON] 0x15))) = [] /\
  seqNum (fst (fst (main_loop atmega644 0 after_one_frame
                      (corrupted_frame 1 [CMD_SIGN_ON] 0x15)))) = 1.
Proof. vm_compute. repeat split; reflexivity. Qed.

Lemma sign_on_answered d fuel s :
  msgParseState s = ST_START -> isLeave s = 0 ->
  main_loop d fuel s (frame 1 [CMD_SIGN_ON]) =
  (answered (cmd_sign_on (received s 1 [CMD_SIGN_ON])),
   frame 1 [0x01; 0x00; 0x08; 65; 86; 82; 73; 83; 80; 95; 50],
   Receiving).
Proof.
  intros Hs Hl.
  set (s1 := cmd_sign_on (received s 1 [CMD_SIGN_ON])).
  assert (M : message s1 = [0x01; 0x00; 0x08; 65; 86; 82; 73; 83; 80; 95; 50])
    by reflexivity.
  rewrite (main_loop_command d fuel s 1 [CMD_SIGN_ON] s1).
  - rewrite M. reflexivity.
  - exact Hs.
  - left; reflexivity.
  - unfold is_byte; lia.
  - bytes.
  - cbn [length Z.of_nat]. lia.
  - reflexivity.
  - exact Hl.
  - reflexivity.
  - change (msgLength s1) with 11. lia.
  - rewrite M. bytes.
Qed.

(** C8, as amended.  The sign-on frame [1B 01 00 01 0E 01 14] (sequence 1,
    declared length 1, payload [01]) is answered with
    [1B 01 00 0B 0E 01 00 08 'A' 'V' 'R' 'I' 'S' 'P' '_' '2' 74]: the
    answer repeats the command byte 01 before status-OK, the length 8 and
    the identifier. *)
Theorem sign_on_reply d fuel s :
  msgParseState s = ST_START -> isLeave s = 0 ->
  exists s',
    main_loop d fuel s [0x1B; 0x01; 0x00; 0x01; 0x0E; 0x01; 0x14] =
    (s',
     [0x1B; 0x01; 0x00; 0x0B; 0x0E;
      0x01; 0x00; 0x08; 65; 86; 82; 73; 83; 80; 95; 50;
      0x74],
     Receiving).
Proof.
  intros Hs Hl.
  exists (answered (cmd_sign_on (received s 1 [CMD_SIGN_ON]))).
  exact (sign_on_answered d fuel s Hs Hl).
Qed.

(** The theorem on a machine fresh from reset. *)
Lemma sign_on_reply_witness :
  msgParseState power_on = ST_START /\ isLeave power_on = 0 /\
  exists s',
    main_loop atmega644 0 power_on
      [0x1B; 0x01; 0x00; 0x01; 0x0E; 0x01; 0x14] =
    (s',
     [0x1B; 0x01; 0x00; 0x0B; 0x0E;
      0x01; 0x00; 0x08; 65; 86; 82; 73; 83; 80; 95; 50;
      0x74],
     Receiving).
Proof.
  split; [reflexivity|]. split; [reflexivity|].
  apply (sign_on_reply atmega644 0%nat power_on); reflexivity.
Defined.

(** C8 as stated fails: with the declared length 2 the parser takes the
    seventh byte as payload and waits for a checksum; nothing is sent, also
    when the wait then times out twice and the loop is left. *)
Lemma sign_on_length_2_gets_no_reply :
  snd (fst (main_loop atmega644 0 power_on scenario_1_input)) = [] /\
  snd (main_loop atmega644 0 power_on scenario_1_input) = Receiving /\
  msgParseState (fst (fst (main_loop atmega644 0 power_on scenario_1_input)))
    = ST_GET_CHECK /\
  snd (fst (main_loop atmega644 0 power_on
              (map recchar (map Received scenario_1_input ++
                            [TimedOut; TimedOut])))) = [] /\
  snd (main_loop atmega644 0 power_on
         (map recchar (map Received scenario_1_input ++
                       [TimedOut; TimedOut]))) = Exited.
Proof. vm_compute. repeat split; reflexivity. Qed.

(** ** What the command handlers leave alone *)

Lemma untouched_body d body s0 t :
  body = write_flash_body d \/ body = write_eeprom_body d \/
  body = read_flash_body d \/ body = read_eeprom_body d ->
  untouched s0 t -> untouched s0 (body t).
Proof.
  intros Hb (H1 & H2 & H3).
  destruct Hb as [-> | [-> | [-> | ->]]]; unfold untouched; repeat split; assumption.
Qed.

Lemma untouched_loop d body fuel s0 t :
  body = write_flash_body d \/ body = write_eeprom_body d \/
  body = read_flash_body d \/ body = read_eeprom_body d ->
  untouched s0 t -> untouched s0 (result (do_while fuel body size_left t)).
Proof.
  intros Hb. apply do_while_invariant. intros a. apply (untouched_body d); exact Hb.
Qed.

(** The sequence number is the parser's and the encoder's: no command
    handler changes it. *)
Lemma cmd_program_seqNum d fuel s :
  seqNum (result (cmd_program d fuel s)) = seqNum s.
Proof.
  unfold cmd_program.
  destruct (msgBuffer s 0 =? CMD_PROGRAM_FLASH_ISP).
  - destruct (address s <? APP_END d); [|reflexivity].
    pose proof (untouched_loop d (write_flash_body d) fuel
                  (boot_page_erase d (address s) s)
                  (mkTransfer (boot_page_erase d (address s) s) 10
                              (transfer_size s))
                  ltac:(auto) ltac:(repeat split)) as (H & _).
    destruct (do_while _ _ _ _); cbn [result] in H |- *; exact H.
  - pose proof (untouched_loop d (write_eeprom_body d) fuel s
                  (mkTransfer s 10 (transfer_size s))
                  ltac:(auto) ltac:(repeat split)) as (H & _).
    destruct (do_while _ _ _ _); cbn [result] in H |- *; exact H.
Qed.

Lemma cmd_read_seqNum d fuel s :
  seqNum (result (cmd_read d fuel s)) = seqNum s.
Proof.
  unfold cmd_read.
  set (s0 := poke 1 STATUS_CMD_OK
               (set_msgLength (u16 (transfer_size s + 3)) s)).
  set (body := if msgBuffer s0 0 =? CMD_READ_FLASH_ISP
               then read_flash_body d else read_eeprom_body d).
  assert (Hb : body = write_flash_body d \/ body = write_eeprom_body d \/
               body = read_flash_body d \/ body = read_eeprom_body d)
    by (subst body; destruct (msgBuffer s0 0 =? CMD_READ_FLASH_ISP); auto).
  pose proof (untouched_loop d body fuel s0
                (mkTransfer s0 2 (transfer_size s)) Hb
                ltac:(repeat split)) as (H & _).
  destruct (do_while _ _ _ _); cbn [result] in H |- *; exact H.
Qed.

Lemma dispatch_seqNum d fuel s :
  seqNum (result (dispatch d fuel s)) = seqNum s.
Proof.
  unfold dispatch.
  repeat match goal with
         | |- context [if ?c then Returns _ else _] =>
             destruct c; [reflexivity|]
         | |- context [if ?c then cmd_program _ _ _ else _] =>
             destruct c; [apply cmd_program_seqNum|]
         | |- context [if ?c then cmd_read _ _ _ else _] =>
             destruct c; [apply cmd_read_seqNum|]
         end.
  reflexivity.
Qed.

(** ** Sequence numbers *)

Lemma seq_num_step s c :
  msgParseState s = ST_GET_SEQ_NUM ->
  (c = 1 \/ c = seqNum s ->
     msgParseState (parse_step s c) = ST_MSG_SIZE_1 /\
     seqNum (parse_step s c) = c) /\
  (~ (c = 1 \/ c = seqNum s) ->
     msgParseState (parse_step s c) = ST_START /\
     seqNum (parse_step s c) = seqNum s).
Proof.
  intros Hs. unfold parse_step. rewrite Hs.
  destruct ((c =? 1) || (c =? seqNum s)) eqn:E.
  - apply orb_true_iff in E. rewrite !Z.eqb_eq in E.
    split; [intros _; split; reflexivity | intros H; contradiction].
  - apply orb_false_iff in E. rewrite !Z.eqb_neq in E.
    split; [intros [H|H]; lia | intros _; split; reflexivity].
Qed.

Lemma answered_frame_seqNum d fuel s sq payload s1 out :
  msgParseState s = ST_START ->
  sq = 1 \/ sq = seqNum s ->
  is_byte sq -> Forall is_byte payload ->
  1 <= Z.of_nat (length payload) <= 65535 ->
  main_loop d fuel s (frame sq payload) = (s1, out, Receiving) ->
  msgParseState s1 = ST_START /\ seqNum s1 = u8 (sq + 1) /\ out <> [].
Proof.
  intros Hs Hsq Bsq Bp Hlen Hrun.
  rewrite <- (app_nil_r (frame sq payload)) in Hrun.
  rewrite main_loop_frame in Hrun by assumption.
  unfold serve_and_go_on, serve in Hrun.
  pose proof (dispatch_seqNum d fuel (received s sq payload)) as Hq.
  destruct (dispatch d fuel (received s sq payload)) as [s'|s'] eqn:Ed;
    [|discriminate].
  unfold result, received in Hq. fields.
  unfold send_answer in Hrun.
  destruct (isLeave s' <? 2) eqn:El.
  - destruct (send_message _ _ _ _) as [body chk]. fields.
    destruct (isLeave s' =? 0); [|discriminate].
    cbn [main_loop prepend] in Hrun. inversion Hrun; subst.
    fields. repeat split. discriminate.
  - apply Z.ltb_ge in El.
    destruct (isLeave s' =? 0) eqn:E0; [apply Z.eqb_eq in E0; lia|discriminate].
Qed.

(** C2, as amended.  In [ST_GET_SEQ_NUM] a byte is accepted if and only if
    it is 1 or the stored sequence number, and any other byte sends the
    parser back to [ST_START].  Once a frame numbered [sq] has been
    answered, the stored number is [sq + 1] modulo 256: the bytes accepted
    then are 1 and [sq + 1], not the number [sq] of the frame before.
    (The frame is one that fits the buffer, and so does the reply if its
    command is a read.) *)
Theorem sequence_byte_acceptance d fuel s sq payload s1 out c :
  msgParseState s = ST_START ->
  sq = 1 \/ sq = seqNum s ->
  is_byte sq -> Forall is_byte payload ->
  1 <= Z.of_nat (length payload) <= MSG_BUFFER_SIZE ->
  read_fits (received s sq payload) ->
  main_loop d fuel s (frame sq payload) = (s1, out, Receiving) ->
  (forall s0, msgParseState s0 = ST_GET_SEQ_NUM ->
     (c = 1 \/ c = seqNum s0 ->
        msgParseState (parse_step s0 c) = ST_MSG_SIZE_1 /\
        seqNum (parse_step s0 c) = c) /\
     (~ (c = 1 \/ c = seqNum s0) ->
        msgParseState (parse_step s0 c) = ST_START /\
        seqNum (parse_step s0 c) = seqNum s0)) /\
  out <> [] /\
  msgParseState (parse s1 [MESSAGE_START]) = ST_GET_SEQ_NUM /\
  seqNum (parse s1 [MESSAGE_START]) = u8 (sq + 1) /\
  (c = 1 \/ c = u8 (sq + 1) ->
     msgParseState (parse s1 [MESSAGE_START; c]) = ST_MSG_SIZE_1) /\
  (~ (c = 1 \/ c = u8 (sq + 1)) ->
     msgParseState (parse s1 [MESSAGE_START; c]) = ST_START).
Proof.
  intros Hs Hsq Bsq Bp Hlen _ Hrun. unfold MSG_BUFFER_SIZE in Hlen.
  assert (Hl : 1 <= Z.of_nat (length payload) <= 65535) by lia.
  destruct (answered_frame_seqNum d fuel s sq payload s1 out)
    as (H1 & H2 & H3); try assumption.
  split; [intros s0; apply seq_num_step|]. split; [exact H3|].
  assert (Hp : parse s1 [MESSAGE_START] =
               set_checksum (Z.lxor MESSAGE_START 0)
                 (set_msgParseState ST_GET_SEQ_NUM s1)).
  { unfold parse. cbn [fold_left]. unfold parse_step. rewrite H1.
    rewrite Z.eqb_refl. reflexivity. }
  assert (Hq : seqNum (parse s1 [MESSAGE_START]) = u8 (sq + 1))
    by (rewrite Hp; exact H2).
  assert (Hst : msgParseState (parse s1 [MESSAGE_START]) = ST_GET_SEQ_NUM)
    by (rewrite Hp; reflexivity).
  split; [exact Hst|]. split; [exact Hq|].
  change (parse s1 [MESSAGE_START; c])
    with (parse_step (parse s1 [MESSAGE_START]) c).
  destruct (seq_num_step (parse s1 [MESSAGE_START]) c Hst) as [Hacc Hrej].
  rewrite Hq in Hacc, Hrej.
  split; intros H; [apply Hacc | apply Hrej]; exact H.
Qed.

(** The theorem after a first sign-on frame: 2 is accepted next. *)
Lemma sequence_byte_acceptance_witness :
  exists s1 out,
    main_loop atmega644 0 power_on (frame 1 [CMD_SIGN_ON]) =
      (s1, out, Receiving) /\
    out <> [] /\
    seqNum (parse s1 [MESSAGE_START]) = u8 (1 + 1) /\
    ((2 = 1 \/ 2 = u8 (1 + 1)) ->
       msgParseState (parse s1 [MESSAGE_START; 2]) = ST_MSG_SIZE_1).
Proof.
  pose proof (sign_on_answered atmega644 0%nat power_on eq_refl eq_refl)
    as Hrun.
  set (s1 := answered (cmd_sign_on (received power_on 1 [CMD_SIGN_ON])))
    in Hrun.
  exists s1, (frame 1 [0x01; 0x00; 0x08; 65; 86; 82; 73; 83; 80; 95; 50]).
  split; [exact Hrun|].
  destruct (sequence_byte_acceptance atmega644 0%nat power_on 1 [CMD_SIGN_ON]
              s1 (frame 1 [0x01; 0x00; 0x08; 65; 86; 82; 73; 83; 80; 95; 50])
              2 eq_refl (or_introl eq_refl))
    as (_ & H1 & _ & H2 & H3 & _).
  - apply is_byte_const. reflexivity.
  - bytes.
  - unfold MSG_BUFFER_SIZE. cbn. lia.
  - intros [H|H]; vm_compute in H; discriminate H.
  - exact Hrun.
  - repeat split; assumption.
Defined.

(** C2 as stated fails: after frames numbered 1 and 2 were answered, a
    frame numbered 2 again - a duplicate of the last one - is rejected at
    its sequence byte, and one numbered 3 is accepted. *)
Lemma duplicate_sequence_number_rejected :
  seqNum after_two_frames = 3 /\
  msgParseState (parse after_two_frames [MESSAGE_START; 2]) = ST_START /\
  msgParseState (parse after_two_frames [MESSAGE_START; 3]) = ST_MSG_SIZE_1.
Proof. vm_compute. repeat split; reflexivity. Qed.

(** ** Protection of the boot section *)

Example example_devices_ok :
  device_ok atmega644 = true /\ device_ok atmega1280 = true.
Proof. split; reflexivity. Qed.

Lemma device_ok_spec d :
  device_ok d = true ->
  2 <= SPM_PAGESIZE d <= 256 /\ Z.even (SPM_PAGESIZE d) = true /\
  0 < BOOTLOADER_ADDRESS d /\
  BOOTLOADER_ADDRESS d mod SPM_PAGESIZE d = 0 /\
  BOOTLOADER_ADDRESS d <= 2 ^ address_bits d.
Proof.
  unfold device_ok. rewrite !andb_true_iff.
  rewrite !Z.leb_le, Z.ltb_lt, Z.eqb_eq. tauto.
Qed.

(** A page that starts below a page-aligned boundary ends below it. *)
Lemma page_below_boundary d a x :
  0 < SPM_PAGESIZE d ->
  BOOTLOADER_ADDRESS d mod SPM_PAGESIZE d = 0 ->
  a < BOOTLOADER_ADDRESS d -> BOOTLOADER_ADDRESS d <= x ->
  in_page d a x = false.
Proof.
  intros Hps Hal Ha Hx.
  unfold in_page, page_base. apply andb_false_iff. right. apply Z.ltb_ge.
  pose proof (Z.div_mod a (SPM_PAGESIZE d) ltac:(lia)) as Hdm.
  pose proof (Z.div_mod (BOOTLOADER_ADDRESS d) (SPM_PAGESIZE d) ltac:(lia))
    as Hbm.
  rewrite Hal in Hbm.
  assert (Hq : a / SPM_PAGESIZE d < BOOTLOADER_ADDRESS d / SPM_PAGESIZE d).
  { apply Z.div_lt_upper_bound; lia. }
  nia.
Qed.

(** The program command changes flash only inside the page that contains
    the address it starts from, however many passes its loop makes. *)
Lemma cmd_program_flash_outside_page d fuel s x :
  in_page d (address s) x = false ->
  flash (result (cmd_program d fuel s)) x = flash s x.
Proof.
  intros Hx. unfold cmd_program.
  destruct (msgBuffer s 0 =? CMD_PROGRAM_FLASH_ISP).
  - destruct (address s <? APP_END d); [|reflexivity].
    pose proof (untouched_loop d (write_flash_body d) fuel
                  (boot_page_erase d (address s) s)
                  (mkTransfer (boot_page_erase d (address s) s) 10
                              (transfer_size s))
                  ltac:(auto) ltac:(repeat split)) as (_ & _ & H).
    destruct (do_while _ _ _ _) as [t|t]; cbn [result] in H |- *.
    + unfold cmd_status_ok, boot_rww_enable, boot_page_write. fields.
      rewrite Hx, H. unfold boot_page_erase. fields. rewrite Hx. reflexivity.
    + rewrite H. unfold boot_page_erase. fields. rewrite Hx. reflexivity.
  - pose proof (untouched_loop d (write_eeprom_body d) fuel s
                  (mkTransfer s 10 (transfer_size s))
                  ltac:(auto) ltac:(repeat split)) as (_ & _ & H).
    destruct (do_while _ _ _ _); cbn [result] in H |- *;
      [unfold cmd_status_ok; fields|]; rewrite H; reflexivity.
Qed.

Lemma cmd_program_guard d fuel s x :
  msgBuffer s 0 = CMD_PROGRAM_FLASH_ISP ->
  APP_END d <= address s ->
  flash (result (cmd_program d fuel s)) x = flash s x.
Proof.
  intros Hc Ha. unfold cmd_program. rewrite Hc, Z.eqb_refl.
  replace (address s <? APP_END d) with false
    by (symmetry; apply Z.ltb_ge; exact Ha).
  reflexivity.
Qed.

Lemma dispatch_program_flash d fuel s :
  msgBuffer s 0 = CMD_PROGRAM_FLASH_ISP ->
  dispatch d fuel s = cmd_program d fuel s.
Proof. intros H. unfold dispatch. rewrite H. reflexivity. Qed.

(** C1.  For every program-flash command, whatever the address it starts
    from and the size it declares, and however many passes its loop has
    made, the flash at and above [BOOTLOADER_ADDRESS] is as before, for
    any contents: no page erase and no write of a word reaches a byte
    address there.  The boot section starts on a page boundary.  (The test
    [address < APP_END] is on the start address only; the erase and the
    page write both act on the page that contains it, which ends below the
    boundary, and [boot_page_fill] loads the page buffer at the offset
    within a page.) *)
Theorem program_flash_spares_boot_section d fuel s x :
  0 < SPM_PAGESIZE d ->
  BOOTLOADER_ADDRESS d mod SPM_PAGESIZE d = 0 ->
  msgBuffer s 0 = CMD_PROGRAM_FLASH_ISP ->
  BOOTLOADER_ADDRESS d <= x ->
  flash (result (dispatch d fuel s)) x = flash s x.
Proof.
  intros Hps Hal Hc Hx. rewrite dispatch_program_flash by exact Hc.
  destruct (Z.lt_ge_cases (address s) (APP_END d)) as [Ha|Ha].
  - apply cmd_program_flash_outside_page.
    apply page_below_boundary; try assumption.
    unfold APP_END in Ha. lia.
  - apply cmd_program_guard; assumption.
Qed.

(** The theorem for 4 bytes programmed from 0xF7FE, two bytes below the
    boundary 0xF800 of the example device. *)
Lemma program_flash_spares_boot_section_witness :
  0 < SPM_PAGESIZE atmega644 /\
  BOOTLOADER_ADDRESS atmega644 mod SPM_PAGESIZE atmega644 = 0 /\
  msgBuffer (received
               (set_address 0xF7FE power_on) 1
               (program_flash_payload 4 [0; 0; 0; 0; 0; 0; 0] [1; 2; 3; 4]))
            0 = CMD_PROGRAM_FLASH_ISP /\
  BOOTLOADER_ADDRESS atmega644 <= 0xF800 /\
  flash (result (dispatch atmega644 2
                   (received
                      (set_address 0xF7FE power_on) 1
                      (program_flash_payload 4 [0; 0; 0; 0; 0; 0; 0]
                                             [1; 2; 3; 4]))))
        0xF800 =
  flash (received
           (set_address 0xF7FE power_on) 1
           (program_flash_payload 4 [0; 0; 0; 0; 0; 0; 0] [1; 2; 3; 4]))
        0xF800.
Proof.
  split; [reflexivity|]. split; [reflexivity|]. split; [reflexivity|].
  split; [unfold atmega644; cbn; lia|].
  apply (program_flash_spares_boot_section atmega644 2%nat);
    [reflexivity | reflexivity | reflexivity | unfold atmega644; cbn; lia].
Defined.

(** A chunk that straddles the boundary, 4 bytes programmed from 0xF7FE on
    the example device: the word meant for 0xF800 is loaded into the page
    buffer at offset 0 and programmed at the start of the page of 0xF7FE;
    the boot section keeps its contents. *)
Example straddling_chunk_stays_in_page :
  exists s',
    dispatch atmega644 2
      (received (set_address 0xF7FE power_on) 1
         (program_flash_payload 4 [0; 0; 0; 0; 0; 0; 0] [1; 2; 3; 4]))
      = Returns s' /\
    flash s' 0xF7FE = 1 /\ flash s' 0xF7FF = 2 /\
    flash s' 0xF700 = 3 /\ flash s' 0xF701 = 4 /\
    flash s' 0xF800 = 0 /\ flash s' 0xF801 = 0.
Proof. eexists. split; [reflexivity|]. vm_compute. repeat split. Qed.

(** ** Effect of the flash write loop *)

Lemma aligned_offset ps a k :
  2 <= ps -> a mod ps = 0 -> 0 <= 2 * k < ps ->
  2 * ((a + 2 * k) mod ps / 2) = 2 * k.
Proof.
  intros Hps Ha Hk.
  assert (Hm : (a + 2 * k) mod ps = 2 * k).
  { rewrite Z.add_mod, Ha, Z.add_0_l, Z.mod_mod by lia. apply Z.mod_small. lia. }
  rewrite Hm. replace (2 * k / 2) with k by (apply Z.div_unique_exact; lia).
  reflexivity.
Qed.

(** [n] passes of the flash write loop from a page-aligned address: the
    page buffer holds the first [2 n] bytes behind [p]. *)
Lemma write_flash_iter d t n :
  2 <= SPM_PAGESIZE d ->
  address (machine t) mod SPM_PAGESIZE d = 0 ->
  0 <= address (machine t) < 2 ^ address_bits d ->
  address (machine t) + 2 * Z.of_nat n <= 2 ^ address_bits d ->
  2 * Z.of_nat n <= SPM_PAGESIZE d ->
  (forall k, 0 <= k < 2 * Z.of_nat n ->
             is_byte (msgBuffer (machine t) (p t + k))) ->
  let t' := Nat.iter n (write_flash_body d) t in
  address (machine t') = address_t d (address (machine t) + 2 * Z.of_nat n) /\
  p t' = p t + 2 * Z.of_nat n /\
  flash (machine t') = flash (machine t) /\
  msgBuffer (machine t') = msgBuffer (machine t) /\
  eeprom (machine t') = eeprom (machine t) /\
  same_session (machine t) (machine t') /\
  forall o, page_buffer (machine t') o =
            if (0 <=? o) && (o <? 2 * Z.of_nat n)
            then msgBuffer (machine t) (p t + o)
            else page_buffer (machine t) o.
Proof.
  intros Hps Hal Ha. induction n as [|n IH]; intros Hfit Hpage Hbytes t'.
  - subst t'. cbn [Nat.iter nat_rect Z.of_nat].
    rewrite Z.mul_0_r, !Z.add_0_r.
    rewrite address_t_small by lia.
    unfold same_session. repeat split; try reflexivity.
    intros o. replace ((0 <=? o) && (o <? 0)) with false; [reflexivity|].
    symmetry. apply andb_false_iff. rewrite Z.leb_gt, Z.ltb_ge. lia.
  - subst t'. rewrite Nat.iter_succ.
    destruct IH as (IHa & IHp & IHf & IHb & IHe & (IHs1 & IHs2 & IHs3 & IHs4)
                    & IHpb); [lia|lia|intros k Hk; apply Hbytes; lia|].
    set (tn := Nat.iter n (write_flash_body d) t) in *.
    assert (Han : address (machine tn) = address (machine t) + 2 * Z.of_nat n)
      by (rewrite IHa; apply address_t_small; lia).
    unfold write_flash_body, boot_page_fill, same_session.
    cbn [machine p size]. fields.
    rewrite Han, IHp, IHf, IHb, IHe.
    rewrite aligned_offset by (try assumption; lia).
    destruct (word_split (msgBuffer (machine t) (p t + 2 * Z.of_nat n + 1))
                         (msgBuffer (machine t) (p t + 2 * Z.of_nat n)))
      as [Wlo Whi].
    { replace (p t + 2 * Z.of_nat n + 1) with (p t + (2 * Z.of_nat n + 1))
        by lia. apply Hbytes. lia. }
    { apply Hbytes. lia. }
    rewrite Wlo, Whi.
    repeat split; try reflexivity; try assumption.
    + f_equal. lia.
    + lia.
    + intros o. unfold upd. rewrite IHpb.
      destruct (o =? 2 * Z.of_nat n + 1) eqn:E1;
        [apply Z.eqb_eq in E1|apply Z.eqb_neq in E1].
      { replace ((0 <=? o) && (o <? 2 * Z.of_nat (S n))) with true
          by (symmetry; apply andb_true_iff; rewrite Z.leb_le, Z.ltb_lt; lia).
        f_equal. lia. }
      destruct (o =? 2 * Z.of_nat n) eqn:E2;
        [apply Z.eqb_eq in E2|apply Z.eqb_neq in E2].
      { replace ((0 <=? o) && (o <? 2 * Z.of_nat (S n))) with true
          by (symmetry; apply andb_true_iff; rewrite Z.leb_le, Z.ltb_lt; lia).
        f_equal. lia. }
      destruct ((0 <=? o) && (o <? 2 * Z.of_nat n)) eqn:E3.
      * apply andb_true_iff in E3. rewrite Z.leb_le, Z.ltb_lt in E3.
        replace ((0 <=? o) && (o <? 2 * Z.of_nat (S n))) with true
          by (symmetry; apply andb_true_iff; rewrite Z.leb_le, Z.ltb_lt; lia).
        reflexivity.
      * apply andb_false_iff in E3. rewrite Z.leb_gt, Z.ltb_ge in E3.
        replace ((0 <=? o) && (o <? 2 * Z.of_nat (S n))) with false
          by (symmetry; apply andb_false_iff; rewrite Z.leb_gt, Z.ltb_ge; lia).
        reflexivity.
Qed.

(** ** Program flash *)

Lemma store_lookup l : forall buf k j,
  store buf k l j =
  if (k <=? j) && (j <? k + Z.of_nat (length l))
  then nth (Z.to_nat (j - k)) l 0
  else buf j.
Proof.
  induction l as [|c l IH]; intros buf k j.
  - cbn [store length Z.of_nat]. rewrite Z.add_0_r.
    replace ((k <=? j) && (j <? k)) with false; [reflexivity|].
    symmetry. apply andb_false_iff. rewrite Z.leb_gt, Z.ltb_ge. lia.
  - cbn [store]. rewrite IH. cbn [length]. rewrite Nat2Z.inj_succ.
    unfold upd.
    destruct ((k + 1 <=? j) && (j <? k + 1 + Z.of_nat (length l))) eqn:E.
    + apply andb_true_iff in E. rewrite Z.leb_le, Z.ltb_lt in E.
      replace ((k <=? j) && (j <? k + Z.succ (Z.of_nat (length l)))) with true
        by (symmetry; apply andb_true_iff; rewrite Z.leb_le, Z.ltb_lt; lia).
      replace (Z.to_nat (j - k)) with (S (Z.to_nat (j - (k + 1)))) by lia.
      reflexivity.
    + apply andb_false_iff in E. rewrite Z.leb_gt, Z.ltb_ge in E.
      destruct (j =? k) eqn:Ej; [apply Z.eqb_eq in Ej|apply Z.eqb_neq in Ej].
      * subst j.
        replace ((k <=? k) && (k <? k + Z.succ (Z.of_nat (length l))))
          with true
          by (symmetry; apply andb_true_iff; rewrite Z.leb_le, Z.ltb_lt; lia).
        rewrite Z.sub_diag. reflexivity.
      * replace ((k <=? j) && (j <? k + Z.succ (Z.of_nat (length l))))
          with false
          by (symmetry; apply andb_false_iff; rewrite Z.leb_gt, Z.ltb_ge; lia).
        reflexivity.
Qed.

Lemma received_lookup s sq payload j :
  0 <= j < Z.of_nat (length payload) ->
  msgBuffer (received s sq payload) j = nth (Z.to_nat j) payload 0.
Proof.
  intros Hj. unfold received. fields. rewrite store_lookup.
  replace ((0 <=? j) && (j <? 0 + Z.of_nat (length payload))) with true
    by (symmetry; apply andb_true_iff; rewrite Z.leb_le, Z.ltb_lt; lia).
  rewrite Z.sub_0_r. reflexivity.
Qed.

Lemma Forall_nth_byte l k : Forall is_byte l -> is_byte (nth k l 0).
Proof.
  intros H. destruct (Nat.lt_ge_cases k (length l)) as [Hk|Hk].
  - rewrite Forall_forall in H. apply H, nth_In, Hk.
  - rewrite nth_overflow by exact Hk. unfold is_byte. lia.
Qed.

Lemma land_255_byte b : is_byte b -> Z.land 0xFF b = b.
Proof. intros H. rewrite Z.land_comm, land_255. apply (u8_small _ H). Qed.

Lemma aligned_room ps a b :
  2 <= ps -> a mod ps = 0 -> b mod ps = 0 -> a < b -> a + ps <= b.
Proof.
  intros Hps Ha Hb Hab.
  pose proof (Z.div_mod a ps ltac:(lia)) as Hda.
  pose proof (Z.div_mod b ps ltac:(lia)) as Hdb.
  rewrite Ha in Hda. rewrite Hb in Hdb.
  assert (a / ps < b / ps) by (apply Z.div_lt_upper_bound; lia).
  nia.
Qed.

(** Program flash with one page-aligned chunk of at most a page: the chunk
    is in flash from the start address on. *)
Lemma dispatch_program_flash_page d fuel s sq params data :
  device_ok d = true ->
  length params = 7%nat -> Forall is_byte data ->
  Z.even (Z.of_nat (length data)) = true ->
  2 <= Z.of_nat (length data) <= SPM_PAGESIZE d ->
  address s mod SPM_PAGESIZE d = 0 ->
  0 <= address s < BOOTLOADER_ADDRESS d ->
  (Z.to_nat (Z.of_nat (length data) / 2) <= fuel)%nat ->
  exists s2,
    dispatch d fuel
      (received s sq
         (program_flash_payload (Z.of_nat (length data)) params data))
      = Returns s2 /\
    (forall k, 0 <= k < Z.of_nat (length data) ->
               flash s2 (address s + k) = nth (Z.to_nat k) data 0) /\
    msgLength s2 = 2 /\
    msgBuffer s2 0 = CMD_PROGRAM_FLASH_ISP /\
    msgBuffer s2 1 = STATUS_CMD_OK /\
    isLeave s2 = isLeave s /\ seqNum s2 = sq.
Proof.
  intros Hd Hpar Bd Hev HN Hal Ha Hfuel.
  destruct (device_ok_spec d Hd) as (Hps & _ & Hba & Hbal & Hbits).
  set (N := Z.of_nat (length data)) in *.
  set (payload := program_flash_payload N params data).
  set (s' := received s sq payload).
  assert (Hplen : Z.of_nat (length payload) = 10 + N).
  { unfold payload, program_flash_payload.
    rewrite !length_app, Hpar. cbn [length]. unfold N. lia. }
  assert (B0 : msgBuffer s' 0 = CMD_PROGRAM_FLASH_ISP)
    by (unfold s'; rewrite received_lookup by lia; reflexivity).
  assert (B1 : msgBuffer s' 1 = u8 (Z.shiftr N 8))
    by (unfold s'; rewrite received_lookup by lia; reflexivity).
  assert (B2 : msgBuffer s' 2 = u8 N)
    by (unfold s'; rewrite received_lookup by lia; reflexivity).
  assert (Bdata : forall k, 0 <= k < N ->
            msgBuffer s' (10 + k) = nth (Z.to_nat k) data 0).
  { intros k Hk. unfold s'. rewrite received_lookup by lia.
    unfold payload, program_flash_payload. rewrite app_assoc.
    rewrite app_nth2 by (rewrite length_app, Hpar; cbn [length]; lia).
    f_equal. rewrite length_app, Hpar. cbn [length]. lia. }
  assert (Hts : transfer_size s' = N).
  { unfold transfer_size. rewrite B1, B2. apply size_bytes_join. lia. }
  assert (Hroom : address s + SPM_PAGESIZE d <= BOOTLOADER_ADDRESS d)
    by (apply aligned_room; lia).
  rewrite dispatch_program_flash by exact B0.
  unfold cmd_program. rewrite B0, Z.eqb_refl, Hts.
  replace (address s' <? APP_END d) with true
    by (symmetry; apply Z.ltb_lt; unfold APP_END; cbn [s' received address]; lia).
  set (s0 := boot_page_erase d (address s') s').
  set (t0 := mkTransfer s0 10 N).
  destruct (word_loop_runs (write_flash_body d) t0 (moves_write_flash d))
    as [_ Hret]; [unfold counter_ok; cbn; lia | exact Hev |].
  cbn [size t0] in Hret.
  assert (Hlim : wrap_count N = N)
    by (unfold wrap_count; destruct (N =? 0) eqn:E;
        [apply Z.eqb_eq in E; lia | reflexivity]).
  rewrite Hlim in Hret. rewrite (Hret fuel Hfuel).
  pose proof Hev as Hev'. apply Z.even_spec in Hev'. destruct Hev' as [m Hm].
  assert (Hn : 2 * Z.of_nat (Z.to_nat (N / 2)) = N).
  { rewrite Hm. replace (2 * m / 2) with m by (apply Z.div_unique_exact; lia).
    lia. }
  destruct (write_flash_iter d t0 (Z.to_nat (N / 2)))
    as (Ra & Rp & Rf & Rb & Re & (Rs1 & Rs2 & Rs3 & Rs4) & Rpb);
    try (cbn [machine t0 p]; change (address s0) with (address s);
         rewrite ?Hn; lia).
  { cbn [machine t0 p]. rewrite Hn. intros k Hk.
    change (msgBuffer s0 (10 + k)) with (msgBuffer s' (10 + k)).
    rewrite Bdata by lia. apply Forall_nth_byte, Bd. }
  set (t' := Nat.iter (Z.to_nat (N / 2)) (write_flash_body d) t0) in *.
  cbn [machine t0 p] in *. rewrite Hn in *.
  eexists. split; [reflexivity|].
  unfold cmd_status_ok, boot_rww_enable, boot_page_write. fields.
  split; [|repeat split].
  - intros k Hk. change (address s') with (address s).
    assert (Hbase : page_base d (address s) = address s)
      by (unfold page_base; rewrite Hal; lia).
    assert (Hin : in_page d (address s) (address s + k) = true).
    { unfold in_page. rewrite Hbase. apply andb_true_iff.
      rewrite Z.leb_le, Z.ltb_lt. lia. }
    rewrite Hin, Hbase, Rf, Rpb.
    replace (address s + k - address s) with k by lia.
    replace ((0 <=? k) && (k <? N)) with true
      by (symmetry; apply andb_true_iff; rewrite Z.leb_le, Z.ltb_lt; lia).
    unfold s0, boot_page_erase. fields.
    change (address s') with (address s). rewrite Hin.
    change (msgBuffer s' (10 + k)) with (msgBuffer s' (10 + k)).
    rewrite Bdata by lia. apply land_255_byte, Forall_nth_byte, Bd.
  - unfold upd. rewrite Rb. exact B0.
  - rewrite Rs1. reflexivity.
  - rewrite Rs2. reflexivity.
Qed.

(** ** Program flash, then read it back *)

Ltac after_answer := unfold answered; fields.

Lemma message_2 s c0 c1 :
  msgLength s = 2 -> msgBuffer s 0 = c0 -> msgBuffer s 1 = c1 ->
  message s = [c0; c1].
Proof.
  intros L B0 B1. apply message_eq; [exact L|]. intros k Hk.
  cbn [length] in Hk. destruct k as [|[|k]]; [exact B0|exact B1|lia].
Qed.

(** The three commands as exchanges on the wire. *)
Lemma load_address_command d fuel s sq w :
  msgParseState s = ST_START -> isLeave s = 0 ->
  sq = 1 \/ sq = seqNum s -> is_byte sq ->
  0 <= w < 2 ^ 32 ->
  exists s1,
    main_loop d fuel s (frame sq (load_address_payload w)) =
      (s1, frame sq [CMD_LOAD_ADDRESS; STATUS_CMD_OK], Receiving) /\
    msgParseState s1 = ST_START /\ isLeave s1 = 0 /\
    seqNum s1 = u8 (sq + 1) /\
    address s1 = address_t d (2 * w) /\ flash s1 = flash s.
Proof.
  intros Hs Hl Hsq Bsq Hw.
  destruct (dispatch_load_address d fuel s sq w Hw)
    as (s1 & D1 & A1 & L1 & B10 & B11 & I1 & Q1 & F1 & _).
  pose proof (message_2 s1 _ _ L1 B10 B11) as M1.
  exists (answered s1). split; [|after_answer; rewrite Q1; auto].
  rewrite <- M1. apply main_loop_command; try assumption.
  - unfold load_address_payload. bytes.
  - cbn. lia.
  - rewrite I1. exact Hl.
  - lia.
  - rewrite M1. bytes.
  - split; [reflexivity|]. split; [rewrite I1; exact Hl|]. auto.
Qed.

Lemma program_flash_command d fuel s sq params data :
  device_ok d = true ->
  msgParseState s = ST_START -> isLeave s = 0 ->
  sq = 1 \/ sq = seqNum s -> is_byte sq ->
  length params = 7%nat -> Forall is_byte params -> Forall is_byte data ->
  Z.even (Z.of_nat (length data)) = true ->
  2 <= Z.of_nat (length data) <= SPM_PAGESIZE d ->
  address s mod SPM_PAGESIZE d = 0 ->
  0 <= address s < BOOTLOADER_ADDRESS d ->
  (Z.to_nat (Z.of_nat (length data) / 2) <= fuel)%nat ->
  exists s2,
    main_loop d fuel s
      (frame sq (program_flash_payload (Z.of_nat (length data)) params data))
      = (s2, frame sq [CMD_PROGRAM_FLASH_ISP; STATUS_CMD_OK], Receiving) /\
    msgParseState s2 = ST_START /\ isLeave s2 = 0 /\
    seqNum s2 = u8 (sq + 1) /\
    forall k, 0 <= k < Z.of_nat (length data) ->
              flash s2 (address s + k) = nth (Z.to_nat k) data 0.
Proof.
  intros Hd Hs Hl Hsq Bsq Hpar Bpar Bd Hev HN Hal Ha Hfuel.
  destruct (dispatch_program_flash_page d fuel s sq params data)
    as (s2 & D2 & F2 & L2 & B20 & B21 & I2 & Q2); try assumption.
  pose proof (message_2 s2 _ _ L2 B20 B21) as M2.
  destruct (device_ok_spec d Hd) as (Hps & _).
  exists (answered s2). split; [|after_answer; rewrite Q2, I2; auto].
  rewrite <- M2. apply main_loop_command; try assumption.
  - unfold program_flash_payload. bytes.
  - unfold program_flash_payload. rewrite !length_app, Hpar. cbn [length]. lia.
  - rewrite I2. exact Hl.
  - lia.
  - rewrite M2. bytes.
Qed.

Lemma read_flash_command d fuel s sq sz cmd1 :
  msgParseState s = ST_START -> isLeave s = 0 ->
  sq = 1 \/ sq = seqNum s -> is_byte sq -> is_byte cmd1 ->
  Z.even sz = true -> 2 <= sz <= 65532 ->
  0 <= address s < 2 ^ address_bits d ->
  address s + sz <= 2 ^ address_bits d ->
  (Z.to_nat (sz / 2) <= fuel)%nat ->
  exists s2,
    main_loop d fuel s (frame sq (read_flash_payload sz cmd1)) =
      (s2,
       frame sq ([CMD_READ_FLASH_ISP; STATUS_CMD_OK] ++
                 bytes_at (flash s) (address s) (Z.to_nat sz) ++
                 [STATUS_CMD_OK]),
       Receiving) /\
    msgParseState s2 = ST_START /\ isLeave s2 = 0 /\
    seqNum s2 = u8 (sq + 1) /\
    address s2 = address_t d (address s + sz) /\ flash s2 = flash s.
Proof.
  intros Hs Hl Hsq Bsq Bc Hev Hsz Ha Hfit Hfuel.
  destruct (dispatch_read_flash d fuel s sq sz cmd1)
    as (s2 & D2 & A2 & L2 & M2 & I2 & Q2 & F2 & _); try assumption.
  exists (answered s2). split; [|after_answer; rewrite Q2, I2; auto].
  rewrite <- M2. apply main_loop_command; try assumption.
  - unfold read_flash_payload. bytes.
  - cbn. lia.
  - rewrite I2. exact Hl.
  - lia.
  - rewrite M2. bytes.
Qed.

(** C6.  Round trip: for a page-aligned byte address [a] below the boot
    section and an even number of data bytes between 2 and a page: load
    address [a], program the data, load address [a] again and read as many
    bytes - the answer to the read carries exactly the data programmed.
    ([q1] .. [q4] are the sequence numbers of the four frames, [params]
    the seven parameter bytes of the program command.) *)
Theorem program_flash_read_back d fuel s q1 q2 q3 q4 a params data cmd1 :
  device_ok d = true ->
  msgParseState s = ST_START -> isLeave s = 0 ->
  q1 = 1 \/ q1 = seqNum s -> is_byte q1 ->
  q2 = 1 \/ q2 = u8 (q1 + 1) -> is_byte q2 ->
  q3 = 1 \/ q3 = u8 (q2 + 1) -> is_byte q3 ->
  q4 = 1 \/ q4 = u8 (q3 + 1) -> is_byte q4 ->
  0 <= a < BOOTLOADER_ADDRESS d -> a mod SPM_PAGESIZE d = 0 ->
  Z.even (Z.of_nat (length data)) = true ->
  2 <= Z.of_nat (length data) <= SPM_PAGESIZE d ->
  Forall is_byte data ->
  length params = 7%nat -> Forall is_byte params -> is_byte cmd1 ->
  (Z.to_nat (Z.of_nat (length data) / 2) <= fuel)%nat ->
  exists s1 s2 s3 s4,
    main_loop d fuel s (frame q1 (load_address_payload (a / 2))) =
      (s1, frame q1 [CMD_LOAD_ADDRESS; STATUS_CMD_OK], Receiving) /\
    main_loop d fuel s1
      (frame q2 (program_flash_payload (Z.of_nat (length data)) params data))
      = (s2, frame q2 [CMD_PROGRAM_FLASH_ISP; STATUS_CMD_OK], Receiving) /\
    main_loop d fuel s2 (frame q3 (load_address_payload (a / 2))) =
      (s3, frame q3 [CMD_LOAD_ADDRESS; STATUS_CMD_OK], Receiving) /\
    main_loop d fuel s3
      (frame q4 (read_flash_payload (Z.of_nat (length data)) cmd1)) =
      (s4,
       frame q4 ([CMD_READ_FLASH_ISP; STATUS_CMD_OK] ++ data ++
                 [STATUS_CMD_OK]),
       Receiving).
Proof.
  intros Hd Hs Hl Hq1 B1 Hq2 B2 Hq3 B3 Hq4 B4 Ha Hal Hev HN Bd Hpar Bpar Bc
         Hfuel.
  destruct (device_ok_spec d Hd) as (Hps & Hpe & Hba & Hbal & Hbits).
  pose proof (address_bits_le d) as Hle.
  set (N := Z.of_nat (length data)) in *.
  assert (Hroom : a + SPM_PAGESIZE d <= BOOTLOADER_ADDRESS d)
    by (apply aligned_room; lia).
  assert (Hw : 2 * (a / 2) = a).
  { apply Z.even_spec in Hpe. destruct Hpe as [m Hm].
    pose proof (Z.div_mod a (SPM_PAGESIZE d) ltac:(lia)) as Hdm.
    rewrite Hal, Hm in Hdm.
    replace a with (2 * (m * (a / (2 * m)))) at 1 2 by lia.
    replace (2 * (m * (a / (2 * m))) / 2) with (m * (a / (2 * m)))
      by (apply Z.div_unique_exact; lia).
    lia. }
  assert (Hw32 : 0 <= a / 2 < 2 ^ 32) by lia.
  assert (Hat : address_t d (2 * (a / 2)) = a)
    by (rewrite Hw; apply address_t_small; lia).
  destruct (load_address_command d fuel s q1 (a / 2))
    as (s1 & R1 & S1 & I1 & Q1 & A1 & F1); try assumption.
  rewrite Hat in A1.
  destruct (program_flash_command d fuel s1 q2 params data)
    as (s2 & R2 & S2 & I2 & Q2 & F2); try assumption;
    try (rewrite ?Q1, ?A1; assumption).
  destruct (load_address_command d fuel s2 q3 (a / 2))
    as (s3 & R3 & S3 & I3 & Q3 & A3 & F3); try assumption;
    try (rewrite ?Q2; assumption).
  rewrite Hat in A3.
  destruct (read_flash_command d fuel s3 q4 N cmd1)
    as (s4 & R4 & S4 & I4 & Q4 & A4 & F4); try assumption;
    try (rewrite ?Q3, ?A3; assumption); try (rewrite ?A3; lia).
  exists s1, s2, s3, s4. repeat split; try assumption.
  rewrite R4. f_equal. f_equal. f_equal. f_equal. f_equal.
  apply (nth_ext _ _ 0 0).
  - rewrite length_bytes_at. unfold N. lia.
  - intros k Hk. rewrite length_bytes_at in Hk.
    rewrite nth_bytes_at by exact Hk.
    rewrite F3, A3, A1 in *. rewrite F2 by (unfold N; lia).
    rewrite Nat2Z.id. apply u8_small, Forall_nth_byte, Bd.
Qed.

(** The theorem for the bytes 1 2 3 4 programmed at 0x100. *)
Lemma program_flash_read_back_witness :
  exists s1 s2 s3 s4,
    main_loop atmega644 2 power_on (frame 1 (load_address_payload (0x100 / 2)))
      = (s1, frame 1 [CMD_LOAD_ADDRESS; STATUS_CMD_OK], Receiving) /\
    main_loop atmega644 2 s1
      (frame 2 (program_flash_payload (Z.of_nat (length [1; 2; 3; 4]))
                  [0; 0; 0; 0; 0; 0; 0] [1; 2; 3; 4]))
      = (s2, frame 2 [CMD_PROGRAM_FLASH_ISP; STATUS_CMD_OK], Receiving) /\
    main_loop atmega644 2 s2 (frame 3 (load_address_payload (0x100 / 2))) =
      (s3, frame 3 [CMD_LOAD_ADDRESS; STATUS_CMD_OK], Receiving) /\
    main_loop atmega644 2 s3
      (frame 4 (read_flash_payload (Z.of_nat (length [1; 2; 3; 4])) 0x20)) =
      (s4,
       frame 4 ([CMD_READ_FLASH_ISP; STATUS_CMD_OK] ++ [1; 2; 3; 4] ++
                [STATUS_CMD_OK]),
       Receiving).
Proof.
  apply (program_flash_read_back atmega644 2%nat power_on 1 2 3 4 0x100
           [0; 0; 0; 0; 0; 0; 0] [1; 2; 3; 4] 0x20);
    try reflexivity; try (left; reflexivity); try (right; reflexivity);
    try (unfold is_byte; lia); try bytes;
    try (unfold atmega644; cbn; lia).
Defined.

(** ** Transfer sizes the loops are not made for *)














(** * Further properties *)

(** ** The reply encoder against the frame parser *)

Lemma parse_cons s c cs : parse s (c :: cs) = parse (parse_step s c) cs.
Proof. reflexivity. Qed.

Lemma parse_app s cs cs' : parse s (cs ++ cs') = parse (parse s cs) cs'.
Proof. unfold parse. apply fold_left_app. Qed.

(** The receive loop on the payload bytes of a frame. *)
Lemma parse_payload l :
  forall a k chk sq L buf lv fl pb ee lf,
  Forall is_byte l -> is_byte chk ->
  0 <= k < L -> k + Z.of_nat (length l) <= L -> L < 65536 ->
  parse (mkState a ST_GET_DATA k chk sq L buf lv fl pb ee lf) l =
  mkState a (if k + Z.of_nat (length l) =? L then ST_GET_CHECK
             else ST_GET_DATA)
          (k + Z.of_nat (length l)) (fold_left Z.lxor l chk) sq L
          (store buf k l) lv fl pb ee lf.
Proof.
  induction l as [|c l IH];
    intros a k chk sq L buf lv fl pb ee lf Hl Hchk Hk Hlen HL.
  - cbn [parse fold_left length Z.of_nat store]. rewrite Z.add_0_r.
    replace (k =? L) with false by (symmetry; apply Z.eqb_neq; lia).
    reflexivity.
  - pose proof (Forall_inv Hl) as Hc. pose proof (Forall_inv_tail Hl) as Hl'.
    rewrite parse_cons. unfold parse_step. fields.
    assert (Hu : u16 (k + 1) = k + 1)
      by (unfold u16; apply Z.mod_small; cbn [length] in Hlen; lia).
    rewrite Hu, (u8_lxor chk c) by assumption.
    cbn [length] in Hlen |- *. rewrite Nat2Z.inj_succ in Hlen |- *.
    replace (k + Z.succ (Z.of_nat (length l)))
      with (k + 1 + Z.of_nat (length l)) by lia.
    cbn [fold_left store].
    destruct (k + 1 =? L) eqn:E.
    + apply Z.eqb_eq in E. destruct l as [|c' l]; [|cbn [length] in Hlen; lia].
      fields. cbn [parse length Z.of_nat fold_left store]. rewrite Z.add_0_r.
      replace (k + 1 =? L) with true by (symmetry; apply Z.eqb_eq; lia).
      reflexivity.
    + apply Z.eqb_neq in E. fields.
      apply IH; try assumption; try lia. apply lxor_is_byte; assumption.
Qed.

(** The receive loop takes a well-formed frame in. *)
Lemma parse_frame s sq payload :
  msgParseState s = ST_START ->
  sq = 1 \/ sq = seqNum s ->
  is_byte sq -> Forall is_byte payload ->
  1 <= Z.of_nat (length payload) <= 65535 ->
  parse s (frame sq payload) = received s sq payload.
Proof.
  intros Hst Hsq Hb Hp Hlen.
  destruct s as [a ps k chk sn ml buf lv fl pb ee lf].
  cbn in Hst, Hsq. subst ps.
  set (L := Z.of_nat (length payload)).
  assert (HL : 1 <= L < 65536) by (unfold L; lia).
  pose proof (byte_hi L ltac:(lia)) as Hhi. pose proof (byte_lo L) as Hlo.
  assert (Hs : is_byte MESSAGE_START) by (unfold is_byte, MESSAGE_START; lia).
  assert (Ht : is_byte TOKEN) by (unfold is_byte, TOKEN; lia).
  unfold frame, received. fold L. unfold frame_header.
  rewrite <- !app_assoc. cbn [app].
  rewrite parse_cons, step_start.
  rewrite parse_cons, step_seq by exact Hsq.
  rewrite parse_cons, step_size_1.
  rewrite parse_cons, step_size_2.
  rewrite parse_cons, step_token.
  rewrite length_bytes_join by lia.
  rewrite !u8_lxor
    by (repeat (assumption || apply lxor_is_byte || apply u8_is_byte)).
  rewrite parse_app, parse_payload;
    [|assumption|repeat (assumption || apply lxor_is_byte)|lia|fold L; lia|lia].
  fold L. cbn [Z.add]. rewrite Z.eqb_refl.
  unfold xor_all. cbn [fold_left]. rewrite Z.lxor_0_l. fields.
  rewrite parse_cons, step_check, Z.eqb_refl. reflexivity.
Qed.

Lemma message_received s sq payload : message (received s sq payload) = payload.
Proof.
  apply message_eq; [reflexivity|]. intros k Hk.
  rewrite received_lookup by lia. rewrite Nat2Z.id. reflexivity.
Qed.

Lemma length_message s : 0 <= msgLength s -> Z.of_nat (length (message s)) = msgLength s.
Proof. intros H. unfold message. rewrite length_map, length_seq. lia. Qed.

(** X1.  Round trip of the reply encoder and the frame parser: the bytes
    the encoder sends for a message that fits the buffer, fed to the
    receive loop of a machine that waits in [ST_START] and accepts the
    sequence number, are taken in as one frame - the parser ends in
    [ST_PROCESS] with exactly that message in its buffer. *)
Theorem answer_parses_back s s0 :
  isLeave s < 2 -> is_byte (seqNum s) ->
  1 <= msgLength s <= MSG_BUFFER_SIZE ->
  Forall is_byte (message s) ->
  msgParseState s0 = ST_START ->
  seqNum s = 1 \/ seqNum s = seqNum s0 ->
  parse s0 (snd (send_answer s)) = received s0 (seqNum s) (message s) /\
  msgParseState (parse s0 (snd (send_answer s))) = ST_PROCESS /\
  message (parse s0 (snd (send_answer s))) = message s.
Proof.
  intros Hl Bq HL Bm Hs0 Hq. unfold MSG_BUFFER_SIZE in HL.
  rewrite send_answer_frame by (try assumption; lia). cbn [snd].
  rewrite parse_frame; try assumption.
  - split; [reflexivity|]. split; [reflexivity|]. apply message_received.
  - rewrite length_message by lia. lia.
Qed.

Lemma answer_parses_back_witness :
  parse power_on (snd (send_answer (cmd_sign_on (received power_on 1 [CMD_SIGN_ON]))))
    = received power_on 1 (message (cmd_sign_on (received power_on 1 [CMD_SIGN_ON]))) /\
  msgParseState
    (parse power_on (snd (send_answer (cmd_sign_on (received power_on 1 [CMD_SIGN_ON])))))
    = ST_PROCESS /\
  message
    (parse power_on (snd (send_answer (cmd_sign_on (received power_on 1 [CMD_SIGN_ON])))))
    = message (cmd_sign_on (received power_on 1 [CMD_SIGN_ON])).
Proof.
  apply (answer_parses_back (cmd_sign_on (received power_on 1 [CMD_SIGN_ON]))
           power_on).
  - cbn. lia.
  - unfold is_byte. cbn. lia.
  - unfold MSG_BUFFER_SIZE. cbn. lia.
  - change (message (cmd_sign_on (received power_on 1 [CMD_SIGN_ON])))
      with [0x01; 0x00; 0x08; 65; 86; 82; 73; 83; 80; 95; 50]. bytes.
  - reflexivity.
  - left. reflexivity.
Defined.

(** ** Bytes and commands the protocol does not know *)

Lemma parse_step_idle s c :
  msgParseState s = ST_START -> skipped c = true -> parse_step s c = s.
Proof.
  intros Hs Hc. unfold skipped in Hc. apply andb_true_iff in Hc.
  destruct Hc as [H1 H2]. apply negb_true_iff in H1, H2.
  unfold parse_step. rewrite Hs, H1, H2. reflexivity.
Qed.

(** X2.  Between frames the receive loop passes over every byte that is
    neither the start marker nor the timeout code: such bytes change
    nothing, and what follows them is treated as if they had not been
    sent. *)
Theorem idle_bytes_are_skipped d fuel s junk rest :
  msgParseState s = ST_START -> forallb skipped junk = true ->
  main_loop d fuel s (junk ++ rest) = main_loop d fuel s rest.
Proof.
  intros Hs. induction junk as [|c junk IH]; intros Hj; [reflexivity|].
  cbn [forallb] in Hj. apply andb_true_iff in Hj. destruct Hj as [Hc Hj].
  cbn [app]. rewrite main_loop_cons, parse_step_idle, Hs by assumption.
  apply IH, Hj.
Qed.

Lemma idle_bytes_are_skipped_witness :
  main_loop atmega644 0 power_on ([0x00; 0xFF; 0x0E; 0x01] ++ frame 1 [CMD_SIGN_ON])
  = main_loop atmega644 0 power_on (frame 1 [CMD_SIGN_ON]).
Proof.
  apply (idle_bytes_are_skipped atmega644 0%nat power_on); reflexivity.
Defined.

Lemma received_command s sq cmd args :
  msgBuffer (received s sq (cmd :: args)) 0 = cmd.
Proof. rewrite received_lookup by (cbn [length]; lia). reflexivity. Qed.

Lemma dispatch_unknown d fuel s :
  known_command (msgBuffer s 0) = false ->
  dispatch d fuel s = Returns (poke 1 STATUS_CMD_FAILED (set_msgLength 2 s)).
Proof.
  intros H. unfold known_command in H. cbn [existsb] in H.
  repeat (apply orb_false_iff in H; destruct H as [? H]).
  unfold dispatch.
  repeat match goal with
         | E : (_ =? _) = false |- _ => rewrite E; clear E
         end.
  reflexivity.
Qed.

(** X3.  A frame whose command byte has no case in the dispatcher (the
    program-lock command 0x19 among them, compiled out in this build) is
    answered with the two bytes command, STATUS_CMD_FAILED; [address], the
    flash and the EEPROM are as before and the loop goes on. *)
Theorem unknown_command_fails d fuel s sq cmd args :
  msgParseState s = ST_START -> isLeave s = 0 ->
  sq = 1 \/ sq = seqNum s -> is_byte sq ->
  is_byte cmd -> Forall is_byte args -> Z.of_nat (length args) < MSG_BUFFER_SIZE ->
  known_command cmd = false ->
  exists s',
    main_loop d fuel s (frame sq (cmd :: args)) =
      (s', frame sq [cmd; STATUS_CMD_FAILED], Receiving) /\
    msgParseState s' = ST_START /\ isLeave s' = 0 /\
    seqNum s' = u8 (sq + 1) /\
    address s' = address s /\ flash s' = flash s /\ eeprom s' = eeprom s.
Proof.
  intros Hs Hl Hsq Bsq Bc Ba Hlen Hk. unfold MSG_BUFFER_SIZE in Hlen.
  set (s1 := poke 1 STATUS_CMD_FAILED
               (set_msgLength 2 (received s sq (cmd :: args)))).
  assert (M : message s1 = [cmd; STATUS_CMD_FAILED]).
  { apply message_2; [reflexivity| |reflexivity].
    unfold s1. fields. unfold upd. cbn [Z.eqb]. apply received_command. }
  exists (answered s1).
  split; [|after_answer; unfold s1, received; fields; repeat split; auto].
  rewrite <- M. apply main_loop_command; try assumption.
  - bytes.
  - cbn [length]. rewrite Nat2Z.inj_succ. lia.
  - apply dispatch_unknown. rewrite received_command. exact Hk.
  - reflexivity.
  - cbn. lia.
  - rewrite M. bytes.
Qed.

Lemma unknown_command_fails_witness :
  exists s',
    main_loop atmega644 0 power_on (frame 1 [0x19; 0; 0; 0; 0xFF]) =
      (s', frame 1 [0x19; STATUS_CMD_FAILED], Receiving) /\
    msgParseState s' = ST_START /\ isLeave s' = 0 /\
    seqNum s' = u8 (1 + 1) /\
    address s' = address power_on /\ flash s' = flash power_on /\
    eeprom s' = eeprom power_on.
Proof.
  apply (unknown_command_fails atmega644 0%nat power_on 1 0x19 [0; 0; 0; 0xFF]).
  - reflexivity.
  - reflexivity.
  - left. reflexivity.
  - apply is_byte_const. reflexivity.
  - apply is_byte_const. reflexivity.
  - bytes.
  - unfold MSG_BUFFER_SIZE. cbn. lia.
  - reflexivity.
Defined.

(** X4.  The leave-progmode command is answered with command,
    STATUS_CMD_OK like any other, and then the main loop is left with
    [isLeave] = 1: the bytes that follow are not read. *)
Theorem leave_progmode_is_answered_then_left d fuel s sq args rest :
  msgParseState s = ST_START ->
  sq = 1 \/ sq = seqNum s -> is_byte sq ->
  Forall is_byte args -> Z.of_nat (length args) < MSG_BUFFER_SIZE ->
  exists s',
    main_loop d fuel s (frame sq (CMD_LEAVE_PROGMODE_ISP :: args) ++ rest) =
      (s', frame sq [CMD_LEAVE_PROGMODE_ISP; STATUS_CMD_OK], Exited) /\
    isLeave s' = 1 /\ seqNum s' = u8 (sq + 1) /\
    address s' = address s /\ flash s' = flash s /\ eeprom s' = eeprom s.
Proof.
  intros Hs Hsq Bsq Ba Hlen. unfold MSG_BUFFER_SIZE in Hlen.
  set (payload := CMD_LEAVE_PROGMODE_ISP :: args).
  assert (Bp : Forall is_byte payload) by (unfold payload; bytes).
  assert (Hpl : 1 <= Z.of_nat (length payload) <= 65535)
    by (unfold payload; cbn [length]; rewrite Nat2Z.inj_succ; lia).
  set (s1 := cmd_status_ok (set_isLeave 1 (received s sq payload))).
  assert (D : dispatch d fuel (received s sq payload) = Returns s1).
  { unfold dispatch, payload. rewrite received_command. reflexivity. }
  assert (M : message s1 = [CMD_LEAVE_PROGMODE_ISP; STATUS_CMD_OK]).
  { apply message_2; [reflexivity| |reflexivity].
    unfold s1, cmd_status_ok. fields. unfold upd. cbn [Z.eqb].
    apply received_command. }
  rewrite main_loop_frame by assumption.
  unfold serve_and_go_on, serve. rewrite D.
  rewrite send_answer_frame.
  - rewrite M. eexists. split; [reflexivity|]. cbn. auto.
  - cbn. lia.
  - exact Bsq.
  - cbn. lia.
  - rewrite M. bytes.
Qed.

Lemma leave_progmode_is_answered_then_left_witness :
  exists s',
    main_loop atmega644 0 power_on
      (frame 1 (CMD_LEAVE_PROGMODE_ISP :: [1; 1]) ++ frame 2 [CMD_SIGN_ON]) =
      (s', frame 1 [CMD_LEAVE_PROGMODE_ISP; STATUS_CMD_OK], Exited) /\
    isLeave s' = 1 /\ seqNum s' = u8 (1 + 1) /\
    address s' = address power_on /\ flash s' = flash power_on /\
    eeprom s' = eeprom power_on.
Proof.
  apply (leave_progmode_is_answered_then_left atmega644 0%nat power_on 1 [1; 1]
           (frame 2 [CMD_SIGN_ON])).
  - reflexivity.
  - left. reflexivity.
  - apply is_byte_const. reflexivity.
  - bytes.
  - unfold MSG_BUFFER_SIZE. cbn. lia.
Defined.

(** X5.  A timeout of [recchar] while a frame is being collected (after
    the start marker, up to the last payload byte) does not end the
    session: the value 0x2F is taken as the next byte of the frame - in
    [ST_GET_DATA] it is stored as payload - nothing is sent and [isLeave]
    stays as it was. *)
Theorem timeout_inside_frame_is_data d fuel s :
  mid_frame (msgParseState s) = true ->
  main_loop d fuel s [recchar TimedOut] =
    (parse_step s CMD_PROGRAMMER_TIMEOUT, [], Receiving) /\
  isLeave (parse_step s CMD_PROGRAMMER_TIMEOUT) = isLeave s /\
  (msgParseState s = ST_GET_DATA ->
   msgBuffer (parse_step s CMD_PROGRAMMER_TIMEOUT) (i s)
     = CMD_PROGRAMMER_TIMEOUT).
Proof.
  intros Hm. cbn [recchar]. rewrite main_loop_cons.
  destruct s as [a st k chk sn ml buf lv fl pb ee lf].
  cbn [msgParseState] in Hm.
  destruct st; try discriminate Hm; unfold parse_step; fields.
  - destruct ((CMD_PROGRAMMER_TIMEOUT =? 1) || (CMD_PROGRAMMER_TIMEOUT =? sn));
      fields; repeat split; intros; discriminate.
  - repeat split; intros; discriminate.
  - repeat split; intros; discriminate.
  - cbn [Z.eqb CMD_PROGRAMMER_TIMEOUT TOKEN]. fields.
    repeat split; intros; discriminate.
  - destruct (u16 (k + 1) =? ml); fields; repeat split; intros;
      unfold upd; rewrite Z.eqb_refl; reflexivity.
Qed.

Lemma timeout_inside_frame_is_data_witness :
  main_loop atmega644 0
    (parse power_on [MESSAGE_START; 1; 0; 2; TOKEN; CMD_SIGN_ON])
    [recchar TimedOut] =
    (parse_step (parse power_on [MESSAGE_START; 1; 0; 2; TOKEN; CMD_SIGN_ON])
       CMD_PROGRAMMER_TIMEOUT, [], Receiving) /\
  isLeave (parse_step
             (parse power_on [MESSAGE_START; 1; 0; 2; TOKEN; CMD_SIGN_ON])
             CMD_PROGRAMMER_TIMEOUT) =
    isLeave (parse power_on [MESSAGE_START; 1; 0; 2; TOKEN; CMD_SIGN_ON]) /\
  (msgParseState (parse power_on [MESSAGE_START; 1; 0; 2; TOKEN; CMD_SIGN_ON])
     = ST_GET_DATA ->
   msgBuffer (parse_step
                (parse power_on [MESSAGE_START; 1; 0; 2; TOKEN; CMD_SIGN_ON])
                CMD_PROGRAMMER_TIMEOUT)
             (i (parse power_on [MESSAGE_START; 1; 0; 2; TOKEN; CMD_SIGN_ON]))
     = CMD_PROGRAMMER_TIMEOUT).
Proof.
  apply (timeout_inside_frame_is_data atmega644 0%nat
           (parse power_on [MESSAGE_START; 1; 0; 2; TOKEN; CMD_SIGN_ON])).
  reflexivity.
Defined.

(** ** Invariants of the main loop *)

Lemma parse_step_same_memories s c : same_memories s (parse_step s c).
Proof.
  destruct s as [a st k chk sn ml buf lv fl pb ee lf].
  unfold same_memories, parse_step. fields.
  destruct st; fields;
    repeat match goal with
           | |- context [if ?b then _ else _] => destruct b; fields
           end;
    repeat split.
Qed.

Lemma send_answer_same_memories s : same_memories s (fst (send_answer s)).
Proof.
  unfold same_memories, send_answer.
  destruct (isLeave s <? 2); [|repeat split].
  destruct (send_message _ _ _ _) as [body chk]. cbn [fst]. fields.
  repeat split.
Qed.

Lemma fst_prepend out r : fst (fst (prepend out r)) = fst (fst r).
Proof. destruct r as [[s o] ph]. reflexivity. Qed.

(** Invariants of the main loop.  [P] holds while a frame is collected, [R]
    from the command handler to the end of the reply; [Q] is what is known
    of the bytes received. *)
Section MainLoopInvariant.
Context (d : device) (fuel : nat) (Q : Z -> Prop) (P R : state -> Prop).
Hypothesis P_parse_step : forall s c, Q c -> P s -> P (parse_step s c).
Hypothesis P_dispatch :
  forall s, msgParseState s = ST_PROCESS -> P s ->
            R (result (dispatch d fuel s)).
Hypothesis R_send_answer : forall s, R s -> R (fst (send_answer s)).
Hypothesis R_restart : forall s, R s -> P (set_msgParseState ST_START s).

Lemma serve_invariant s :
  msgParseState s = ST_PROCESS -> P s -> R (fst (fst (serve d fuel s))).
Proof.
  intros Hst H. unfold serve. pose proof (P_dispatch s Hst H) as Hd.
  destruct (dispatch d fuel s) as [s'|s']; cbn [result] in Hd; [|exact Hd].
  pose proof (R_send_answer s' Hd) as Ha.
  destruct (send_answer s') as [s'' out]. exact Ha.
Qed.

Lemma main_loop_invariant cs :
  forall s, Forall Q cs -> P s ->
            P (fst (fst (main_loop d fuel s cs))) \/
            R (fst (fst (main_loop d fuel s cs))).
Proof.
  induction cs as [|c cs IH]; intros s Hcs H; [left; exact H|].
  pose proof (Forall_inv Hcs) as Hc. apply Forall_inv_tail in Hcs.
  rewrite main_loop_cons. pose proof (P_parse_step s c Hc H) as H1.
  destruct (msgParseState (parse_step s c)) eqn:Est;
    try (apply IH; assumption).
  unfold serve_and_go_on. pose proof (serve_invariant _ Est H1) as H2.
  destruct (serve d fuel (parse_step s c)) as [[s2 out] ph].
  cbn [fst] in H2. destruct ph; try (right; exact H2).
  rewrite fst_prepend. apply IH; [exact Hcs|]. apply R_restart, H2.
Qed.
End MainLoopInvariant.

(** The boot section under any command. *)
Lemma dispatch_flash_above d fuel s x :
  0 < SPM_PAGESIZE d ->
  BOOTLOADER_ADDRESS d mod SPM_PAGESIZE d = 0 ->
  BOOTLOADER_ADDRESS d <= x ->
  flash (result (dispatch d fuel s)) x = flash s x.
Proof.
  intros Hps Hal Hx.
  assert (Hprog : flash (result (cmd_program d fuel s)) x = flash s x).
  { destruct (Z.lt_ge_cases (address s) (APP_END d)) as [Ha|Ha].
    - apply cmd_program_flash_outside_page.
      apply page_below_boundary; try assumption. unfold APP_END in Ha. lia.
    - unfold cmd_program.
      replace (address s <? APP_END d) with false
        by (symmetry; apply Z.ltb_ge; exact Ha).
      destruct (msgBuffer s 0 =? CMD_PROGRAM_FLASH_ISP); [reflexivity|].
      pose proof (untouched_loop d (write_eeprom_body d) fuel s
                    (mkTransfer s 10 (transfer_size s))
                    ltac:(auto) ltac:(repeat split)) as (_ & _ & H).
      destruct (do_while _ _ _ _); cbn [result] in H |- *;
        [unfold cmd_status_ok; fields|]; rewrite H; reflexivity. }
  assert (Hread : flash (result (cmd_read d fuel s)) x = flash s x).
  { unfold cmd_read.
    set (s0 := poke 1 STATUS_CMD_OK
                 (set_msgLength (u16 (transfer_size s + 3)) s)).
    set (body := if msgBuffer s0 0 =? CMD_READ_FLASH_ISP
                 then read_flash_body d else read_eeprom_body d).
    assert (Hb : body = write_flash_body d \/ body = write_eeprom_body d \/
                 body = read_flash_body d \/ body = read_eeprom_body d)
      by (subst body; destruct (msgBuffer s0 0 =? CMD_READ_FLASH_ISP); auto).
    pose proof (untouched_loop d body fuel s0
                  (mkTransfer s0 2 (transfer_size s)) Hb
                  ltac:(repeat split)) as (_ & _ & H).
    destruct (do_while _ _ _ _); cbn [result] in H |- *; fields;
      rewrite H; reflexivity. }
  unfold dispatch.
  repeat match goal with
         | |- context [if ?c then Returns _ else _] =>
             destruct c; [reflexivity|]
         | |- context [if ?c then cmd_program _ _ _ else _] =>
             destruct c; [exact Hprog|]
         | |- context [if ?c then cmd_read _ _ _ else _] =>
             destruct c; [exact Hread|]
         end.
  reflexivity.
Qed.

(** X6.  Whatever bytes arrive, and however the run stands at their end
    (waiting, left, or inside a handler whose loop does not end), the flash
    at and above [BOOTLOADER_ADDRESS] is as it was at the start, on a
    device whose boot section starts on a page boundary.  (A frame longer
    than the buffer runs into the data memory behind it, which [msgBuffer]
    keeps apart from the other variables of [main].) *)
Theorem boot_section_survives_any_input d fuel s cs x :
  0 < SPM_PAGESIZE d ->
  BOOTLOADER_ADDRESS d mod SPM_PAGESIZE d = 0 ->
  BOOTLOADER_ADDRESS d <= x ->
  flash (fst (fst (main_loop d fuel s cs))) x = flash s x.
Proof.
  intros Hps Hal Hx.
  pose (P := fun s' : state => flash s' x = flash s x).
  assert (H : P (fst (fst (main_loop d fuel s cs))) \/
              P (fst (fst (main_loop d fuel s cs)))); [|unfold P in H; tauto].
  apply (main_loop_invariant d fuel (fun _ => True) P P); unfold P.
  - intros s' c _ H. destruct (parse_step_same_memories s' c) as (_ & _ & F & _).
    rewrite F. exact H.
  - intros s' _ H. rewrite dispatch_flash_above by assumption. exact H.
  - intros s' H. destruct (send_answer_same_memories s') as (_ & _ & F & _).
    rewrite F. exact H.
  - intros s' H. exact H.
  - apply Forall_forall. intros; exact I.
  - reflexivity.
Qed.

Lemma boot_section_survives_any_input_witness :
  flash (fst (fst (main_loop atmega644 2 (set_address 0xF7FE power_on)
                     (frame 1 (program_flash_payload 4 [0; 0; 0; 0; 0; 0; 0]
                                                     [1; 2; 3; 4])))))
        0xF800
  = flash (set_address 0xF7FE power_on) 0xF800.
Proof.
  apply (boot_section_survives_any_input atmega644 2%nat
           (set_address 0xF7FE power_on)).
  - reflexivity.
  - reflexivity.
  - unfold atmega644. cbn. lia.
Defined.

(** ** What a command leaves alone *)

Lemma eeprom_kept_loop d body fuel t :
  body = write_flash_body d \/ body = read_flash_body d \/
  body = read_eeprom_body d ->
  eeprom (machine (result (do_while fuel body size_left t)))
  = eeprom (machine t).
Proof.
  intros Hb.
  apply (do_while_invariant body size_left
           (fun t' => eeprom (machine t') = eeprom (machine t)));
    [|reflexivity].
  intros a Ha. destruct Hb as [-> | [-> | ->]]; exact Ha.
Qed.

Lemma cmd_read_keeps d fuel s :
  flash (result (cmd_read d fuel s)) = flash s /\
  eeprom (result (cmd_read d fuel s)) = eeprom s.
Proof.
  unfold cmd_read.
  set (s0 := poke 1 STATUS_CMD_OK
               (set_msgLength (u16 (transfer_size s + 3)) s)).
  set (body := if msgBuffer s0 0 =? CMD_READ_FLASH_ISP
               then read_flash_body d else read_eeprom_body d).
  assert (Hb : body = read_flash_body d \/ body = read_eeprom_body d)
    by (subst body; destruct (msgBuffer s0 0 =? CMD_READ_FLASH_ISP); auto).
  pose proof (untouched_loop d body fuel s0
                (mkTransfer s0 2 (transfer_size s)) ltac:(tauto)
                ltac:(repeat split)) as (_ & _ & F).
  pose proof (eeprom_kept_loop d body fuel
                (mkTransfer s0 2 (transfer_size s)) ltac:(tauto)) as E.
  destruct (do_while _ _ _ _); cbn [result] in F, E |- *; fields;
    rewrite F, E; split; reflexivity.
Qed.

Lemma cmd_program_keeps d fuel s :
  (msgBuffer s 0 <> CMD_PROGRAM_FLASH_ISP ->
   flash (result (cmd_program d fuel s)) = flash s) /\
  (msgBuffer s 0 = CMD_PROGRAM_FLASH_ISP ->
   eeprom (result (cmd_program d fuel s)) = eeprom s).
Proof.
  unfold cmd_program. split; intros Hc.
  - apply Z.eqb_neq in Hc. rewrite Hc.
    pose proof (untouched_loop d (write_eeprom_body d) fuel s
                  (mkTransfer s 10 (transfer_size s))
                  ltac:(auto) ltac:(repeat split)) as (_ & _ & H).
    destruct (do_while _ _ _ _); cbn [result] in H |- *;
      [unfold cmd_status_ok; fields|]; exact H.
  - rewrite Hc, Z.eqb_refl.
    destruct (address s <? APP_END d); [|reflexivity].
    pose proof (eeprom_kept_loop d (write_flash_body d) fuel
                  (mkTransfer (boot_page_erase d (address s) s) 10
                              (transfer_size s)) ltac:(auto)) as E.
    destruct (do_while _ _ _ _); cbn [result] in E |- *;
      [unfold cmd_status_ok, boot_rww_enable, boot_page_write; fields|];
      exact E.
Qed.

Lemma dispatch_keeps_flash d fuel s :
  msgBuffer s 0 <> CMD_PROGRAM_FLASH_ISP ->
  flash (result (dispatch d fuel s)) = flash s.
Proof.
  intros Hc. destruct (cmd_read_keeps d fuel s) as [RF _].
  destruct (cmd_program_keeps d fuel s) as [PF _]. unfold dispatch.
  repeat match goal with
         | |- context [if ?c then Returns _ else _] =>
             destruct c; [reflexivity|]
         | |- context [if ?c then cmd_program _ _ _ else _] =>
             destruct c; [exact (PF Hc)|]
         | |- context [if ?c then cmd_read _ _ _ else _] =>
             destruct c; [exact RF|]
         end.
  reflexivity.
Qed.

Lemma dispatch_keeps_eeprom d fuel s :
  msgBuffer s 0 <> CMD_PROGRAM_EEPROM_ISP ->
  eeprom (result (dispatch d fuel s)) = eeprom s.
Proof.
  intros Hc. destruct (cmd_read_keeps d fuel s) as [_ RE].
  destruct (cmd_program_keeps d fuel s) as [_ PE]. unfold dispatch.
  repeat match goal with
         | |- context [if ?c then Returns _ else _] =>
             destruct c; [reflexivity|]
         | |- context [if ?c then cmd_read _ _ _ else _] =>
             destruct c; [exact RE|]
         | |- context [if ?c then cmd_program _ _ _ else _] =>
             destruct c eqn:E
         end; [|reflexivity].
  apply PE. apply orb_true_iff in E. rewrite !Z.eqb_eq in E. tauto.
Qed.

(** X7.  A command other than program-flash leaves the whole flash as it
    was, and a command other than program-EEPROM the whole EEPROM - chip
    erase included, which is acknowledged and erases nothing. *)
Theorem memories_change_by_program_commands_only d fuel s :
  (msgBuffer s 0 <> CMD_PROGRAM_FLASH_ISP ->
   flash (result (dispatch d fuel s)) = flash s) /\
  (msgBuffer s 0 <> CMD_PROGRAM_EEPROM_ISP ->
   eeprom (result (dispatch d fuel s)) = eeprom s).
Proof.
  split; [apply dispatch_keeps_flash | apply dispatch_keeps_eeprom].
Qed.

Lemma memories_change_by_program_commands_only_witness :
  flash (result (dispatch atmega644 0
                   (received power_on 1 [CMD_CHIP_ERASE_ISP])))
  = flash (received power_on 1 [CMD_CHIP_ERASE_ISP]) /\
  eeprom (result (dispatch atmega644 0
                    (received power_on 1 [CMD_CHIP_ERASE_ISP])))
  = eeprom (received power_on 1 [CMD_CHIP_ERASE_ISP]).
Proof.
  destruct (memories_change_by_program_commands_only atmega644 0%nat
              (received power_on 1 [CMD_CHIP_ERASE_ISP])) as [F E].
  split; [apply F | apply E]; intros H; vm_compute in H; discriminate H.
Defined.

(** ** Program flash at the edges *)

(** X8.  A program-flash command that arrives while [address] is at or
    above [APP_END] writes nothing, and is acknowledged with STATUS_CMD_OK
    all the same, whatever size it declares: flash, page buffer, EEPROM and
    [address] are unchanged. *)
Theorem program_flash_refused_from_app_end d fuel s sq args :
  msgParseState s = ST_START -> isLeave s = 0 ->
  sq = 1 \/ sq = seqNum s -> is_byte sq ->
  Forall is_byte args -> Z.of_nat (length args) < MSG_BUFFER_SIZE ->
  APP_END d <= address s ->
  exists s',
    main_loop d fuel s (frame sq (CMD_PROGRAM_FLASH_ISP :: args)) =
      (s', frame sq [CMD_PROGRAM_FLASH_ISP; STATUS_CMD_OK], Receiving) /\
    flash s' = flash s /\ page_buffer s' = page_buffer s /\
    address s' = address s /\ eeprom s' = eeprom s.
Proof.
  intros Hs Hl Hsq Bsq Ba Hlen Hadr. unfold MSG_BUFFER_SIZE in Hlen.
  set (payload := CMD_PROGRAM_FLASH_ISP :: args).
  set (s1 := cmd_status_ok (received s sq payload)).
  assert (D : dispatch d fuel (received s sq payload) = Returns s1).
  { rewrite dispatch_program_flash by apply received_command.
    unfold cmd_program, payload. rewrite received_command, Z.eqb_refl.
    replace (address (received s sq (CMD_PROGRAM_FLASH_ISP :: args))
               <? APP_END d) with false
      by (symmetry; apply Z.ltb_ge; exact Hadr).
    reflexivity. }
  assert (M : message s1 = [CMD_PROGRAM_FLASH_ISP; STATUS_CMD_OK]).
  { apply message_2; [reflexivity| |reflexivity].
    unfold s1, cmd_status_ok. fields. unfold upd. cbn [Z.eqb].
    apply received_command. }
  exists (answered s1).
  split; [|after_answer; unfold s1, received; fields; repeat split].
  rewrite <- M. apply main_loop_command; try assumption.
  - unfold payload. bytes.
  - unfold payload. cbn [length]. rewrite Nat2Z.inj_succ. lia.
  - reflexivity.
  - cbn. lia.
  - rewrite M. bytes.
Qed.

Lemma program_flash_refused_from_app_end_witness :
  exists s',
    main_loop atmega644 0 (set_address 0xF7FF power_on)
      (frame 1 (CMD_PROGRAM_FLASH_ISP :: [0; 2; 0; 0; 0; 0; 0; 0; 0; 1; 2])) =
      (s', frame 1 [CMD_PROGRAM_FLASH_ISP; STATUS_CMD_OK], Receiving) /\
    flash s' = flash (set_address 0xF7FF power_on) /\
    page_buffer s' = page_buffer (set_address 0xF7FF power_on) /\
    address s' = address (set_address 0xF7FF power_on) /\
    eeprom s' = eeprom (set_address 0xF7FF power_on).
Proof.
  apply (program_flash_refused_from_app_end atmega644 0%nat
           (set_address 0xF7FF power_on) 1
           [0; 2; 0; 0; 0; 0; 0; 0; 0; 1; 2]).
  - reflexivity.
  - reflexivity.
  - left. reflexivity.
  - apply is_byte_const. reflexivity.
  - bytes.
  - unfold MSG_BUFFER_SIZE. cbn. lia.
  - unfold APP_END. cbn. lia.
Defined.

(** Program flash with one page-aligned chunk of at most a page: the whole
    page afterwards. *)
Lemma dispatch_program_flash_whole_page d fuel s sq params data :
  device_ok d = true ->
  length params = 7%nat -> Forall is_byte data ->
  Z.even (Z.of_nat (length data)) = true ->
  2 <= Z.of_nat (length data) <= SPM_PAGESIZE d ->
  address s mod SPM_PAGESIZE d = 0 ->
  0 <= address s < BOOTLOADER_ADDRESS d ->
  (Z.to_nat (Z.of_nat (length data) / 2) <= fuel)%nat ->
  exists s2,
    dispatch d fuel
      (received s sq
         (program_flash_payload (Z.of_nat (length data)) params data))
      = Returns s2 /\
    (forall k, 0 <= k < Z.of_nat (length data) ->
               flash s2 (address s + k) = nth (Z.to_nat k) data 0) /\
    (forall k, Z.of_nat (length data) <= k < SPM_PAGESIZE d ->
               flash s2 (address s + k) = Z.land 0xFF (page_buffer s k)) /\
    (forall x, x < address s \/ address s + SPM_PAGESIZE d <= x ->
               flash s2 x = flash s x) /\
    (forall o, page_buffer s2 o = 0xFF) /\
    address s2 = address_t d (address s + Z.of_nat (length data)) /\
    msgLength s2 = 2 /\
    msgBuffer s2 0 = CMD_PROGRAM_FLASH_ISP /\
    msgBuffer s2 1 = STATUS_CMD_OK /\
    isLeave s2 = isLeave s /\ seqNum s2 = sq.
Proof.
  intros Hd Hpar Bd Hev HN Hal Ha Hfuel.
  destruct (device_ok_spec d Hd) as (Hps & _ & Hba & Hbal & Hbits).
  set (N := Z.of_nat (length data)) in *.
  set (payload := program_flash_payload N params data).
  set (s' := received s sq payload).
  assert (Hplen : Z.of_nat (length payload) = 10 + N).
  { unfold payload, program_flash_payload.
    rewrite !length_app, Hpar. cbn [length]. unfold N. lia. }
  assert (B0 : msgBuffer s' 0 = CMD_PROGRAM_FLASH_ISP)
    by (unfold s'; rewrite received_lookup by lia; reflexivity).
  assert (B1 : msgBuffer s' 1 = u8 (Z.shiftr N 8))
    by (unfold s'; rewrite received_lookup by lia; reflexivity).
  assert (B2 : msgBuffer s' 2 = u8 N)
    by (unfold s'; rewrite received_lookup by lia; reflexivity).
  assert (Bdata : forall k, 0 <= k < N ->
            msgBuffer s' (10 + k) = nth (Z.to_nat k) data 0).
  { intros k Hk. unfold s'. rewrite received_lookup by lia.
    unfold payload, program_flash_payload. rewrite app_assoc.
    rewrite app_nth2 by (rewrite length_app, Hpar; cbn [length]; lia).
    f_equal. rewrite length_app, Hpar. cbn [length]. lia. }
  assert (Hts : transfer_size s' = N).
  { unfold transfer_size. rewrite B1, B2. apply size_bytes_join. lia. }
  assert (Hroom : address s + SPM_PAGESIZE d <= BOOTLOADER_ADDRESS d)
    by (apply aligned_room; lia).
  rewrite dispatch_program_flash by exact B0.
  unfold cmd_program. rewrite B0, Z.eqb_refl, Hts.
  replace (address s' <? APP_END d) with true
    by (symmetry; apply Z.ltb_lt; unfold APP_END; cbn [s' received address]; lia).
  set (s0 := boot_page_erase d (address s') s').
  set (t0 := mkTransfer s0 10 N).
  destruct (word_loop_runs (write_flash_body d) t0 (moves_write_flash d))
    as [_ Hret]; [unfold counter_ok; cbn; lia | exact Hev |].
  cbn [size t0] in Hret.
  assert (Hlim : wrap_count N = N)
    by (unfold wrap_count; destruct (N =? 0) eqn:E;
        [apply Z.eqb_eq in E; lia | reflexivity]).
  rewrite Hlim in Hret. rewrite (Hret fuel Hfuel).
  pose proof Hev as Hev'. apply Z.even_spec in Hev'. destruct Hev' as [m Hm].
  assert (Hn : 2 * Z.of_nat (Z.to_nat (N / 2)) = N).
  { rewrite Hm. replace (2 * m / 2) with m by (apply Z.div_unique_exact; lia).
    lia. }
  destruct (write_flash_iter d t0 (Z.to_nat (N / 2)))
    as (Ra & Rp & Rf & Rb & Re & (Rs1 & Rs2 & Rs3 & Rs4) & Rpb);
    try (cbn [machine t0 p]; change (address s0) with (address s);
         rewrite ?Hn; lia).
  { cbn [machine t0 p]. rewrite Hn. intros k Hk.
    change (msgBuffer s0 (10 + k)) with (msgBuffer s' (10 + k)).
    rewrite Bdata by lia. apply Forall_nth_byte, Bd. }
  set (t' := Nat.iter (Z.to_nat (N / 2)) (write_flash_body d) t0) in *.
  cbn [machine t0 p] in *. rewrite Hn in *.
  assert (Hbase : page_base d (address s) = address s)
    by (unfold page_base; rewrite Hal; lia).
  eexists. split; [reflexivity|].
  unfold cmd_status_ok, boot_rww_enable, boot_page_write. fields.
  split; [|split; [|split; [|split; [|split; [|repeat split]]]]].
  - intros k Hk. change (address s') with (address s).
    assert (Hin : in_page d (address s) (address s + k) = true).
    { unfold in_page. rewrite Hbase. apply andb_true_iff.
      rewrite Z.leb_le, Z.ltb_lt. lia. }
    rewrite Hin, Hbase, Rf, Rpb.
    replace (address s + k - address s) with k by lia.
    replace ((0 <=? k) && (k <? N)) with true
      by (symmetry; apply andb_true_iff; rewrite Z.leb_le, Z.ltb_lt; lia).
    unfold s0, boot_page_erase. fields.
    change (address s') with (address s). rewrite Hin.
    rewrite Bdata by lia. apply land_255_byte, Forall_nth_byte, Bd.
  - intros k Hk. change (address s') with (address s).
    assert (Hin : in_page d (address s) (address s + k) = true).
    { unfold in_page. rewrite Hbase. apply andb_true_iff.
      rewrite Z.leb_le, Z.ltb_lt. lia. }
    rewrite Hin, Hbase, Rf, Rpb.
    replace (address s + k - address s) with k by lia.
    replace ((0 <=? k) && (k <? N)) with false
      by (symmetry; apply andb_false_iff; rewrite Z.leb_gt, Z.ltb_ge; lia).
    unfold s0, boot_page_erase. fields.
    change (address s') with (address s). rewrite Hin. reflexivity.
  - intros x Hx. change (address s') with (address s).
    assert (Hout : in_page d (address s) x = false).
    { unfold in_page. rewrite Hbase. apply andb_false_iff.
      rewrite Z.leb_gt, Z.ltb_ge. lia. }
    rewrite Hout, Rf. unfold s0, boot_page_erase. fields.
    change (address s') with (address s). rewrite Hout. reflexivity.
  - reflexivity.
  - exact Ra.
  - unfold upd. rewrite Rb. exact B0.
  - rewrite Rs1. reflexivity.
  - rewrite Rs2. reflexivity.
Qed.

(** X9.  Programming a chunk of less than a page at the start of a page
    erases the rest of that page: with an empty page buffer (all 0xFF, as
    after any page write) the bytes of the page behind the chunk read 0xFF
    afterwards; the flash outside the page is unchanged and the page buffer
    is empty again. *)
Theorem short_chunk_erases_rest_of_page d fuel s sq params data :
  device_ok d = true ->
  msgParseState s = ST_START -> isLeave s = 0 ->
  sq = 1 \/ sq = seqNum s -> is_byte sq ->
  length params = 7%nat -> Forall is_byte params -> Forall is_byte data ->
  Z.even (Z.of_nat (length data)) = true ->
  2 <= Z.of_nat (length data) <= SPM_PAGESIZE d ->
  address s mod SPM_PAGESIZE d = 0 ->
  0 <= address s < BOOTLOADER_ADDRESS d ->
  (Z.to_nat (Z.of_nat (length data) / 2) <= fuel)%nat ->
  (forall o, 0 <= o < SPM_PAGESIZE d -> page_buffer s o = 0xFF) ->
  exists s2,
    main_loop d fuel s
      (frame sq (program_flash_payload (Z.of_nat (length data)) params data))
      = (s2, frame sq [CMD_PROGRAM_FLASH_ISP; STATUS_CMD_OK], Receiving) /\
    (forall k, Z.of_nat (length data) <= k < SPM_PAGESIZE d ->
               flash s2 (address s + k) = 0xFF) /\
    (forall x, x < address s \/ address s + SPM_PAGESIZE d <= x ->
               flash s2 x = flash s x) /\
    (forall o, page_buffer s2 o = 0xFF).
Proof.
  intros Hd Hs Hl Hsq Bsq Hpar Bpar Bd Hev HN Hal Ha Hfuel Hclean.
  destruct (dispatch_program_flash_whole_page d fuel s sq params data)
    as (s2 & D2 & _ & F2 & O2 & P2 & _ & L2 & B20 & B21 & I2 & Q2);
    try assumption.
  pose proof (message_2 s2 _ _ L2 B20 B21) as M2.
  destruct (device_ok_spec d Hd) as (Hps & _).
  exists (answered s2). split; [|after_answer; repeat split].
  - rewrite <- M2. apply main_loop_command; try assumption.
    + unfold program_flash_payload. bytes.
    + unfold program_flash_payload. rewrite !length_app, Hpar. cbn [length]. lia.
    + rewrite I2. exact Hl.
    + lia.
    + rewrite M2. bytes.
  - intros k Hk. rewrite F2 by exact Hk. rewrite Hclean by lia. reflexivity.
  - exact O2.
  - exact P2.
Qed.

Lemma short_chunk_erases_rest_of_page_witness :
  exists s2,
    main_loop atmega644 2 (set_page_buffer (fun _ => 0xFF) power_on)
      (frame 1 (program_flash_payload (Z.of_nat (length [1; 2; 3; 4]))
                  [0; 0; 0; 0; 0; 0; 0] [1; 2; 3; 4]))
      = (s2, frame 1 [CMD_PROGRAM_FLASH_ISP; STATUS_CMD_OK], Receiving) /\
    (forall k, Z.of_nat (length [1; 2; 3; 4]) <= k < SPM_PAGESIZE atmega644 ->
               flash s2 (address (set_page_buffer (fun _ => 0xFF) power_on) + k)
               = 0xFF) /\
    (forall x, x < address (set_page_buffer (fun _ => 0xFF) power_on) \/
               address (set_page_buffer (fun _ => 0xFF) power_on)
                 + SPM_PAGESIZE atmega644 <= x ->
               flash s2 x = flash (set_page_buffer (fun _ => 0xFF) power_on) x) /\
    (forall o, page_buffer s2 o = 0xFF).
Proof.
  apply (short_chunk_erases_rest_of_page atmega644 2%nat
           (set_page_buffer (fun _ => 0xFF) power_on) 1
           [0; 0; 0; 0; 0; 0; 0] [1; 2; 3; 4]).
  - reflexivity.
  - reflexivity.
  - reflexivity.
  - left. reflexivity.
  - apply is_byte_const. reflexivity.
  - reflexivity.
  - bytes.
  - bytes.
  - reflexivity.
  - cbn. lia.
  - reflexivity.
  - cbn. lia.
  - cbn. lia.
  - intros o _. reflexivity.
Defined.

(** ** EEPROM *)

Lemma EEAR_small a : 0 <= a < 65536 -> EEAR a = a.
Proof. intros H. unfold EEAR. rewrite join_16. apply Z.mod_small, H. Qed.

Lemma address_bits_ge d : 65536 <= 2 ^ address_bits d.
Proof. unfold address_bits. destruct (RAMPZ d); cbn; lia. Qed.

Ltac in_range :=
  symmetry; first
    [ apply andb_true_iff; rewrite Z.leb_le, Z.ltb_lt; lia
    | apply andb_false_iff; rewrite Z.leb_gt, Z.ltb_ge; lia ].

(** [n] passes of the EEPROM write loop. *)
Lemma write_eeprom_iter d t n :
  0 <= address (machine t) < 2 ^ address_bits d ->
  address (machine t) + Z.of_nat n <= 65536 ->
  let t' := Nat.iter n (write_eeprom_body d) t in
  address (machine t') = address_t d (address (machine t) + Z.of_nat n) /\
  p t' = p t + Z.of_nat n /\
  flash (machine t') = flash (machine t) /\
  page_buffer (machine t') = page_buffer (machine t) /\
  msgBuffer (machine t') = msgBuffer (machine t) /\
  same_session (machine t) (machine t') /\
  forall c, eeprom (machine t') c =
            if (address (machine t) <=? c) &&
               (c <? address (machine t) + Z.of_nat n)
            then msgBuffer (machine t) (p t + (c - address (machine t)))
            else eeprom (machine t) c.
Proof.
  intros Ha. pose proof (address_bits_ge d) as Hbits.
  induction n as [|n IH]; intros Hfit t'.
  - subst t'. cbn [Nat.iter nat_rect Z.of_nat]. rewrite !Z.add_0_r.
    rewrite address_t_small by lia.
    unfold same_session. repeat split; try reflexivity.
    intros c.
    replace ((address (machine t) <=? c) && (c <? address (machine t)))
      with false by in_range.
    reflexivity.
  - subst t'. rewrite Nat.iter_succ.
    destruct IH as (IHa & IHp & IHf & IHpb & IHb & (IHs1 & IHs2 & IHs3 & IHs4)
                    & IHe); [lia|].
    set (tn := Nat.iter n (write_eeprom_body d) t) in *.
    assert (Han : address (machine tn) = address (machine t) + Z.of_nat n)
      by (rewrite IHa; apply address_t_small; lia).
    unfold write_eeprom_body, same_session. cbn [machine p size]. fields.
    rewrite Han, IHp, IHf, IHpb, IHb. rewrite EEAR_small by lia.
    repeat split; try reflexivity; try assumption.
    + f_equal. lia.
    + lia.
    + intros c. unfold upd. rewrite IHe.
      destruct (c =? address (machine t) + Z.of_nat n) eqn:E1;
        [apply Z.eqb_eq in E1|apply Z.eqb_neq in E1].
      { replace ((address (machine t) <=? c) &&
                 (c <? address (machine t) + Z.of_nat (S n))) with true
          by in_range.
        f_equal. lia. }
      destruct ((address (machine t) <=? c) &&
                (c <? address (machine t) + Z.of_nat n)) eqn:E3.
      * apply andb_true_iff in E3. rewrite Z.leb_le, Z.ltb_lt in E3.
        replace ((address (machine t) <=? c) &&
                 (c <? address (machine t) + Z.of_nat (S n))) with true
          by in_range.
        reflexivity.
      * apply andb_false_iff in E3. rewrite Z.leb_gt, Z.ltb_ge in E3.
        replace ((address (machine t) <=? c) &&
                 (c <? address (machine t) + Z.of_nat (S n))) with false
          by in_range.
        reflexivity.
Qed.

(** [n] passes of the EEPROM read loop. *)
Lemma read_eeprom_iter d t n :
  0 <= address (machine t) < 2 ^ address_bits d ->
  address (machine t) + Z.of_nat n <= 65536 ->
  let t' := Nat.iter n (read_eeprom_body d) t in
  address (machine t') = address_t d (address (machine t) + Z.of_nat n) /\
  p t' = p t + Z.of_nat n /\
  flash (machine t') = flash (machine t) /\
  page_buffer (machine t') = page_buffer (machine t) /\
  eeprom (machine t') = eeprom (machine t) /\
  same_session (machine t) (machine t') /\
  forall k, msgBuffer (machine t') k =
            if (p t <=? k) && (k <? p t + Z.of_nat n)
            then u8 (eeprom (machine t) (address (machine t) + (k - p t)))
            else msgBuffer (machine t) k.
Proof.
  intros Ha. pose proof (address_bits_ge d) as Hbits.
  induction n as [|n IH]; intros Hfit t'.
  - subst t'. cbn [Nat.iter nat_rect Z.of_nat]. rewrite !Z.add_0_r.
    rewrite address_t_small by lia.
    unfold same_session. repeat split; try reflexivity.
    intros k. replace ((p t <=? k) && (k <? p t)) with false by in_range.
    reflexivity.
  - subst t'. rewrite Nat.iter_succ.
    destruct IH as (IHa & IHp & IHf & IHpb & IHe & (IHs1 & IHs2 & IHs3 & IHs4)
                    & IHb); [lia|].
    set (tn := Nat.iter n (read_eeprom_body d) t) in *.
    assert (Han : address (machine tn) = address (machine t) + Z.of_nat n)
      by (rewrite IHa; apply address_t_small; lia).
    unfold read_eeprom_body, same_session. cbn [machine p size]. fields.
    rewrite Han, IHp, IHf, IHpb, IHe. rewrite EEAR_small by lia.
    repeat split; try reflexivity; try assumption.
    + f_equal. lia.
    + lia.
    + intros k. unfold upd. rewrite IHb.
      destruct (k =? p t + Z.of_nat n) eqn:E1;
        [apply Z.eqb_eq in E1|apply Z.eqb_neq in E1].
      { replace ((p t <=? k) && (k <? p t + Z.of_nat (S n))) with true
          by in_range.
        f_equal. f_equal. lia. }
      destruct ((p t <=? k) && (k <? p t + Z.of_nat n)) eqn:E3.
      * apply andb_true_iff in E3. rewrite Z.leb_le, Z.ltb_lt in E3.
        replace ((p t <=? k) && (k <? p t + Z.of_nat (S n))) with true
          by in_range.
        reflexivity.
      * apply andb_false_iff in E3. rewrite Z.leb_gt, Z.ltb_ge in E3.
        replace ((p t <=? k) && (k <? p t + Z.of_nat (S n))) with false
          by in_range.
        reflexivity.
Qed.

Lemma wrap_count_pos N : 1 <= N -> wrap_count N = N.
Proof.
  intros H. unfold wrap_count. destruct (N =? 0) eqn:E; [|reflexivity].
  apply Z.eqb_eq in E. lia.
Qed.

(** Program EEPROM: the data are in the cells from the current address on. *)
Lemma dispatch_program_eeprom d fuel s sq params data :
  length params = 7%nat ->
  1 <= Z.of_nat (length data) <= 65525 ->
  0 <= address s -> address s + Z.of_nat (length data) <= 65536 ->
  (length data <= fuel)%nat ->
  exists s2,
    dispatch d fuel
      (received s sq
         (program_eeprom_payload (Z.of_nat (length data)) params data))
      = Returns s2 /\
    (forall k, 0 <= k < Z.of_nat (length data) ->
               eeprom s2 (address s + k) = nth (Z.to_nat k) data 0) /\
    (forall c, c < address s \/ address s + Z.of_nat (length data) <= c ->
               eeprom s2 c = eeprom s c) /\
    address s2 = address_t d (address s + Z.of_nat (length data)) /\
    msgLength s2 = 2 /\
    msgBuffer s2 0 = CMD_PROGRAM_EEPROM_ISP /\
    msgBuffer s2 1 = STATUS_CMD_OK /\
    isLeave s2 = isLeave s /\ seqNum s2 = sq /\ flash s2 = flash s.
Proof.
  intros Hpar HN Ha Hfit Hfuel.
  set (N := Z.of_nat (length data)) in *.
  set (payload := program_eeprom_payload N params data).
  set (s' := received s sq payload).
  assert (Hplen : Z.of_nat (length payload) = 10 + N).
  { unfold payload, program_eeprom_payload.
    rewrite !length_app, Hpar. cbn [length]. unfold N. lia. }
  assert (B0 : msgBuffer s' 0 = CMD_PROGRAM_EEPROM_ISP)
    by (unfold s'; rewrite received_lookup by lia; reflexivity).
  assert (B1 : msgBuffer s' 1 = u8 (Z.shiftr N 8))
    by (unfold s'; rewrite received_lookup by lia; reflexivity).
  assert (B2 : msgBuffer s' 2 = u8 N)
    by (unfold s'; rewrite received_lookup by lia; reflexivity).
  assert (Bdata : forall k, 0 <= k < N ->
            msgBuffer s' (10 + k) = nth (Z.to_nat k) data 0).
  { intros k Hk. unfold s'. rewrite received_lookup by lia.
    unfold payload, program_eeprom_payload. rewrite app_assoc.
    rewrite app_nth2 by (rewrite length_app, Hpar; cbn [length]; lia).
    f_equal. rewrite length_app, Hpar. cbn [length]. lia. }
  assert (Hts : transfer_size s' = N).
  { unfold transfer_size. rewrite B1, B2. apply size_bytes_join. lia. }
  assert (Hd : dispatch d fuel s' = cmd_program d fuel s').
  { unfold dispatch. rewrite B0. reflexivity. }
  rewrite Hd. unfold cmd_program. rewrite B0, Hts.
  change (CMD_PROGRAM_EEPROM_ISP =? CMD_PROGRAM_FLASH_ISP) with false.
  cbv iota.
  set (t0 := mkTransfer s' 10 N).
  destruct (byte_loop_runs (write_eeprom_body d) t0 (moves_write_eeprom d))
    as [_ Hret]; [unfold counter_ok; cbn; lia|].
  cbn [size t0] in Hret. rewrite wrap_count_pos in Hret by lia.
  rewrite (Hret fuel) by (unfold N; lia).
  destruct (write_eeprom_iter d t0 (Z.to_nat N))
    as (Ra & Rp & Rf & Rpb & Rb & (Rs1 & Rs2 & Rs3 & Rs4) & Re);
    try (cbn [machine t0]; change (address s') with (address s);
         pose proof (address_bits_ge d); lia).
  set (t' := Nat.iter (Z.to_nat N) (write_eeprom_body d) t0) in *.
  cbn [machine t0 p] in *. change (address s') with (address s) in *.
  rewrite Z2Nat.id in * by lia.
  eexists. split; [reflexivity|]. unfold cmd_status_ok. fields.
  split; [|split; [|repeat split]].
  - intros k Hk. rewrite Re.
    replace ((address s <=? address s + k) && (address s + k <? address s + N))
      with true by in_range.
    replace (address s + k - address s) with k by lia. apply Bdata, Hk.
  - intros c Hc. rewrite Re.
    replace ((address s <=? c) && (c <? address s + N)) with false by in_range.
    reflexivity.
  - exact Ra.
  - unfold upd. rewrite Rb. exact B0.
  - rewrite Rs1. reflexivity.
  - rewrite Rs2. reflexivity.
  - rewrite Rf. reflexivity.
Qed.

(** Read EEPROM: the reply carries the cells from the current address on. *)
Lemma dispatch_read_eeprom d fuel s sq sz cmd1 :
  1 <= sz <= 65532 ->
  0 <= address s -> address s + sz <= 65536 ->
  (Z.to_nat sz <= fuel)%nat ->
  exists s2,
    dispatch d fuel (received s sq (read_eeprom_payload sz cmd1)) = Returns s2 /\
    address s2 = address_t d (address s + sz) /\
    msgLength s2 = sz + 3 /\
    message s2 = [CMD_READ_EEPROM_ISP; STATUS_CMD_OK] ++
                 bytes_at (eeprom s) (address s) (Z.to_nat sz) ++
                 [STATUS_CMD_OK] /\
    isLeave s2 = isLeave s /\ seqNum s2 = sq /\
    flash s2 = flash s /\ eeprom s2 = eeprom s.
Proof.
  intros Hsz Ha Hfit Hfuel.
  set (s' := received s sq (read_eeprom_payload sz cmd1)).
  assert (Hd : dispatch d fuel s' = cmd_read d fuel s') by reflexivity.
  rewrite Hd. unfold cmd_read.
  assert (Hts : transfer_size s' = sz) by (apply size_bytes_join; lia).
  rewrite Hts.
  set (s0 := poke 1 STATUS_CMD_OK (set_msgLength (u16 (sz + 3)) s')).
  change (msgBuffer s0 0 =? CMD_READ_FLASH_ISP) with false. cbv iota.
  set (t0 := mkTransfer s0 2 sz).
  destruct (byte_loop_runs (read_eeprom_body d) t0 (moves_read_eeprom d))
    as [_ Hret]; [unfold counter_ok; cbn; lia|].
  cbn [size t0] in Hret. rewrite wrap_count_pos in Hret by lia.
  rewrite (Hret fuel Hfuel).
  destruct (read_eeprom_iter d t0 (Z.to_nat sz))
    as (Ra & Rp & Rf & Rpb & Re & (Rs1 & Rs2 & Rs3 & Rs4) & Rb);
    try (cbn [machine t0]; change (address s0) with (address s);
         pose proof (address_bits_ge d); lia).
  set (t' := Nat.iter (Z.to_nat sz) (read_eeprom_body d) t0) in *.
  cbn [machine t0 p] in *. change (address s0) with (address s) in *.
  rewrite Z2Nat.id in * by lia.
  eexists. split; [reflexivity|]. fields.
  assert (Hlen : msgLength (machine t') = sz + 3).
  { rewrite Rs3. subst s0. fields. unfold u16. apply Z.mod_small. lia. }
  split; [exact Ra|]. split; [exact Hlen|].
  split.
  - apply message_eq.
    + fields. rewrite Hlen, !length_app, length_bytes_at. cbn [length]. lia.
    + rewrite !length_app, length_bytes_at. cbn [length]. intros k Hk.
      fields. unfold upd. rewrite Rp, Rb.
      change ([CMD_READ_EEPROM_ISP; STATUS_CMD_OK] ++
              bytes_at (eeprom s) (address s) (Z.to_nat sz) ++ [STATUS_CMD_OK])
        with (CMD_READ_EEPROM_ISP :: STATUS_CMD_OK ::
              (bytes_at (eeprom s) (address s) (Z.to_nat sz)
               ++ [STATUS_CMD_OK])).
      destruct k as [|[|j]]; cbn [nth].
      { replace (Z.of_nat 0 =? 2 + sz) with false
          by (symmetry; apply Z.eqb_neq; lia).
        replace ((2 <=? Z.of_nat 0) && (Z.of_nat 0 <? 2 + sz)) with false
          by reflexivity.
        reflexivity. }
      { replace (Z.of_nat 1 =? 2 + sz) with false
          by (symmetry; apply Z.eqb_neq; lia).
        replace ((2 <=? Z.of_nat 1) && (Z.of_nat 1 <? 2 + sz)) with false
          by reflexivity.
        reflexivity. }
      destruct (Nat.eq_dec j (Z.to_nat sz)) as [->|Hj].
      * replace (Z.of_nat (S (S (Z.to_nat sz))) =? 2 + sz) with true
          by (symmetry; apply Z.eqb_eq; lia).
        rewrite app_nth2 by (rewrite length_bytes_at; lia).
        rewrite length_bytes_at, Nat.sub_diag. reflexivity.
      * replace (Z.of_nat (S (S j)) =? 2 + sz) with false
          by (symmetry; apply Z.eqb_neq; lia).
        replace ((2 <=? Z.of_nat (S (S j))) && (Z.of_nat (S (S j)) <? 2 + sz))
          with true by in_range.
        rewrite app_nth1 by (rewrite length_bytes_at; lia).
        rewrite nth_bytes_at by lia.
        change (eeprom s0) with (eeprom s).
        f_equal. f_equal. lia.
  - repeat split; assumption.
Qed.

Lemma program_eeprom_command d fuel s sq params data :
  msgParseState s = ST_START -> isLeave s = 0 ->
  sq = 1 \/ sq = seqNum s -> is_byte sq ->
  length params = 7%nat -> Forall is_byte params -> Forall is_byte data ->
  1 <= Z.of_nat (length data) <= 65525 ->
  0 <= address s -> address s + Z.of_nat (length data) <= 65536 ->
  (length data <= fuel)%nat ->
  exists s2,
    main_loop d fuel s
      (frame sq (program_eeprom_payload (Z.of_nat (length data)) params data))
      = (s2, frame sq [CMD_PROGRAM_EEPROM_ISP; STATUS_CMD_OK], Receiving) /\
    msgParseState s2 = ST_START /\ isLeave s2 = 0 /\
    seqNum s2 = u8 (sq + 1) /\ flash s2 = flash s /\
    (forall k, 0 <= k < Z.of_nat (length data) ->
               eeprom s2 (address s + k) = nth (Z.to_nat k) data 0) /\
    (forall c, c < address s \/ address s + Z.of_nat (length data) <= c ->
               eeprom s2 c = eeprom s c).
Proof.
  intros Hs Hl Hsq Bsq Hpar Bpar Bd HN Ha Hfit Hfuel.
  destruct (dispatch_program_eeprom d fuel s sq params data)
    as (s2 & D2 & E2 & O2 & A2 & L2 & B20 & B21 & I2 & Q2 & F2);
    try assumption.
  pose proof (message_2 s2 _ _ L2 B20 B21) as M2.
  exists (answered s2).
  split; [|after_answer; rewrite Q2, I2; repeat split; assumption].
  rewrite <- M2. apply main_loop_command; try assumption.
  - unfold program_eeprom_payload. bytes.
  - unfold program_eeprom_payload. rewrite !length_app, Hpar. cbn [length]. lia.
  - rewrite I2. exact Hl.
  - lia.
  - rewrite M2. bytes.
Qed.

Lemma read_eeprom_command d fuel s sq sz cmd1 :
  msgParseState s = ST_START -> isLeave s = 0 ->
  sq = 1 \/ sq = seqNum s -> is_byte sq -> is_byte cmd1 ->
  1 <= sz <= 65532 ->
  0 <= address s -> address s + sz <= 65536 ->
  (Z.to_nat sz <= fuel)%nat ->
  exists s2,
    main_loop d fuel s (frame sq (read_eeprom_payload sz cmd1)) =
      (s2,
       frame sq ([CMD_READ_EEPROM_ISP; STATUS_CMD_OK] ++
                 bytes_at (eeprom s) (address s) (Z.to_nat sz) ++
                 [STATUS_CMD_OK]),
       Receiving) /\
    msgParseState s2 = ST_START /\ isLeave s2 = 0 /\
    seqNum s2 = u8 (sq + 1) /\
    address s2 = address_t d (address s + sz) /\
    flash s2 = flash s /\ eeprom s2 = eeprom s.
Proof.
  intros Hs Hl Hsq Bsq Bc Hsz Ha Hfit Hfuel.
  destruct (dispatch_read_eeprom d fuel s sq sz cmd1)
    as (s2 & D2 & A2 & L2 & M2 & I2 & Q2 & F2 & E2); try assumption.
  exists (answered s2).
  split; [|after_answer; rewrite Q2, I2; repeat split; assumption].
  rewrite <- M2. apply main_loop_command; try assumption.
  - unfold read_eeprom_payload. bytes.
  - cbn. lia.
  - rewrite I2. exact Hl.
  - lia.
  - rewrite M2. bytes.
Qed.

Lemma load_address_command_full d fuel s sq w :
  msgParseState s = ST_START -> isLeave s = 0 ->
  sq = 1 \/ sq = seqNum s -> is_byte sq ->
  0 <= w < 2 ^ 32 ->
  exists s1,
    main_loop d fuel s (frame sq (load_address_payload w)) =
      (s1, frame sq [CMD_LOAD_ADDRESS; STATUS_CMD_OK], Receiving) /\
    msgParseState s1 = ST_START /\ isLeave s1 = 0 /\
    seqNum s1 = u8 (sq + 1) /\
    address s1 = address_t d (2 * w) /\ flash s1 = flash s /\
    page_buffer s1 = page_buffer s /\ eeprom s1 = eeprom s.
Proof.
  intros Hs Hl Hsq Bsq Hw.
  destruct (dispatch_load_address d fuel s sq w Hw)
    as (s1 & D1 & A1 & L1 & B10 & B11 & I1 & Q1 & F1 & P1 & E1 & _).
  pose proof (message_2 s1 _ _ L1 B10 B11) as M1.
  exists (answered s1).
  split; [|after_answer; rewrite Q1, I1; repeat split; assumption].
  rewrite <- M1. apply main_loop_command; try assumption.
  - unfold load_address_payload. bytes.
  - cbn. lia.
  - rewrite I1. exact Hl.
  - lia.
  - rewrite M1. bytes.
Qed.

(** X10.  EEPROM round trip on the wire: load address [w], program [data]
    into the EEPROM, load address [w] again and read as many bytes - the
    answer carries [data].  The cells written are [2 w], [2 w + 1], ...
    (the loaded address is doubled for the EEPROM as it is for the flash);
    the other cells and the flash are unchanged. *)
Theorem program_eeprom_read_back d fuel s q1 q2 q3 q4 w params data cmd1 :
  msgParseState s = ST_START -> isLeave s = 0 ->
  q1 = 1 \/ q1 = seqNum s -> is_byte q1 ->
  q2 = 1 \/ q2 = u8 (q1 + 1) -> is_byte q2 ->
  q3 = 1 \/ q3 = u8 (q2 + 1) -> is_byte q3 ->
  q4 = 1 \/ q4 = u8 (q3 + 1) -> is_byte q4 ->
  0 <= w -> 2 * w + Z.of_nat (length data) <= 65536 ->
  1 <= Z.of_nat (length data) ->
  Z.of_nat (length data) + 10 <= MSG_BUFFER_SIZE ->
  Forall is_byte data ->
  length params = 7%nat -> Forall is_byte params -> is_byte cmd1 ->
  (length data <= fuel)%nat ->
  exists s1 s2 s3 s4,
    main_loop d fuel s (frame q1 (load_address_payload w)) =
      (s1, frame q1 [CMD_LOAD_ADDRESS; STATUS_CMD_OK], Receiving) /\
    main_loop d fuel s1
      (frame q2 (program_eeprom_payload (Z.of_nat (length data)) params data))
      = (s2, frame q2 [CMD_PROGRAM_EEPROM_ISP; STATUS_CMD_OK], Receiving) /\
    main_loop d fuel s2 (frame q3 (load_address_payload w)) =
      (s3, frame q3 [CMD_LOAD_ADDRESS; STATUS_CMD_OK], Receiving) /\
    main_loop d fuel s3
      (frame q4 (read_eeprom_payload (Z.of_nat (length data)) cmd1)) =
      (s4,
       frame q4 ([CMD_READ_EEPROM_ISP; STATUS_CMD_OK] ++ data ++
                 [STATUS_CMD_OK]),
       Receiving) /\
    flash s4 = flash s /\
    (forall c, c < 2 * w \/ 2 * w + Z.of_nat (length data) <= c ->
               eeprom s4 c = eeprom s c).
Proof.
  intros Hs Hl Hq1 B1 Hq2 B2 Hq3 B3 Hq4 B4 Hw Hfit HN Hbuf Bd Hpar Bpar Bc
         Hfuel.
  pose proof (address_bits_ge d) as Hbits.
  unfold MSG_BUFFER_SIZE in Hbuf.
  set (N := Z.of_nat (length data)) in *.
  assert (Hw32 : 0 <= w < 2 ^ 32) by lia.
  assert (Hat : address_t d (2 * w) = 2 * w) by (apply address_t_small; lia).
  destruct (load_address_command_full d fuel s q1 w)
    as (s1 & R1 & S1 & I1 & Q1 & A1 & F1 & _ & E1); try assumption.
  rewrite Hat in A1.
  destruct (program_eeprom_command d fuel s1 q2 params data)
    as (s2 & R2 & S2 & I2 & Q2 & F2 & E2 & O2); try assumption;
    try (rewrite ?Q1, ?A1; assumption); try (rewrite ?A1; fold N; lia).
  destruct (load_address_command_full d fuel s2 q3 w)
    as (s3 & R3 & S3 & I3 & Q3 & A3 & F3 & _ & E3); try assumption;
    try (rewrite ?Q2; assumption).
  rewrite Hat in A3.
  destruct (read_eeprom_command d fuel s3 q4 N cmd1)
    as (s4 & R4 & S4 & I4 & Q4 & A4 & F4 & E4); try assumption;
    try (rewrite ?Q3, ?A3; assumption); try (rewrite ?A3; lia).
  exists s1, s2, s3, s4.
  split; [exact R1|]. split; [exact R2|]. split; [exact R3|].
  split; [|split].
  - rewrite R4. f_equal. f_equal. f_equal. f_equal. f_equal.
    apply (nth_ext _ _ 0 0).
    + rewrite length_bytes_at. unfold N. lia.
    + intros k Hk. rewrite length_bytes_at in Hk.
      rewrite nth_bytes_at by exact Hk.
      rewrite E3, A3. rewrite A1 in E2. rewrite E2 by (unfold N; lia).
      rewrite Nat2Z.id. apply u8_small, Forall_nth_byte, Bd.
  - rewrite F4, F3, F2, F1. reflexivity.
  - intros c Hc. rewrite E4, E3. rewrite A1 in O2. rewrite O2 by exact Hc.
    rewrite E1. reflexivity.
Qed.

Lemma program_eeprom_read_back_witness :
  exists s1 s2 s3 s4,
    main_loop atmega644 4 power_on (frame 1 (load_address_payload 8)) =
      (s1, frame 1 [CMD_LOAD_ADDRESS; STATUS_CMD_OK], Receiving) /\
    main_loop atmega644 4 s1
      (frame 2 (program_eeprom_payload (Z.of_nat (length [7; 8; 9]))
                  [0; 0; 0; 0; 0; 0; 0] [7; 8; 9]))
      = (s2, frame 2 [CMD_PROGRAM_EEPROM_ISP; STATUS_CMD_OK], Receiving) /\
    main_loop atmega644 4 s2 (frame 3 (load_address_payload 8)) =
      (s3, frame 3 [CMD_LOAD_ADDRESS; STATUS_CMD_OK], Receiving) /\
    main_loop atmega644 4 s3
      (frame 4 (read_eeprom_payload (Z.of_nat (length [7; 8; 9])) 0xA0)) =
      (s4,
       frame 4 ([CMD_READ_EEPROM_ISP; STATUS_CMD_OK] ++ [7; 8; 9] ++
                [STATUS_CMD_OK]),
       Receiving) /\
    flash s4 = flash power_on /\
    (forall c, c < 2 * 8 \/ 2 * 8 + Z.of_nat (length [7; 8; 9]) <= c ->
               eeprom s4 c = eeprom power_on c).
Proof.
  apply (program_eeprom_read_back atmega644 4%nat power_on 1 2 3 4 8
           [0; 0; 0; 0; 0; 0; 0] [7; 8; 9] 0xA0).
  - reflexivity.
  - reflexivity.
  - left. reflexivity.
  - apply is_byte_const. reflexivity.
  - right. reflexivity.
  - apply is_byte_const. reflexivity.
  - right. reflexivity.
  - apply is_byte_const. reflexivity.
  - right. reflexivity.
  - apply is_byte_const. reflexivity.
  - lia.
  - cbn. lia.
  - cbn. lia.
  - unfold MSG_BUFFER_SIZE. cbn. lia.
  - bytes.
  - reflexivity.
  - bytes.
  - apply is_byte_const. reflexivity.
  - cbn. lia.
Defined.

(** ** The receive wait loop; load address *)

Lemma patience_step T :
  0 <= T < 2 ^ 32 ->
  ((T - 1) mod 2 ^ 32 = 0 /\ patience T = 1) \/
  ((T - 1) mod 2 ^ 32 <> 0 /\ 0 <= (T - 1) mod 2 ^ 32 < 2 ^ 32 /\
   patience ((T - 1) mod 2 ^ 32) = patience T - 1).
Proof.
  intros HT. unfold patience.
  destruct (T =? 0) eqn:E0; [apply Z.eqb_eq in E0|apply Z.eqb_neq in E0].
  - right. subst T. change ((0 - 1) mod 2 ^ 32) with (2 ^ 32 - 1).
    change (2 ^ 32 - 1 =? 0) with false. cbv iota. lia.
  - rewrite (Z.mod_small (T - 1)) by lia.
    destruct (T - 1 =? 0) eqn:E1; [apply Z.eqb_eq in E1|apply Z.eqb_neq in E1].
    + left. lia.
    + right. lia.
Qed.

Lemma recchar_loop_waits n : forall T polls,
  0 <= T < 2 ^ 32 -> Z.of_nat n < patience T ->
  recchar_loop T (repeat None n ++ polls) = recchar_loop
    ((T - Z.of_nat n) mod 2 ^ 32) polls.
Proof.
  induction n as [|n IH]; intros T polls HT Hn.
  - cbn [repeat app Z.of_nat]. rewrite Z.sub_0_r, Z.mod_small by exact HT.
    reflexivity.
  - cbn [repeat app recchar_loop]. rewrite Nat2Z.inj_succ in Hn |- *.
    destruct (patience_step T HT) as [[_ H1]|(Hnz & Hr & Hp)]; [lia|].
    apply Z.eqb_neq in Hnz. rewrite Hnz. rewrite IH by (try assumption; lia).
    f_equal. rewrite Zminus_mod_idemp_l. f_equal. lia.
Qed.

Lemma recchar_loop_expires n : forall T polls,
  0 <= T < 2 ^ 32 -> Z.of_nat n = patience T ->
  recchar_loop T (repeat None n ++ polls) = Some TimedOut.
Proof.
  induction n as [|n IH]; intros T polls HT Hn.
  - exfalso. unfold patience in Hn. cbn [Z.of_nat] in Hn.
    destruct (T =? 0) eqn:E; [|apply Z.eqb_neq in E]; lia.
  - cbn [repeat app recchar_loop]. rewrite Nat2Z.inj_succ in Hn.
    destruct (patience_step T HT) as [[Hz _]|(Hnz & Hr & Hp)].
    + rewrite Hz. reflexivity.
    + apply Z.eqb_neq in Hnz. rewrite Hnz. apply IH; [exact Hr|lia].
Qed.

(** X11.  [recchar] with its countdown started at [T]: a byte that shows
    up after fewer than [T] empty polls is returned (and until then the
    function has not returned); after exactly [T] empty polls the function
    returns CMD_PROGRAMMER_TIMEOUT, even if a byte is there at the next
    poll.  A countdown started at 0 wraps around and allows 2^32 polls. *)
Theorem recchar_waits_for_the_countdown T n c rest :
  0 <= T < 2 ^ 32 ->
  (Z.of_nat n < patience T ->
   recchar_loop T (repeat None n) = None /\
   option_map recchar (recchar_loop T (repeat None n ++ Some c :: rest))
     = Some c) /\
  (Z.of_nat n = patience T ->
   option_map recchar (recchar_loop T (repeat None n ++ Some c :: rest))
     = Some CMD_PROGRAMMER_TIMEOUT).
Proof.
  intros HT. split; intros Hn.
  - split.
    + rewrite <- (app_nil_r (repeat None n)).
      rewrite recchar_loop_waits by assumption. reflexivity.
    + rewrite recchar_loop_waits by assumption. reflexivity.
  - rewrite recchar_loop_expires by assumption. reflexivity.
Qed.

Lemma recchar_waits_for_the_countdown_witness :
  recchar_loop 3 (repeat None 2) = None /\
  option_map recchar (recchar_loop 3 (repeat None 2 ++ Some 0x1B :: [None]))
    = Some 0x1B /\
  option_map recchar (recchar_loop 3 (repeat None 3 ++ Some 0x1B :: [None]))
    = Some CMD_PROGRAMMER_TIMEOUT.
Proof.
  destruct (recchar_waits_for_the_countdown 3 2 0x1B [None]) as [H _];
    [lia|].
  destruct (recchar_waits_for_the_countdown 3 3 0x1B [None]) as [_ H'];
    [lia|].
  destruct H as [H1 H2]; [cbn; lia|].
  split; [exact H1|]. split; [exact H2|]. apply H'. reflexivity.
Defined.

Lemma address_t_double d w :
  address_t d (2 * w) = 2 * (w mod 2 ^ (address_bits d - 1)).
Proof.
  unfold address_t, address_bits. destruct (RAMPZ d).
  - change (2 ^ 32) with (2 * 2 ^ 31). change (32 - 1) with 31.
    apply Z.mul_mod_distr_l; lia.
  - change (2 ^ 16) with (2 * 2 ^ 15). change (16 - 1) with 15.
    apply Z.mul_mod_distr_l; lia.
Qed.

(** X12.  Load address keeps the low bits of the word address only:
    [address] becomes twice the word address modulo 2^(n-1), [n] the width
    of [address_t].  Bit 31 is dropped on devices with RAMPZ, bits 15 to 31
    on the others: the command has the effect it has for the word address
    without them. *)
Theorem load_address_drops_high_bits d fuel s sq w :
  msgParseState s = ST_START -> isLeave s = 0 ->
  sq = 1 \/ sq = seqNum s -> is_byte sq ->
  0 <= w < 2 ^ 32 ->
  exists s1,
    main_loop d fuel s (frame sq (load_address_payload w)) =
      (s1, frame sq [CMD_LOAD_ADDRESS; STATUS_CMD_OK], Receiving) /\
    address s1 = 2 * (w mod 2 ^ (address_bits d - 1)) /\
    address s1 = address (fst (fst (main_loop d fuel s
       (frame sq (load_address_payload (w mod 2 ^ (address_bits d - 1))))))).
Proof.
  intros Hs Hl Hsq Bsq Hw.
  assert (Hm : 0 <= w mod 2 ^ (address_bits d - 1) < 2 ^ 32).
  { pose proof (Z.mod_pos_bound w (2 ^ (address_bits d - 1))) as H.
    unfold address_bits in *. destruct (RAMPZ d); cbn in *; lia. }
  destruct (load_address_command_full d fuel s sq w)
    as (s1 & R1 & _ & _ & _ & A1 & _); try assumption.
  destruct (load_address_command_full d fuel s sq
              (w mod 2 ^ (address_bits d - 1)))
    as (s2 & R2 & _ & _ & _ & A2 & _); try assumption.
  exists s1. split; [exact R1|]. rewrite R2. cbn [fst].
  rewrite A1, A2, !address_t_double. split; [reflexivity|].
  rewrite Z.mod_mod; [reflexivity|].
  unfold address_bits. destruct (RAMPZ d); cbn; lia.
Qed.

Lemma load_address_drops_high_bits_witness :
  exists s1,
    main_loop atmega1280 0 power_on
      (frame 1 (load_address_payload 0x80000010)) =
      (s1, frame 1 [CMD_LOAD_ADDRESS; STATUS_CMD_OK], Receiving) /\
    address s1 = 2 * (0x80000010 mod 2 ^ (address_bits atmega1280 - 1)) /\
    address s1 = address (fst (fst (main_loop atmega1280 0 power_on
       (frame 1 (load_address_payload
                   (0x80000010 mod 2 ^ (address_bits atmega1280 - 1))))))).
Proof.
  apply (load_address_drops_high_bits atmega1280 0%nat power_on 1 0x80000010).
  - reflexivity.
  - reflexivity.
  - left. reflexivity.
  - apply is_byte_const. reflexivity.
  - lia.
Defined.

(** ** The reply buffer *)

Lemma write_loops_keep_buffer d body fuel t :
  body = write_flash_body d \/ body = write_eeprom_body d ->
  msgBuffer (machine (result (do_while fuel body size_left t)))
  = msgBuffer (machine t).
Proof.
  intros Hb.
  apply (do_while_invariant body size_left
           (fun t' => msgBuffer (machine t') = msgBuffer (machine t)));
    [|reflexivity].
  intros a Ha. destruct Hb as [-> | ->]; exact Ha.
Qed.

Lemma read_loops_keep_head d body fuel t :
  body = read_flash_body d \/ body = read_eeprom_body d ->
  2 <= p t ->
  2 <= p (result (do_while fuel body size_left t)) /\
  msgBuffer (machine (result (do_while fuel body size_left t))) 0
    = msgBuffer (machine t) 0 /\
  msgBuffer (machine (result (do_while fuel body size_left t))) 1
    = msgBuffer (machine t) 1.
Proof.
  intros Hb Hp.
  apply (do_while_invariant body size_left
           (fun t' => 2 <= p t' /\
                      msgBuffer (machine t') 0 = msgBuffer (machine t) 0 /\
                      msgBuffer (machine t') 1 = msgBuffer (machine t) 1));
    [|repeat split; lia].
  intros a (Ha & H0 & H1).
  destruct Hb as [-> | ->];
    unfold read_flash_body, read_eeprom_body; cbn [machine p size]; fields;
    unfold upd;
    repeat match goal with
           | |- context [?x =? ?y] =>
               replace (x =? y) with false by (symmetry; apply Z.eqb_neq; lia)
           end;
    repeat split; try assumption; lia.
Qed.

Lemma cmd_program_reply d fuel s s' :
  cmd_program d fuel s = Returns s' ->
  msgBuffer s' 0 = msgBuffer s 0 /\ msgBuffer s' 1 = STATUS_CMD_OK.
Proof.
  unfold cmd_program. intros H.
  destruct (msgBuffer s 0 =? CMD_PROGRAM_FLASH_ISP).
  - destruct (address s <? APP_END d).
    + pose proof (write_loops_keep_buffer d (write_flash_body d) fuel
                    (mkTransfer (boot_page_erase d (address s) s) 10
                                (transfer_size s)) ltac:(auto)) as B.
      destruct (do_while _ _ _ _) as [t|t]; [|discriminate H].
      cbn [result machine] in B. inversion H; subst s'.
      unfold cmd_status_ok, boot_rww_enable, boot_page_write. fields.
      rewrite B. split; reflexivity.
    + inversion H; subst s'. split; reflexivity.
  - pose proof (write_loops_keep_buffer d (write_eeprom_body d) fuel
                  (mkTransfer s 10 (transfer_size s)) ltac:(auto)) as B.
    destruct (do_while _ _ _ _) as [t|t]; [|discriminate H].
    cbn [result machine] in B. inversion H; subst s'.
    unfold cmd_status_ok. fields. rewrite B. split; reflexivity.
Qed.

Lemma cmd_read_reply d fuel s s' :
  cmd_read d fuel s = Returns s' ->
  msgBuffer s' 0 = msgBuffer s 0 /\ msgBuffer s' 1 = STATUS_CMD_OK.
Proof.
  unfold cmd_read. intros H.
  set (s0 := poke 1 STATUS_CMD_OK
               (set_msgLength (u16 (transfer_size s + 3)) s)) in *.
  set (body := if msgBuffer s0 0 =? CMD_READ_FLASH_ISP
               then read_flash_body d else read_eeprom_body d) in *.
  assert (Hb : body = read_flash_body d \/ body = read_eeprom_body d)
    by (subst body; destruct (msgBuffer s0 0 =? CMD_READ_FLASH_ISP); auto).
  pose proof (read_loops_keep_head d body fuel
                (mkTransfer s0 2 (transfer_size s)) Hb ltac:(cbn; lia))
    as (Hp & H0 & H1).
  destruct (do_while _ _ _ _) as [t|t]; [|discriminate H].
  cbn [result machine] in Hp, H0, H1. inversion H; subst s'.
  fields. unfold upd.
  replace (0 =? p t) with false by (symmetry; apply Z.eqb_neq; lia).
  replace (1 =? p t) with false by (symmetry; apply Z.eqb_neq; lia).
  rewrite H0, H1. split; reflexivity.
Qed.

Ltac echo_case H E :=
  apply Z.eqb_eq in E; inversion H; subst; rewrite E;
  split; [exact E | reflexivity].

(** X13.  Whenever a command handler returns, the reply buffer starts with
    the command byte as it was received, followed by STATUS_CMD_OK if the
    dispatcher has a case for the command and by STATUS_CMD_FAILED if it
    has none (the timeout code, which is not answered, apart; a read
    command is one whose reply fits the buffer). *)
Theorem reply_echoes_command_with_status d fuel s s' :
  dispatch d fuel s = Returns s' ->
  msgBuffer s 0 <> CMD_PROGRAMMER_TIMEOUT ->
  read_fits s ->
  msgBuffer s' 0 = msgBuffer s 0 /\
  msgBuffer s' 1 = (if known_command (msgBuffer s 0) then STATUS_CMD_OK
                    else STATUS_CMD_FAILED).
Proof.
  intros H Hne _. unfold dispatch in H.
  destruct (msgBuffer s 0 =? CMD_SPI_MULTI) eqn:E1; [echo_case H E1|].
  destruct (msgBuffer s 0 =? CMD_SIGN_ON) eqn:E2; [echo_case H E2|].
  destruct (msgBuffer s 0 =? CMD_GET_PARAMETER) eqn:E3; [echo_case H E3|].
  destruct (msgBuffer s 0 =? CMD_LEAVE_PROGMODE_ISP) eqn:E4; [echo_case H E4|].
  destruct (msgBuffer s 0 =? CMD_ENTER_PROGMODE_ISP) eqn:E5; [echo_case H E5|].
  destruct (msgBuffer s 0 =? CMD_SET_PARAMETER) eqn:E6; [echo_case H E6|].
  cbn [orb] in H.
  destruct (msgBuffer s 0 =? CMD_READ_SIGNATURE_ISP) eqn:E7; [echo_case H E7|].
  destruct (msgBuffer s 0 =? CMD_READ_LOCK_ISP) eqn:E8; [echo_case H E8|].
  destruct (msgBuffer s 0 =? CMD_READ_FUSE_ISP) eqn:E9; [echo_case H E9|].
  destruct (msgBuffer s 0 =? CMD_CHIP_ERASE_ISP) eqn:E10; [echo_case H E10|].
  destruct (msgBuffer s 0 =? CMD_LOAD_ADDRESS) eqn:E11; [echo_case H E11|].
  destruct (msgBuffer s 0 =? CMD_PROGRAM_FLASH_ISP) eqn:E12.
  { apply Z.eqb_eq in E12. destruct (cmd_program_reply d fuel s s' H) as [A B].
    rewrite A, B, E12. split; reflexivity. }
  destruct (msgBuffer s 0 =? CMD_PROGRAM_EEPROM_ISP) eqn:E13.
  { apply Z.eqb_eq in E13. destruct (cmd_program_reply d fuel s s' H) as [A B].
    rewrite A, B, E13. split; reflexivity. }
  cbn [orb] in H.
  destruct (msgBuffer s 0 =? CMD_READ_FLASH_ISP) eqn:E14.
  { apply Z.eqb_eq in E14. destruct (cmd_read_reply d fuel s s' H) as [A B].
    rewrite A, B, E14. split; reflexivity. }
  destruct (msgBuffer s 0 =? CMD_READ_EEPROM_ISP) eqn:E15.
  { apply Z.eqb_eq in E15. destruct (cmd_read_reply d fuel s s' H) as [A B].
    rewrite A, B, E15. split; reflexivity. }
  cbn [orb] in H.
  destruct (msgBuffer s 0 =? CMD_PROGRAMMER_TIMEOUT) eqn:E16;
    [apply Z.eqb_eq in E16; contradiction|].
  inversion H; subst s'.
  unfold known_command. cbn [existsb].
  rewrite E1, E2, E3, E4, E5, E6, E7, E8, E9, E10, E11, E12, E13, E14, E15, E16.
  split; reflexivity.
Qed.

Lemma reply_echoes_command_with_status_witness :
  msgBuffer (cmd_get_parameter (received power_on 1 [CMD_GET_PARAMETER; 0x90])) 0
    = msgBuffer (received power_on 1 [CMD_GET_PARAMETER; 0x90]) 0 /\
  msgBuffer (cmd_get_parameter (received power_on 1 [CMD_GET_PARAMETER; 0x90])) 1
    = (if known_command
            (msgBuffer (received power_on 1 [CMD_GET_PARAMETER; 0x90]) 0)
       then STATUS_CMD_OK else STATUS_CMD_FAILED).
Proof.
  apply (reply_echoes_command_with_status atmega644 0%nat
           (received power_on 1 [CMD_GET_PARAMETER; 0x90])).
  - reflexivity.
  - intros H. vm_compute in H. discriminate H.
  - intros [H|H]; vm_compute in H; discriminate H.
Defined.

Lemma signature_bytes_join x :
  0 <= x < 2 ^ 24 ->
  Z.land (Z.shiftr x 16) 0xFF * 65536 + Z.land (Z.shiftr x 8) 0xFF * 256
  + Z.land x 0xFF = x.
Proof.
  intros H. rewrite !land_255, shiftr_16, shiftr_8.
  assert (H16 : x / 256 / 256 < 256).
  { apply Z.div_lt_upper_bound; [lia|]. apply Z.div_lt_upper_bound; lia. }
  assert (H0 : 0 <= x / 256 / 256)
    by (apply Z.div_pos; [apply Z.div_pos|]; lia).
  rewrite (Z.mod_small (x / 256 / 256)) by lia.
  pose proof (Z.div_mod x 256 ltac:(lia)) as D1.
  pose proof (Z.div_mod (x / 256) 256 ltac:(lia)) as D2.
  lia.
Qed.

(** X14.  The two ways to read the signature agree: read-signature with
    index byte [idx], and SPI-multi with instruction byte 0x30 and the same
    index, answer with the same byte.  Indexes 0, 1 and 2 give the three
    bytes of SIGNATURE_BYTES from high to low, and every index from 2 on
    gives the low byte. *)
Theorem signature_is_read_out d fuel s sq a1 a2 a3 b1 b2 b3 b5 idx :
  msgParseState s = ST_START -> isLeave s = 0 ->
  sq = 1 \/ sq = seqNum s -> is_byte sq ->
  Forall is_byte [a1; a2; a3; b1; b2; b3; b5; idx] ->
  0 <= SIGNATURE_BYTES d < 2 ^ 24 ->
  (exists s1,
     main_loop d fuel s (frame sq [CMD_READ_SIGNATURE_ISP; a1; a2; a3; idx]) =
       (s1,
        frame sq [CMD_READ_SIGNATURE_ISP; STATUS_CMD_OK; signature_byte d idx;
                  STATUS_CMD_OK],
        Receiving)) /\
  (exists s2,
     main_loop d fuel s (frame sq [CMD_SPI_MULTI; b1; b2; b3; 0x30; b5; idx]) =
       (s2,
        frame sq [CMD_SPI_MULTI; STATUS_CMD_OK; 0; 0x30; b5;
                  signature_byte d idx; STATUS_CMD_OK],
        Receiving)) /\
  signature_byte d 0 * 65536 + signature_byte d 1 * 256 + signature_byte d 2
    = SIGNATURE_BYTES d /\
  (2 <= idx -> signature_byte d idx = signature_byte d 2).
Proof.
  intros Hs Hl Hsq Bsq Bb Hsig.
  assert (Bsb : is_byte (signature_byte d idx)).
  { unfold signature_byte.
    destruct (idx =? 0); [|destruct (idx =? 1)]; apply byte_lo. }
  repeat match type of Bb with
         | Forall _ (_ :: _) =>
             let B := fresh "B" in
             pose proof (Forall_inv Bb) as B; apply Forall_inv_tail in Bb
         end.
  split; [|split; [|split]].
  - set (r := received s sq [CMD_READ_SIGNATURE_ISP; a1; a2; a3; idx]).
    assert (M : message (cmd_read_signature d r) =
                [CMD_READ_SIGNATURE_ISP; STATUS_CMD_OK; signature_byte d idx;
                 STATUS_CMD_OK]).
    { apply message_eq; [reflexivity|]. intros k Hk. cbn [length] in Hk.
      destruct k as [|[|[|[|k]]]]; try lia; reflexivity. }
    exists (answered (cmd_read_signature d r)). rewrite <- M.
    apply main_loop_command; try assumption.
    + bytes.
    + cbn. lia.
    + reflexivity.
    + reflexivity.
    + cbn. lia.
    + rewrite M. bytes.
  - set (r := received s sq [CMD_SPI_MULTI; b1; b2; b3; 0x30; b5; idx]).
    assert (M : message (cmd_spi_multi d r) =
                [CMD_SPI_MULTI; STATUS_CMD_OK; 0; 0x30; b5;
                 signature_byte d idx; STATUS_CMD_OK]).
    { apply message_eq; [reflexivity|]. intros k Hk. cbn [length] in Hk.
      destruct k as [|[|[|[|[|[|[|k]]]]]]]; try lia; reflexivity. }
    exists (answered (cmd_spi_multi d r)). rewrite <- M.
    apply main_loop_command; try assumption.
    + bytes.
    + cbn. lia.
    + reflexivity.
    + reflexivity.
    + cbn. lia.
    + rewrite M. bytes.
  - unfold signature_byte. cbn [Z.eqb]. apply signature_bytes_join, Hsig.
  - intros Hi. unfold signature_byte. cbn [Z.eqb].
    replace (idx =? 0) with false by (symmetry; apply Z.eqb_neq; lia).
    replace (idx =? 1) with false by (symmetry; apply Z.eqb_neq; lia).
    reflexivity.
Qed.

Lemma signature_is_read_out_witness :
  (exists s1,
     main_loop atmega644 0 power_on
       (frame 1 [CMD_READ_SIGNATURE_ISP; 0; 0; 0; 1]) =
       (s1,
        frame 1 [CMD_READ_SIGNATURE_ISP; STATUS_CMD_OK;
                 signature_byte atmega644 1; STATUS_CMD_OK],
        Receiving)) /\
  (exists s2,
     main_loop atmega644 0 power_on
       (frame 1 [CMD_SPI_MULTI; 4; 4; 0; 0x30; 0; 1]) =
       (s2,
        frame 1 [CMD_SPI_MULTI; STATUS_CMD_OK; 0; 0x30; 0;
                 signature_byte atmega644 1; STATUS_CMD_OK],
        Receiving)) /\
  signature_byte atmega644 0 * 65536 + signature_byte atmega644 1 * 256
    + signature_byte atmega644 2 = SIGNATURE_BYTES atmega644 /\
  (2 <= 1 -> signature_byte atmega644 1 = signature_byte atmega644 2).
Proof.
  apply (signature_is_read_out atmega644 0%nat power_on 1 0 0 0 4 4 0 0 1).
  - reflexivity.
  - reflexivity.
  - left. reflexivity.
  - apply is_byte_const. reflexivity.
  - bytes.
  - cbn. lia.
Defined.

(** ** Memories are written on request only *)

Lemma parse_step_head k s c :
  k <> CMD_PROGRAMMER_TIMEOUT -> c <> k ->
  head_is_not k s -> head_is_not k (parse_step s c).
Proof.
  intros Hk Hc. destruct s as [a st j chk sn ml buf lv fl pb ee lf].
  unfold head_is_not, parse_step. fields.
  destruct st; fields; intros H.
  - destruct (c =? MESSAGE_START); fields; [exact I|].
    destruct (c =? CMD_PROGRAMMER_TIMEOUT); fields; [|exact I].
    unfold upd. cbn [Z.eqb]. intros E. apply Hk. symmetry. exact E.
  - destruct ((c =? 1) || (c =? sn)); fields; exact I.
  - exact I.
  - exact I.
  - destruct (c =? TOKEN); fields; [|exact I]. intros E. contradiction.
  - assert (Hb : upd buf j c 0 <> k).
    { unfold upd. destruct (0 =? j) eqn:E; [exact Hc|].
      apply H. apply Z.eqb_neq in E. lia. }
    destruct (u16 (j + 1) =? ml); fields; [exact Hb|]. intros _. exact Hb.
  - destruct (c =? chk); fields; [exact H|exact I].
  - exact H.
Qed.

Section WrittenOnRequest.
Context (d : device) (fuel : nat) (k : Z) (mem : state -> Z -> Z).
Hypothesis k_not_timeout : k <> CMD_PROGRAMMER_TIMEOUT.
Hypothesis mem_parse_step : forall s c, mem (parse_step s c) = mem s.
Hypothesis mem_send_answer : forall s, mem (fst (send_answer s)) = mem s.
Hypothesis mem_restart :
  forall s, mem (set_msgParseState ST_START s) = mem s.
Hypothesis mem_dispatch :
  forall s, msgBuffer s 0 <> k -> mem (result (dispatch d fuel s)) = mem s.

Lemma written_on_request_only s cs :
  msgParseState s = ST_START -> ~ In k cs ->
  mem (fst (fst (main_loop d fuel s cs))) = mem s.
Proof.
  intros Hs Hk.
  pose (P := fun s' : state => head_is_not k s' /\ mem s' = mem s).
  pose (R := fun s' : state => mem s' = mem s).
  assert (H : P (fst (fst (main_loop d fuel s cs))) \/
              R (fst (fst (main_loop d fuel s cs))));
    [|unfold P, R in H; tauto].
  apply (main_loop_invariant d fuel (fun c => c <> k) P R); unfold P, R.
  - intros s' c Hc [H1 H2]. split.
    + apply parse_step_head; assumption.
    + rewrite mem_parse_step. exact H2.
  - intros s' Hst [H1 H2]. unfold head_is_not in H1. rewrite Hst in H1.
    rewrite mem_dispatch by exact H1. exact H2.
  - intros s' H. rewrite mem_send_answer. exact H.
  - intros s' H. split; [exact I|]. rewrite mem_restart. exact H.
  - apply Forall_forall. intros c Hin E. apply Hk. rewrite <- E. exact Hin.
  - split; [|reflexivity]. unfold head_is_not. rewrite Hs. exact I.
Qed.
End WrittenOnRequest.

(** X15.  Over a whole run from [ST_START]: if the byte 0x13 does not
    occur in the input the flash is never written, and if the byte 0x15
    does not occur the EEPROM is never written.  (The command byte of a
    message is always a byte of the input: the first payload byte, stored
    at offset 0.  As in X6, the data memory behind the buffer is kept apart
    from the other variables of [main].) *)
Theorem memories_are_written_on_request_only d fuel s cs :
  msgParseState s = ST_START ->
  (~ In CMD_PROGRAM_FLASH_ISP cs ->
   flash (fst (fst (main_loop d fuel s cs))) = flash s) /\
  (~ In CMD_PROGRAM_EEPROM_ISP cs ->
   eeprom (fst (fst (main_loop d fuel s cs))) = eeprom s).
Proof.
  intros Hs. split; intros Hk.
  - apply (written_on_request_only d fuel CMD_PROGRAM_FLASH_ISP flash);
      try assumption.
    + discriminate.
    + intros s' c. apply (parse_step_same_memories s' c).
    + intros s'. apply (send_answer_same_memories s').
    + reflexivity.
    + intros s'. apply dispatch_keeps_flash.
  - apply (written_on_request_only d fuel CMD_PROGRAM_EEPROM_ISP eeprom);
      try assumption.
    + discriminate.
    + intros s' c. apply (parse_step_same_memories s' c).
    + intros s'. apply (send_answer_same_memories s').
    + reflexivity.
    + intros s'. apply dispatch_keeps_eeprom.
Qed.

Lemma memories_are_written_on_request_only_witness :
  flash (fst (fst (main_loop atmega644 4 power_on
                     (frame 1 (load_address_payload 8) ++
                      frame 2 (program_eeprom_payload 3 [0; 0; 0; 0; 0; 0; 0]
                                 [7; 8; 9])))))
  = flash power_on /\
  eeprom (fst (fst (main_loop atmega644 4 power_on
                      (frame 1 (load_address_payload 8) ++
                       frame 2 (read_flash_payload 4 0x20)))))
  = eeprom power_on.
Proof.
  split.
  - refine (proj1 (memories_are_written_on_request_only atmega644 4%nat
                     power_on
                     (frame 1 (load_address_payload 8) ++
                      frame 2 (program_eeprom_payload 3 [0; 0; 0; 0; 0; 0; 0]
                                 [7; 8; 9]))
                     eq_refl) _).
    intros H. vm_compute in H. repeat (destruct H as [H|H]; [discriminate H|]).
    exact H.
  - refine (proj2 (memories_are_written_on_request_only atmega644 4%nat
                     power_on
                     (frame 1 (load_address_payload 8) ++
                      frame 2 (read_flash_payload 4 0x20))
                     eq_refl) _).
    intros H. vm_compute in H. repeat (destruct H as [H|H]; [discriminate H|]).
    exact H.
Defined.

(** X16.  One command changes the flash in one page at most, the page that
    contains [address] when the command arrives - whatever the command, the
    size it declares and the number of passes its loop makes. *)
Theorem command_changes_one_page_at_most d fuel s x :
  in_page d (address s) x = false ->
  flash (result (dispatch d fuel s)) x = flash s x.
Proof.
  intros Hx. destruct (cmd_read_keeps d fuel s) as [RF _]. unfold dispatch.
  repeat match goal with
         | |- context [if ?c then Returns _ else _] =>
             destruct c; [reflexivity|]
         | |- context [if ?c then cmd_program _ _ _ else _] =>
             destruct c; [apply cmd_program_flash_outside_page, Hx|]
         | |- context [if ?c then cmd_read _ _ _ else _] =>
             destruct c; [rewrite RF; reflexivity|]
         end.
  reflexivity.
Qed.

Lemma command_changes_one_page_at_most_witness :
  flash (result (dispatch atmega644 1
                   (received (set_address 0x1F0 power_on) 1
                      (program_flash_payload 0x40 [0; 0; 0; 0; 0; 0; 0]
                                             [1; 2]))))
        0x200
  = flash (received (set_address 0x1F0 power_on) 1
             (program_flash_payload 0x40 [0; 0; 0; 0; 0; 0; 0] [1; 2]))
          0x200.
Proof.
  apply (command_changes_one_page_at_most atmega644 1%nat). reflexivity.
Defined.

(** X17.  A frame header with a wrong token byte is dropped without a
    reply: the parser is back in [ST_START], the buffer and the memories
    are untouched, and the bytes that follow are scanned for a new start
    marker - but the sequence number of the dropped header has been
    stored. *)
Theorem wrong_token_drops_frame d fuel s sq hi lo c rest :
  msgParseState s = ST_START -> sq = 1 \/ sq = seqNum s -> c <> TOKEN ->
  exists s',
    main_loop d fuel s ([MESSAGE_START; sq; hi; lo; c] ++ rest) =
    main_loop d fuel s' rest /\
    msgParseState s' = ST_START /\ seqNum s' = sq /\
    msgBuffer s' = msgBuffer s /\ same_memories s s'.
Proof.
  intros Hs Hsq Hc. destruct s as [a st j chk sn ml buf lv fl pb ee lf].
  cbn in Hs, Hsq. subst st. cbn [app].
  rewrite main_loop_cons, step_start. fields.
  rewrite main_loop_cons, step_seq by exact Hsq. fields.
  rewrite main_loop_cons, step_size_1. fields.
  rewrite main_loop_cons, step_size_2. fields.
  rewrite main_loop_cons. unfold parse_step. fields.
  apply Z.eqb_neq in Hc. rewrite Hc. fields.
  eexists. split; [reflexivity|]. unfold same_memories. fields.
  repeat split.
Qed.

Lemma wrong_token_drops_frame_witness :
  exists s',
    main_loop atmega644 0 power_on
      ([MESSAGE_START; 1; 0; 1; 0x0F] ++ [CMD_SIGN_ON; 0x14]) =
    main_loop atmega644 0 s' [CMD_SIGN_ON; 0x14] /\
    msgParseState s' = ST_START /\ seqNum s' = 1 /\
    msgBuffer s' = msgBuffer power_on /\ same_memories power_on s'.
Proof.
  apply (wrong_token_drops_frame atmega644 0%nat power_on 1 0 1 0x0F
           [CMD_SIGN_ON; 0x14]).
  - reflexivity.
  - left. reflexivity.
  - discriminate.
Defined.

(** ** Whole exchanges *)






(** X20.  Two read-flash commands in a row, without a load-address
    between them: the second one continues where the first one stopped. *)
Theorem consecutive_reads_continue d fuel s q1 q2 sz1 sz2 c1 c2 :
  msgParseState s = ST_START -> isLeave s = 0 ->
  q1 = 1 \/ q1 = seqNum s -> is_byte q1 ->
  q2 = 1 \/ q2 = u8 (q1 + 1) -> is_byte q2 ->
  is_byte c1 -> is_byte c2 ->
  Z.even sz1 = true -> 2 <= sz1 -> sz1 + 3 <= MSG_BUFFER_SIZE ->
  Z.even sz2 = true -> 2 <= sz2 -> sz2 + 3 <= MSG_BUFFER_SIZE ->
  0 <= address s -> address s + sz1 + sz2 <= 2 ^ address_bits d ->
  (Z.to_nat (sz1 / 2) <= fuel)%nat -> (Z.to_nat (sz2 / 2) <= fuel)%nat ->
  exists s1 s2,
    main_loop d fuel s (frame q1 (read_flash_payload sz1 c1)) =
      (s1,
       frame q1 ([CMD_READ_FLASH_ISP; STATUS_CMD_OK] ++
                 bytes_at (flash s) (address s) (Z.to_nat sz1) ++
                 [STATUS_CMD_OK]),
       Receiving) /\
    main_loop d fuel s1 (frame q2 (read_flash_payload sz2 c2)) =
      (s2,
       frame q2 ([CMD_READ_FLASH_ISP; STATUS_CMD_OK] ++
                 bytes_at (flash s) (address s + sz1) (Z.to_nat sz2) ++
                 [STATUS_CMD_OK]),
       Receiving) /\
    address s2 = address_t d (address s + sz1 + sz2).
Proof.
  intros Hs Hl Hq1 B1 Hq2 B2 Bc1 Bc2 He1 Hz1 Hb1 He2 Hz2 Hb2 Ha Hfit Hf1 Hf2.
  unfold MSG_BUFFER_SIZE in *.
  destruct (read_flash_command d fuel s q1 sz1 c1)
    as (s1 & R1 & S1 & I1 & Q1 & A1 & F1); try assumption; try lia.
  rewrite address_t_small in A1 by lia.
  destruct (read_flash_command d fuel s1 q2 sz2 c2)
    as (s2 & R2 & S2 & I2 & Q2 & A2 & F2); try assumption;
    try (rewrite ?Q1; assumption); try (rewrite ?A1; lia); try lia.
  exists s1, s2. split; [exact R1|]. split.
  - rewrite R2, F1, A1. reflexivity.
  - rewrite A2, A1. reflexivity.
Qed.

Lemma consecutive_reads_continue_witness :
  exists s1 s2,
    main_loop atmega644 2 power_on (frame 1 (read_flash_payload 4 0x20)) =
      (s1,
       frame 1 ([CMD_READ_FLASH_ISP; STATUS_CMD_OK] ++
                bytes_at (flash power_on) (address power_on) (Z.to_nat 4) ++
                [STATUS_CMD_OK]),
       Receiving) /\
    main_loop atmega644 2 s1 (frame 2 (read_flash_payload 2 0x20)) =
      (s2,
       frame 2 ([CMD_READ_FLASH_ISP; STATUS_CMD_OK] ++
                bytes_at (flash power_on) (address power_on + 4) (Z.to_nat 2) ++
                [STATUS_CMD_OK]),
       Receiving) /\
    address s2 = address_t atmega644 (address power_on + 4 + 2).
Proof.
  apply (consecutive_reads_continue atmega644 2%nat power_on 1 2 4 2 0x20 0x20).
  - reflexivity.
  - reflexivity.
  - left. reflexivity.
  - apply is_byte_const. reflexivity.
  - right. reflexivity.
  - apply is_byte_const. reflexivity.
  - apply is_byte_const. reflexivity.
  - apply is_byte_const. reflexivity.
  - reflexivity.
  - lia.
  - unfold MSG_BUFFER_SIZE. lia.
  - reflexivity.
  - lia.
  - unfold MSG_BUFFER_SIZE. lia.
  - cbn. lia.
  - cbn. lia.
  - cbn. lia.
  - cbn. lia.
Defined.

Lemma program_flash_command_full d fuel s sq params data :
  device_ok d = true ->
  msgParseState s = ST_START -> isLeave s = 0 ->
  sq = 1 \/ sq = seqNum s -> is_byte sq ->
  length params = 7%nat -> Forall is_byte params -> Forall is_byte data ->
  Z.even (Z.of_nat (length data)) = true ->
  2 <= Z.of_nat (length data) <= SPM_PAGESIZE d ->
  address s mod SPM_PAGESIZE d = 0 ->
  0 <= address s < BOOTLOADER_ADDRESS d ->
  (Z.to_nat (Z.of_nat (length data) / 2) <= fuel)%nat ->
  exists s2,
    main_loop d fuel s
      (frame sq (program_flash_payload (Z.of_nat (length data)) params data))
      = (s2, frame sq [CMD_PROGRAM_FLASH_ISP; STATUS_CMD_OK], Receiving) /\
    msgParseState s2 = ST_START /\ isLeave s2 = 0 /\
    seqNum s2 = u8 (sq + 1) /\
    address s2 = address_t d (address s + Z.of_nat (length data)) /\
    (forall k, 0 <= k < Z.of_nat (length data) ->
               flash s2 (address s + k) = nth (Z.to_nat k) data 0) /\
    (forall x, x < address s \/ address s + SPM_PAGESIZE d <= x ->
               flash s2 x = flash s x).
Proof.
  intros Hd Hs Hl Hsq Bsq Hpar Bpar Bd Hev HN Hal Ha Hfuel.
  destruct (dispatch_program_flash_whole_page d fuel s sq params data)
    as (s2 & D2 & F2 & _ & O2 & _ & A2 & L2 & B20 & B21 & I2 & Q2);
    try assumption.
  pose proof (message_2 s2 _ _ L2 B20 B21) as M2.
  destruct (device_ok_spec d Hd) as (Hps & _).
  exists (answered s2).
  split; [|after_answer; rewrite Q2, I2; repeat split; assumption].
  rewrite <- M2. apply main_loop_command; try assumption.
  - unfold program_flash_payload. bytes.
  - unfold program_flash_payload. rewrite !length_app, Hpar. cbn [length]. lia.
  - rewrite I2. exact Hl.
  - lia.
  - rewrite M2. bytes.
Qed.

(** X21.  Two program-flash commands in a row, the first one a full page
    from a page boundary: the second chunk goes to the next page and the
    first page keeps its data, so that an image is uploaded page by page
    after a single load-address. *)
Theorem consecutive_pages_are_programmed d fuel s q1 q2 params1 params2
    data1 data2 :
  device_ok d = true ->
  msgParseState s = ST_START -> isLeave s = 0 ->
  q1 = 1 \/ q1 = seqNum s -> is_byte q1 ->
  q2 = 1 \/ q2 = u8 (q1 + 1) -> is_byte q2 ->
  length params1 = 7%nat -> Forall is_byte params1 ->
  length params2 = 7%nat -> Forall is_byte params2 ->
  Forall is_byte data1 -> Forall is_byte data2 ->
  Z.of_nat (length data1) = SPM_PAGESIZE d ->
  Z.even (Z.of_nat (length data2)) = true ->
  2 <= Z.of_nat (length data2) <= SPM_PAGESIZE d ->
  address s mod SPM_PAGESIZE d = 0 ->
  0 <= address s -> address s + 2 * SPM_PAGESIZE d <= BOOTLOADER_ADDRESS d ->
  (Z.to_nat (SPM_PAGESIZE d / 2) <= fuel)%nat ->
  exists s1 s2,
    main_loop d fuel s
      (frame q1 (program_flash_payload (Z.of_nat (length data1)) params1 data1))
      = (s1, frame q1 [CMD_PROGRAM_FLASH_ISP; STATUS_CMD_OK], Receiving) /\
    main_loop d fuel s1
      (frame q2 (program_flash_payload (Z.of_nat (length data2)) params2 data2))
      = (s2, frame q2 [CMD_PROGRAM_FLASH_ISP; STATUS_CMD_OK], Receiving) /\
    (forall k, 0 <= k < Z.of_nat (length data1) ->
               flash s2 (address s + k) = nth (Z.to_nat k) data1 0) /\
    (forall k, 0 <= k < Z.of_nat (length data2) ->
               flash s2 (address s + SPM_PAGESIZE d + k)
               = nth (Z.to_nat k) data2 0).
Proof.
  intros Hd Hs Hl Hq1 B1 Hq2 B2 Hp1 Bp1 Hp2 Bp2 Bd1 Bd2 HN1 Hev2 HN2 Hal Ha
         Hroom Hfuel.
  destruct (device_ok_spec d Hd) as (Hps & Hpe & Hba & Hbal & Hbits).
  set (ps := SPM_PAGESIZE d) in *.
  destruct (program_flash_command_full d fuel s q1 params1 data1)
    as (s1 & R1 & S1 & I1 & Q1 & A1 & F1 & O1); try assumption;
    try (rewrite HN1; assumption); try (fold ps; lia).
  rewrite HN1 in A1. fold ps in A1. rewrite address_t_small in A1 by lia.
  assert (Hal1 : address s1 mod ps = 0).
  { rewrite A1, Z.add_mod, Hal, Z_mod_same_full, Z.add_0_l by lia.
    apply Z.mod_0_l. lia. }
  assert (Hf2 : (Z.to_nat (Z.of_nat (length data2) / 2) <= fuel)%nat).
  { assert (Z.of_nat (length data2) / 2 <= ps / 2)
      by (apply Z.div_le_mono; lia).
    lia. }
  destruct (program_flash_command_full d fuel s1 q2 params2 data2)
    as (s2 & R2 & S2 & I2 & Q2 & A2 & F2 & O2); try assumption;
    try (rewrite ?Q1; assumption); try (fold ps; lia).
  exists s1, s2. split; [exact R1|]. split; [exact R2|]. split.
  - intros k Hk. rewrite O2 by (fold ps; lia). apply F1, Hk.
  - intros k Hk. rewrite <- A1. apply F2, Hk.
Qed.

Lemma consecutive_pages_are_programmed_witness :
  exists s1 s2,
    main_loop atmega644 128 power_on
      (frame 1 (program_flash_payload (Z.of_nat (length (repeat 0xAA 256)))
                  [0; 0; 0; 0; 0; 0; 0] (repeat 0xAA 256)))
      = (s1, frame 1 [CMD_PROGRAM_FLASH_ISP; STATUS_CMD_OK], Receiving) /\
    main_loop atmega644 128 s1
      (frame 2 (program_flash_payload (Z.of_nat (length [1; 2; 3; 4]))
                  [0; 0; 0; 0; 0; 0; 0] [1; 2; 3; 4]))
      = (s2, frame 2 [CMD_PROGRAM_FLASH_ISP; STATUS_CMD_OK], Receiving) /\
    (forall k, 0 <= k < Z.of_nat (length (repeat 0xAA 256)) ->
               flash s2 (address power_on + k)
               = nth (Z.to_nat k) (repeat 0xAA 256) 0) /\
    (forall k, 0 <= k < Z.of_nat (length [1; 2; 3; 4]) ->
               flash s2 (address power_on + SPM_PAGESIZE atmega644 + k)
               = nth (Z.to_nat k) [1; 2; 3; 4] 0).
Proof.
  apply (consecutive_pages_are_programmed atmega644 128%nat power_on 1 2
           [0; 0; 0; 0; 0; 0; 0] [0; 0; 0; 0; 0; 0; 0]
           (repeat 0xAA 256) [1; 2; 3; 4]).
  - reflexivity.
  - reflexivity.
  - reflexivity.
  - left. reflexivity.
  - apply is_byte_const. reflexivity.
  - right. reflexivity.
  - apply is_byte_const. reflexivity.
  - reflexivity.
  - bytes.
  - reflexivity.
  - bytes.
  - apply Forall_forall. intros x Hx. apply repeat_spec in Hx. subst x.
    apply is_byte_const. reflexivity.
  - bytes.
  - reflexivity.
  - reflexivity.
  - cbn. lia.
  - reflexivity.
  - cbn. lia.
  - cbn. lia.
  - cbn. lia.
Defined.

(** X22.  The timeout code clashes with the command codes: a well-formed
    frame whose command byte is 0x2F ends the session as a timeout does,
    without a reply, and the bytes that follow are not read. *)
Theorem timeout_code_as_command_ends_session d fuel s sq args rest :
  msgParseState s = ST_START ->
  sq = 1 \/ sq = seqNum s -> is_byte sq ->
  Forall is_byte args -> Z.of_nat (length args) < MSG_BUFFER_SIZE ->
  exists s',
    main_loop d fuel s (frame sq (CMD_PROGRAMMER_TIMEOUT :: args) ++ rest) =
      (s', [], Exited) /\
    isLeave s' = 2.
Proof.
  intros Hs Hsq Bsq Ba Hlen. unfold MSG_BUFFER_SIZE in Hlen.
  rewrite main_loop_frame; try assumption.
  - unfold serve_and_go_on, serve.
    assert (D : dispatch d fuel
                  (received s sq (CMD_PROGRAMMER_TIMEOUT :: args))
                = Returns (set_isLeave 2
                     (received s sq (CMD_PROGRAMMER_TIMEOUT :: args)))).
    { unfold dispatch. rewrite received_command. reflexivity. }
    rewrite D. eexists. split; reflexivity.
  - bytes.
  - cbn [length]. rewrite Nat2Z.inj_succ. lia.
Qed.

Lemma timeout_code_as_command_ends_session_witness :
  exists s',
    main_loop atmega644 0 power_on
      (frame 1 (CMD_PROGRAMMER_TIMEOUT :: [0]) ++ frame 2 [CMD_SIGN_ON]) =
      (s', [], Exited) /\
    isLeave s' = 2.
Proof.
  apply (timeout_code_as_command_ends_session atmega644 0%nat power_on 1 [0]
           (frame 2 [CMD_SIGN_ON])).
  - reflexivity.
  - left. reflexivity.
  - apply is_byte_const. reflexivity.
  - bytes.
  - unfold MSG_BUFFER_SIZE. cbn. lia.
Defined.
